(** * EC2 Transit Gateway helpers of the AWS provider: state refresh,
      convergence waits and the multicast-domain association aggregator

    A shallow embedding of the transit-gateway helper file of the
    provider (describe helpers, [StateRefreshFunc] builders, [waitFor...]
    functions and the route-table update helpers).

    Conventions of the embedding
    - A Go pointer [*T] is [option T]; [nil] is [None].  A Go [error] value
      is [option error].  A slice is a [list]; the nil slice is [[]].
    - A Go [map[string]string] is a [gmap string string]; ranging over it
      visits the entries in an order the program does not control, given
      here by a [MapRange].
    - Calls to the remote API go through the connection and are recorded,
      in order, in the trace of the computation; so are the calls to the
      plugin SDK's [WaitForState] and [Retry].
    - [log.Printf] lines only write to the log and are left out. *)

From Stdlib Require Import ZArith Ascii.
From stdpp Require Import gmap strings list fin_maps sorting.

Open Scope string_scope.
Open Scope list_scope.

(** ** Package [aws]: pointer helpers *)

Module aws.
Definition String (v : string) : option string := Some v.
Definition StringValue (p : option string) : string := default "" p.
End aws.

(** ** Package [ec2]: state labels and the shapes the helpers read

    The labels are constants of the API client; their values are the
    strings the API reports.  Of each shape only the fields the helpers
    read are kept. *)

Module ec2.
Definition TransitGatewayStatePending := "pending".
Definition TransitGatewayStateAvailable := "available".
Definition TransitGatewayStateDeleting := "deleting".
Definition TransitGatewayStateDeleted := "deleted".

Definition TransitGatewayRouteTableStatePending := "pending".
Definition TransitGatewayRouteTableStateAvailable := "available".
Definition TransitGatewayRouteTableStateDeleting := "deleting".
Definition TransitGatewayRouteTableStateDeleted := "deleted".

Definition TransitGatewayAssociationStateAssociating := "associating".
Definition TransitGatewayAssociationStateAssociated := "associated".
Definition TransitGatewayAssociationStateDisassociating := "disassociating".

Definition TransitGatewayAttachmentStatePendingAcceptance := "pendingAcceptance".
Definition TransitGatewayAttachmentStatePending := "pending".
Definition TransitGatewayAttachmentStateAvailable := "available".
Definition TransitGatewayAttachmentStateModifying := "modifying".
Definition TransitGatewayAttachmentStateDeleting := "deleting".
Definition TransitGatewayAttachmentStateDeleted := "deleted".
Definition TransitGatewayAttachmentStateFailed := "failed".
Definition TransitGatewayAttachmentStateRejected := "rejected".
Definition TransitGatewayAttachmentStateFailing := "failing".

Definition TransitGatewayMulticastDomainStatePending := "pending".
Definition TransitGatewayMulticastDomainStateAvailable := "available".
Definition TransitGatewayMulticastDomainStateDeleting := "deleting".
Definition TransitGatewayMulticastDomainStateDeleted := "deleted".

Definition AssociationStatusCodeAssociating := "associating".
Definition AssociationStatusCodeAssociated := "associated".
Definition AssociationStatusCodeAssociationFailed := "association-failed".
Definition AssociationStatusCodeDisassociating := "disassociating".
Definition AssociationStatusCodeDisassociated := "disassociated".
End ec2.

Module Filter.
Record t := mk { Name : option string; Values : list (option string) }.
End Filter.

Module TransitGateway.
Record t := mk { TransitGatewayId : option string; State : option string }.
End TransitGateway.

Module TransitGatewayRouteTable.
Record t := mk { TransitGatewayRouteTableId : option string; State : option string }.
End TransitGatewayRouteTable.

Module TransitGatewayRouteTableAssociation.
Record t := mk { TransitGatewayAttachmentId : option string; State : option string }.
End TransitGatewayRouteTableAssociation.

Module TransitGatewayRouteTablePropagation.
Record t := mk { TransitGatewayAttachmentId : option string; State : option string }.
End TransitGatewayRouteTablePropagation.

Module PeeringAttachmentStatus.
Record t := mk { Code : option string; Message : option string }.
End PeeringAttachmentStatus.

Module TransitGatewayPeeringAttachment.
Record t := mk {
  TransitGatewayAttachmentId : option string;
  State : option string;
  Status : option PeeringAttachmentStatus.t }.
End TransitGatewayPeeringAttachment.

Module TransitGatewayVpcAttachment.
Record t := mk { TransitGatewayAttachmentId : option string; State : option string }.
End TransitGatewayVpcAttachment.

Module TransitGatewayMulticastDomain.
Record t := mk { TransitGatewayMulticastDomainId : option string; State : option string }.
End TransitGatewayMulticastDomain.

Module SubnetAssociation.
Record t := mk { SubnetId : option string; State : option string }.
End SubnetAssociation.

Module TransitGatewayMulticastDomainAssociation.
Record t := mk { Subnet : option SubnetAssociation.t }.
End TransitGatewayMulticastDomainAssociation.

Module TransitGatewayMulticastGroup.
Record t := mk { GroupIpAddress : option string; NetworkInterfaceId : option string }.
End TransitGatewayMulticastGroup.

(** Every listing output of the API is a slice of pointers and a
    continuation token. *)
Module Listing.
Record t (T : Type) := mk { Items : list (option T); NextToken : option string }.
Arguments mk {T} _ _.
Arguments Items {T} _.
Arguments NextToken {T} _.
End Listing.

(** ** Errors *)

Inductive error : Type :=
| AWSError (code message : string)      (* an awserr.Error of the API client *)
| ErrorString (text : string)           (* fmt.Errorf *)
| NotFoundError                         (* *resource.NotFoundError *)
| UnexpectedStateError (state : string) (* *resource.UnexpectedStateError *)
| TimeoutError (lastError : string).    (* *resource.TimeoutError *)

Definition errorText (e : error) : string :=
  match e with
  | AWSError code message => code +:+ ": " +:+ message
  | ErrorString text => text
  | NotFoundError => "couldn't find resource"
  | UnexpectedStateError state => "unexpected state '" +:+ state +:+ "'"
  | TimeoutError lastError => "timeout while waiting for state: " +:+ lastError
  end.

(** [fmt.Errorf] with every verb already rendered: the pieces in order. *)
Definition Errorf (pieces : list string) : error :=
  ErrorString (String.concat "" pieces).

(** [strings.Contains]. *)
Fixpoint contains (s sub : string) : bool :=
  String.prefix sub s ||
  match s with
  | EmptyString => false
  | String _ rest => contains rest sub
  end.

(** Modelled from the spec: [isAWSErr] is a helper of the provider that
    these sources call but do not contain.  Section 6 has the core
    recognise "the collaborator's specific not-found error code per
    resource kind": an API error matches when it carries the code and its
    message contains the given text. *)
Definition isAWSErr (err : option error) (code message : string) : bool :=
  match err with
  | Some (AWSError c m) => bool_decide (c = code) && contains m message
  | _ => false
  end.

(** Modelled from the spec: [isResourceNotFoundError] is a helper of the
    provider that is not in these sources.  Section 7 keeps the outcome of
    a wait that found the resource absent apart from every other failure. *)
Definition isResourceNotFoundError (err : option error) : bool :=
  match err with
  | Some NotFoundError => true
  | _ => false
  end.

(** Modelled from the spec: [isResourceTimeoutError] is a helper of the
    provider that is not in these sources.  Sections 4.4 and 7 keep the
    retried-too-long outcome apart from a hard API error. *)
Definition isResourceTimeoutError (err : option error) : bool :=
  match err with
  | Some (TimeoutError _) => true
  | _ => false
  end.

(** ** The remote API *)

Inductive Request : Type :=
| DescribeTransitGateways
    (TransitGatewayIds : list (option string)) (NextToken : option string)
| DescribeTransitGatewayRouteTables
    (TransitGatewayRouteTableIds : list (option string)) (NextToken : option string)
| GetTransitGatewayRouteTableAssociations
    (Filters : list Filter.t) (TransitGatewayRouteTableId : option string)
| GetTransitGatewayRouteTablePropagations
    (Filters : list Filter.t) (TransitGatewayRouteTableId : option string)
| DescribeTransitGatewayPeeringAttachments
    (TransitGatewayAttachmentIds : list (option string)) (NextToken : option string)
| DescribeTransitGatewayVpcAttachments
    (TransitGatewayAttachmentIds : list (option string)) (NextToken : option string)
| DescribeTransitGatewayMulticastDomains
    (Filters : list Filter.t) (TransitGatewayMulticastDomainIds : list (option string))
| GetTransitGatewayMulticastDomainAssociations
    (TransitGatewayMulticastDomainId : option string) (NextToken : option string)
| SearchTransitGatewayMulticastGroups
    (Filters : list Filter.t) (TransitGatewayMulticastDomainId : option string)
    (NextToken : option string)
| AssociateTransitGatewayRouteTable
    (TransitGatewayAttachmentId TransitGatewayRouteTableId : option string)
| DisassociateTransitGatewayRouteTable
    (TransitGatewayAttachmentId TransitGatewayRouteTableId : option string)
| EnableTransitGatewayRouteTablePropagation
    (TransitGatewayAttachmentId TransitGatewayRouteTableId : option string)
| DisableTransitGatewayRouteTablePropagation
    (TransitGatewayAttachmentId TransitGatewayRouteTableId : option string).

Definition Response (r : Request) : Type :=
  match r with
  | DescribeTransitGateways _ _ => Listing.t TransitGateway.t
  | DescribeTransitGatewayRouteTables _ _ => Listing.t TransitGatewayRouteTable.t
  | GetTransitGatewayRouteTableAssociations _ _ =>
      Listing.t TransitGatewayRouteTableAssociation.t
  | GetTransitGatewayRouteTablePropagations _ _ =>
      Listing.t TransitGatewayRouteTablePropagation.t
  | DescribeTransitGatewayPeeringAttachments _ _ =>
      Listing.t TransitGatewayPeeringAttachment.t
  | DescribeTransitGatewayVpcAttachments _ _ => Listing.t TransitGatewayVpcAttachment.t
  | DescribeTransitGatewayMulticastDomains _ _ => Listing.t TransitGatewayMulticastDomain.t
  | GetTransitGatewayMulticastDomainAssociations _ _ =>
      Listing.t TransitGatewayMulticastDomainAssociation.t
  | SearchTransitGatewayMulticastGroups _ _ _ => Listing.t TransitGatewayMulticastGroup.t
  | AssociateTransitGatewayRouteTable _ _ => unit
  | DisassociateTransitGatewayRouteTable _ _ => unit
  | EnableTransitGatewayRouteTablePropagation _ _ => unit
  | DisableTransitGatewayRouteTablePropagation _ _ => unit
  end.

(** The client: each operation answers with an output pointer and an error
    and may change the state [W] of the remote control plane.  A
    connection [conn : *ec2.EC2] is an [option (EC2 W)]. *)
Definition EC2 (W : Type) : Type :=
  ∀ r : Request, W → (option (Response r) * option error) * W.

(** What a computation did, in order: the API operations it called (with
    the error each returned) and the SDK waits it started. *)
Inductive Event : Type :=
| Called (r : Request) (err : option error)
| WaitForStateCalled (Pending Target : list string) (Timeout : Z) (NotFoundChecks : nat)
| RetryCalled (timeout : Z).

(** ** Computations against the remote

    A computation runs from a state of the remote and either returns a
    value, the new state and the events it produced, or panics (a nil
    dereference), or does not return (a pagination that never ends). *)

Inductive outcome (W A : Type) : Type :=
| Done (a : A) (w : W) (trace : list Event)
| Panic
| Diverge.
Arguments Done {W A} _ _ _.
Arguments Panic {W A}.
Arguments Diverge {W A}.

Definition M (W A : Type) : Type := W → outcome W A.

#[export] Instance M_ret {W} : MRet (M W) := λ A a w, Done a w [].
#[export] Instance M_bind {W} : MBind (M W) := λ A B f m w,
  match m w with
  | Done a w1 t1 =>
      match f a w1 with
      | Done b w2 t2 => Done b w2 (t1 ++ t2)
      | Panic => Panic
      | Diverge => Diverge
      end
  | Panic => Panic
  | Diverge => Diverge
  end.

Definition panic {W A} : M W A := λ _, Panic.
Definition diverge {W A} : M W A := λ _, Diverge.
Definition emit {W} (e : Event) : M W unit := λ w, Done tt w [e].

Definition isNil {A} (p : option A) : bool :=
  match p with None => true | Some _ => false end.

(** A method call through [conn]; through a nil connection it dereferences
    the nil client. *)
Definition call {W} (conn : option (EC2 W)) (r : Request)
  : M W (option (Response r) * option error) :=
  λ w, match conn with
       | None => Panic
       | Some c => let '(res, w') := c r w in Done res w' [Called r res.2]
       end.

(** Time, in nanoseconds as [time.Duration] has it. *)
Module time.
Definition Minute : Z := 60000000000.
End time.

(** ** Ranging over a map

    Go visits the entries of a map in an unspecified order.  A [MapRange]
    is one choice of that order for every map. *)
Record MapRange : Type := {
  rangeOrder : gmap string string → list (string * string);
  rangeOrder_perm : ∀ m, rangeOrder m ≡ₚ map_to_list m
}.

(** ** The plugin SDK's wait configuration *)

Definition StateRefreshFunc (W P : Type) : Type := M W (option P * string * option error).

Record StateChangeConf (W P : Type) : Type := {
  Pending : list string;
  Target : list string;
  Refresh : StateRefreshFunc W P;
  Timeout : Z;
  NotFoundChecks : nat
}.
Arguments Pending {W P} _.
Arguments Target {W P} _.
Arguments Refresh {W P} _.
Arguments Timeout {W P} _.
Arguments NotFoundChecks {W P} _.

Inductive RetryError : Type :=
| RetryableError (err : error)
| NonRetryableError (err : error).

(** The group data of a multicast group resource: the two entries the
    waits read from the [map[string]interface{}], at the types they are
    asserted to have. *)
Record GroupData : Type := {
  group_ip_address : string;
  network_interface_ids : list string
}.

(** The first non-nil element whose identifier is [id]: the inner loop of
    the paginated describe helpers. *)
Fixpoint firstWithId {T} (idOf : T → option string) (id : string)
    (items : list (option T)) : option T :=
  match items with
  | [] => None
  | None :: rest => firstWithId idOf id rest
  | Some x :: rest =>
      if decide (aws.StringValue (idOf x) = id) then Some x
      else firstWithId idOf id rest
  end.

(** The plugin SDK, which these sources call but do not contain: the
    convergence engine behind [stateConf.WaitForState()] and the bounded
    retry behind [resource.Retry]. *)
Record SDK (W : Type) : Type := {
  WaitForState : ∀ P : Type, StateChangeConf W P → M W (option P * option error);
  Retry : Z → M W (option RetryError) → M W (option error)
}.
Arguments WaitForState {W} _ {P} _.
Arguments Retry {W} _ _ _.

(** ** The multicast-domain association aggregator, step by step

    The body of the refresh function after the associations are read. *)

(** [subnetStates[aws.StringValue(subnetID)] = ""] for every tracked id. *)
Definition trackSubnets (subnetIDs : list (option string)) : gmap string string :=
  foldl (λ subnetStates subnetID, <[aws.StringValue subnetID := ""]> subnetStates)
        ∅ subnetIDs.

(** The loop over the associations the poll returned.  [None] is the nil
    dereference of [subnet.SubnetId] when an association has no subnet. *)
Fixpoint recordAssociations
    (associations : list (option TransitGatewayMulticastDomainAssociation.t))
    (subnetStates : gmap string string) : option (gmap string string) :=
  match associations with
  | [] => Some subnetStates
  | None :: rest => recordAssociations rest subnetStates
  | Some association :: rest =>
      match TransitGatewayMulticastDomainAssociation.Subnet association with
      | None => None
      | Some subnet =>
          let subnetID := aws.StringValue (SubnetAssociation.SubnetId subnet) in
          match subnetStates !! subnetID with
          | Some _ =>
              recordAssociations rest
                (<[subnetID := aws.StringValue (SubnetAssociation.State subnet)]>
                   subnetStates)
          | None => recordAssociations rest subnetStates
          end
      end
  end.

(** "Not found, mark as functionally disassociated". *)
Definition markNotFound (subnetStates : gmap string string) : gmap string string :=
  (λ subnetState,
     if decide (subnetState = "") then ec2.AssociationStatusCodeDisassociated
     else subnetState) <$> subnetStates.

(** The map the reduction ranges over. *)
Definition polledSubnetStates (subnetIDs : list (option string))
    (associations : list (option TransitGatewayMulticastDomainAssociation.t))
  : option (gmap string string) :=
  markNotFound <$> recordAssociations associations (trackSubnets subnetIDs).

(** The reduction loop, over the states in the order they are visited.
    A [case] with an empty body does nothing: Go does not fall through. *)
Fixpoint compoundStateFrom {P} (associations : P) (compoundState : string)
    (states : list string) : option P * string * option error :=
  match states with
  | [] => (Some associations, compoundState, None)
  | state :: rest =>
      if decide (compoundState = "") then compoundStateFrom associations state rest
      else if decide (state = ec2.AssociationStatusCodeAssociationFailed)
      then compoundStateFrom associations compoundState rest
      else if decide (state = ec2.AssociationStatusCodeDisassociating)
      then compoundStateFrom associations compoundState rest
      else if decide (state = ec2.AssociationStatusCodeAssociating)
      then (Some associations, state, None)
      else if decide (state = ec2.AssociationStatusCodeDisassociated)
      then compoundStateFrom associations compoundState rest
      else if decide (state = ec2.AssociationStatusCodeAssociated)
      then if decide (compoundState ≠ state)
           then (None, "", Some (Errorf ["received conflicting association states"]))
           else compoundStateFrom associations compoundState rest
      else (None, "", Some (Errorf ["unhandled association state: "; state]))
  end.

(** ** The group checks of the register and deregister waits *)

(** The inner loop over [groups]; [None] is the nil dereference of
    [group.NetworkInterfaceId]. *)
Fixpoint groupsHaveInterface (groups : list (option TransitGatewayMulticastGroup.t))
    (netID : string) : option bool :=
  match groups with
  | [] => Some false
  | None :: _ => None
  | Some group :: rest =>
      if decide (aws.StringValue (TransitGatewayMulticastGroup.NetworkInterfaceId group)
                 = netID)
      then Some true
      else groupsHaveInterface rest netID
  end.

(** "find each net ID for this group" *)
Fixpoint allRegistered (groups : list (option TransitGatewayMulticastGroup.t))
    (netIDs : list string) (notAvailable : error) : option (option RetryError) :=
  match netIDs with
  | [] => Some None
  | netID :: rest =>
      match groupsHaveInterface groups netID with
      | None => None
      | Some false => Some (Some (RetryableError notAvailable))
      | Some true => allRegistered groups rest notAvailable
      end
  end.

(** "make sure no net IDs from this group are found" *)
Fixpoint noneRegistered (groups : list (option TransitGatewayMulticastGroup.t))
    (netIDs : list string) (stillAvailable : error) : option (option RetryError) :=
  match netIDs with
  | [] => Some None
  | netID :: rest =>
      match groupsHaveInterface groups netID with
      | None => None
      | Some true => Some (Some (RetryableError stillAvailable))
      | Some false => noneRegistered groups rest stillAvailable
      end
  end.

Definition errText (err : option error) : string :=
  match err with
  | Some e => errorText e
  | None => "%!s(<nil>)"
  end.

Section Helpers.
Context {W : Type}.

(** How many pages a pagination loop may follow before it counts as not
    returning. *)
Variable maxPages : nat.

(** The order in which [range] visits a map, the SDK, and how [%s]
    renders the group data in a message. *)
Variable range : MapRange.
Variable sdk : SDK W.
Variable showGroupData : GroupData → string.

Abbreviation Conn := (option (EC2 W)).

(** *** Describe helpers *)

Fixpoint ec2DescribeTransitGateway_from (pages : nat) (conn : Conn)
    (transitGatewayID : string) (NextToken : option string)
  : M W (option TransitGateway.t * option error) :=
  match pages with
  | O => diverge
  | S pages' =>
      '(output, err) ← call conn
         (DescribeTransitGateways [aws.String transitGatewayID] NextToken);
      match err, output with
      | Some e, _ => mret (None, Some e)
      | None, None => mret (None, None)
      | None, Some out =>
          if decide (length (Listing.Items out) = 0) then mret (None, None)
          else match firstWithId TransitGateway.TransitGatewayId transitGatewayID
                       (Listing.Items out) with
               | Some transitGateway => mret (Some transitGateway, None)
               | None =>
                   if decide (aws.StringValue (Listing.NextToken out) = "")
                   then mret (None, None)
                   else ec2DescribeTransitGateway_from pages' conn transitGatewayID
                          (Listing.NextToken out)
               end
      end
  end.

Definition ec2DescribeTransitGateway (conn : Conn) (transitGatewayID : string) :=
  ec2DescribeTransitGateway_from maxPages conn transitGatewayID None.

Fixpoint ec2DescribeTransitGatewayRouteTable_from (pages : nat) (conn : Conn)
    (transitGatewayRouteTableID : string) (NextToken : option string)
  : M W (option TransitGatewayRouteTable.t * option error) :=
  match pages with
  | O => diverge
  | S pages' =>
      '(output, err) ← call conn
         (DescribeTransitGatewayRouteTables [aws.String transitGatewayRouteTableID]
            NextToken);
      match err, output with
      | Some e, _ => mret (None, Some e)
      | None, None => mret (None, None)
      | None, Some out =>
          if decide (length (Listing.Items out) = 0) then mret (None, None)
          else match firstWithId TransitGatewayRouteTable.TransitGatewayRouteTableId
                       transitGatewayRouteTableID (Listing.Items out) with
               | Some transitGatewayRouteTable =>
                   mret (Some transitGatewayRouteTable, None)
               | None =>
                   if decide (aws.StringValue (Listing.NextToken out) = "")
                   then mret (None, None)
                   else ec2DescribeTransitGatewayRouteTable_from pages' conn
                          transitGatewayRouteTableID (Listing.NextToken out)
               end
      end
  end.

Definition ec2DescribeTransitGatewayRouteTable (conn : Conn)
    (transitGatewayRouteTableID : string) :=
  ec2DescribeTransitGatewayRouteTable_from maxPages conn transitGatewayRouteTableID None.

Definition attachmentFilter (transitGatewayAttachmentID : string) : list Filter.t :=
  [ Filter.mk (aws.String "transit-gateway-attachment-id")
      [aws.String transitGatewayAttachmentID] ].

Definition ec2DescribeTransitGatewayRouteTableAssociation (conn : Conn)
    (transitGatewayRouteTableID transitGatewayAttachmentID : string)
  : M W (option TransitGatewayRouteTableAssociation.t * option error) :=
  if decide (transitGatewayRouteTableID = "") then mret (None, None)
  else
    '(output, err) ← call conn
       (GetTransitGatewayRouteTableAssociations
          (attachmentFilter transitGatewayAttachmentID)
          (aws.String transitGatewayRouteTableID));
    match err, output with
    | Some e, _ => mret (None, Some e)
    | None, None => mret (None, None)
    | None, Some out =>
        match Listing.Items out with
        | [] => mret (None, None)
        | first :: _ => mret (first, None)
        end
    end.

Definition ec2DescribeTransitGatewayRouteTablePropagation (conn : Conn)
    (transitGatewayRouteTableID transitGatewayAttachmentID : string)
  : M W (option TransitGatewayRouteTablePropagation.t * option error) :=
  if decide (transitGatewayRouteTableID = "") then mret (None, None)
  else
    '(output, err) ← call conn
       (GetTransitGatewayRouteTablePropagations
          (attachmentFilter transitGatewayAttachmentID)
          (aws.String transitGatewayRouteTableID));
    match err, output with
    | Some e, _ => mret (None, Some e)
    | None, None => mret (None, None)
    | None, Some out =>
        match Listing.Items out with
        | [] => mret (None, None)
        | first :: _ => mret (first, None)
        end
    end.

Fixpoint ec2DescribeTransitGatewayPeeringAttachment_from (pages : nat) (conn : Conn)
    (transitGatewayAttachmentID : string) (NextToken : option string)
  : M W (option TransitGatewayPeeringAttachment.t * option error) :=
  match pages with
  | O => diverge
  | S pages' =>
      '(output, err) ← call conn
         (DescribeTransitGatewayPeeringAttachments
            [aws.String transitGatewayAttachmentID] NextToken);
      match err, output with
      | Some e, _ => mret (None, Some e)
      | None, None => mret (None, None)
      | None, Some out =>
          if decide (length (Listing.Items out) = 0) then mret (None, None)
          else match firstWithId TransitGatewayPeeringAttachment.TransitGatewayAttachmentId
                       transitGatewayAttachmentID (Listing.Items out) with
               | Some transitGatewayPeeringAttachment =>
                   mret (Some transitGatewayPeeringAttachment, None)
               | None =>
                   if decide (aws.StringValue (Listing.NextToken out) = "")
                   then mret (None, None)
                   else ec2DescribeTransitGatewayPeeringAttachment_from pages' conn
                          transitGatewayAttachmentID (Listing.NextToken out)
               end
      end
  end.

Definition ec2DescribeTransitGatewayPeeringAttachment (conn : Conn)
    (transitGatewayAttachmentID : string) :=
  ec2DescribeTransitGatewayPeeringAttachment_from maxPages conn
    transitGatewayAttachmentID None.

Fixpoint ec2DescribeTransitGatewayVpcAttachment_from (pages : nat) (conn : Conn)
    (transitGatewayAttachmentID : string) (NextToken : option string)
  : M W (option TransitGatewayVpcAttachment.t * option error) :=
  match pages with
  | O => diverge
  | S pages' =>
      '(output, err) ← call conn
         (DescribeTransitGatewayVpcAttachments
            [aws.String transitGatewayAttachmentID] NextToken);
      match err, output with
      | Some e, _ => mret (None, Some e)
      | None, None => mret (None, None)
      | None, Some out =>
          if decide (length (Listing.Items out) = 0) then mret (None, None)
          else match firstWithId TransitGatewayVpcAttachment.TransitGatewayAttachmentId
                       transitGatewayAttachmentID (Listing.Items out) with
               | Some transitGatewayVpcAttachment =>
                   mret (Some transitGatewayVpcAttachment, None)
               | None =>
                   if decide (aws.StringValue (Listing.NextToken out) = "")
                   then mret (None, None)
                   else ec2DescribeTransitGatewayVpcAttachment_from pages' conn
                          transitGatewayAttachmentID (Listing.NextToken out)
               end
      end
  end.

Definition ec2DescribeTransitGatewayVpcAttachment (conn : Conn)
    (transitGatewayAttachmentID : string) :=
  ec2DescribeTransitGatewayVpcAttachment_from maxPages conn
    transitGatewayAttachmentID None.

Definition ec2DescribeTransitGatewayMulticastDomain (conn : Conn) (domainID : string)
  : M W (option TransitGatewayMulticastDomain.t * option error) :=
  if isNil conn || bool_decide (domainID = "") then mret (None, None)
  else
    '(output, err) ← call conn
       (DescribeTransitGatewayMulticastDomains
          [ Filter.mk (aws.String "transit-gateway-multicast-domain-id")
              [aws.String domainID] ]
          [aws.String domainID]);
    match err, output with
    | Some e, _ => mret (None, Some e)
    | None, None => mret (None, None)
    | None, Some out =>
        match Listing.Items out with
        | [] => mret (None, None)
        | first :: _ => mret (first, None)
        end
    end.

Fixpoint ec2GetTransitGatewayMulticastDomainAssociations_from (pages : nat)
    (conn : Conn) (domainID : string) (NextToken : option string)
    (associations : list (option TransitGatewayMulticastDomainAssociation.t))
  : M W (list (option TransitGatewayMulticastDomainAssociation.t) * option error) :=
  match pages with
  | O => diverge
  | S pages' =>
      '(output, err) ← call conn
         (GetTransitGatewayMulticastDomainAssociations (aws.String domainID) NextToken);
      match err, output with
      | Some e, _ => mret ([], Some e)
      | None, None => mret ([], None)
      | None, Some out =>
          let associations := associations ++ Listing.Items out in
          if decide (aws.StringValue (Listing.NextToken out) = "")
          then mret (associations, None)
          else ec2GetTransitGatewayMulticastDomainAssociations_from pages' conn
                 domainID (Listing.NextToken out) associations
      end
  end.

Definition ec2GetTransitGatewayMulticastDomainAssociations (conn : Conn)
    (domainID : string)
  : M W (list (option TransitGatewayMulticastDomainAssociation.t) * option error) :=
  if isNil conn || bool_decide (domainID = "") then mret ([], None)
  else ec2GetTransitGatewayMulticastDomainAssociations_from maxPages conn domainID
         None [].

Fixpoint ec2SearchTransitGatewayMulticastDomainGroups_from (pages : nat)
    (conn : Conn) (domainID : string) (filters : list Filter.t)
    (NextToken : option string)
    (groups : list (option TransitGatewayMulticastGroup.t))
  : M W (list (option TransitGatewayMulticastGroup.t) * option error) :=
  match pages with
  | O => diverge
  | S pages' =>
      '(output, err) ← call conn
         (SearchTransitGatewayMulticastGroups filters (aws.String domainID) NextToken);
      match err, output with
      | Some e, _ => mret ([], Some e)
      | None, None => mret ([], None)
      | None, Some out =>
          let groups := groups ++ Listing.Items out in
          if decide (aws.StringValue (Listing.NextToken out) = "")
          then mret (groups, None)
          else ec2SearchTransitGatewayMulticastDomainGroups_from pages' conn
                 domainID filters (Listing.NextToken out) groups
      end
  end.

Definition ec2SearchTransitGatewayMulticastDomainGroups (conn : Conn)
    (domainID : string) (filters : list Filter.t)
  : M W (list (option TransitGatewayMulticastGroup.t) * option error) :=
  if isNil conn || bool_decide (domainID = "") then mret ([], None)
  else ec2SearchTransitGatewayMulticastDomainGroups_from maxPages conn domainID
         filters None [].

Definition ec2SearchTransitGatewayMulticastDomainGroupsTypeFilter (member : bool)
  : list Filter.t :=
  if member
  then [ Filter.mk (aws.String "is-group-member") [aws.String "true"] ]
  else [ Filter.mk (aws.String "is-group-source") [aws.String "true"] ].

Definition ec2SearchTransitGatewayMulticastDomainGroupsByType (conn : Conn)
    (domainID : string) (member : bool) :=
  ec2SearchTransitGatewayMulticastDomainGroups conn domainID
    (ec2SearchTransitGatewayMulticastDomainGroupsTypeFilter member).

Definition ec2SearchTransitGatewayMulticastDomainGroupIpFilters (member : bool)
    (groupIP : string) : list Filter.t :=
  ec2SearchTransitGatewayMulticastDomainGroupsTypeFilter member ++
  [ Filter.mk (aws.String "group-ip-address") [aws.String groupIP] ].

(** *** Update helpers and refresh functions *)

Definition ec2TransitGatewayRefreshFunc (conn : Conn) (transitGatewayID : string)
  : StateRefreshFunc W TransitGateway.t :=
  '(transitGateway, err) ← ec2DescribeTransitGateway conn transitGatewayID;
  if isAWSErr err "InvalidTransitGatewayID.NotFound" ""
  then mret (None, ec2.TransitGatewayStateDeleted, None)
  else match err with
       | Some e =>
           mret (None, "", Some (Errorf ["error reading EC2 Transit Gateway (";
                                         transitGatewayID; "): "; errorText e]))
       | None =>
           match transitGateway with
           | None => mret (None, ec2.TransitGatewayStateDeleted, None)
           | Some tgw =>
               mret (Some tgw, aws.StringValue (TransitGateway.State tgw), None)
           end
       end.

Definition ec2TransitGatewayRouteTableRefreshFunc (conn : Conn)
    (transitGatewayRouteTableID : string)
  : StateRefreshFunc W TransitGatewayRouteTable.t :=
  '(transitGatewayRouteTable, err) ←
     ec2DescribeTransitGatewayRouteTable conn transitGatewayRouteTableID;
  if isAWSErr err "InvalidRouteTableID.NotFound" ""
  then mret (None, ec2.TransitGatewayRouteTableStateDeleted, None)
  else match err with
       | Some e =>
           mret (None, "", Some (Errorf ["error reading EC2 Transit Gateway Route Table (";
                                         transitGatewayRouteTableID; "): "; errorText e]))
       | None =>
           match transitGatewayRouteTable with
           | None => mret (None, ec2.TransitGatewayRouteTableStateDeleted, None)
           | Some rtb =>
               mret (Some rtb, aws.StringValue (TransitGatewayRouteTable.State rtb), None)
           end
       end.

Definition ec2TransitGatewayRouteTableAssociationRefreshFunc (conn : Conn)
    (transitGatewayRouteTableID transitGatewayAttachmentID : string)
  : StateRefreshFunc W TransitGatewayRouteTableAssociation.t :=
  '(transitGatewayAssociation, err) ←
     ec2DescribeTransitGatewayRouteTableAssociation conn transitGatewayRouteTableID
       transitGatewayAttachmentID;
  if isAWSErr err "InvalidRouteTableID.NotFound" ""
  then mret (None, ec2.TransitGatewayRouteTableStateDeleted, None)
  else match err with
       | Some e =>
           mret (None, "",
                 Some (Errorf ["error reading EC2 Transit Gateway Route Table (";
                               transitGatewayRouteTableID; ") Association for (";
                               transitGatewayAttachmentID; "): "; errorText e]))
       | None =>
           match transitGatewayAssociation with
           | None => mret (None, ec2.TransitGatewayRouteTableStateDeleted, None)
           | Some assoc =>
               mret (Some assoc,
                     aws.StringValue (TransitGatewayRouteTableAssociation.State assoc),
                     None)
           end
       end.

Definition ec2TransitGatewayPeeringAttachmentRefreshFunc (conn : Conn)
    (transitGatewayAttachmentID : string)
  : StateRefreshFunc W TransitGatewayPeeringAttachment.t :=
  '(transitGatewayPeeringAttachment, err) ←
     ec2DescribeTransitGatewayPeeringAttachment conn transitGatewayAttachmentID;
  if isAWSErr err "InvalidTransitGatewayAttachmentID.NotFound" ""
  then mret (None, ec2.TransitGatewayAttachmentStateDeleted, None)
  else match err with
       | Some e =>
           mret (None, "",
                 Some (Errorf ["error reading EC2 Transit Gateway Peering Attachment (";
                               transitGatewayAttachmentID; "): "; errorText e]))
       | None =>
           match transitGatewayPeeringAttachment with
           | None => mret (None, ec2.TransitGatewayAttachmentStateDeleted, None)
           | Some att =>
               let state := aws.StringValue (TransitGatewayPeeringAttachment.State att) in
               match decide (state = ec2.TransitGatewayAttachmentStateFailed),
                     TransitGatewayPeeringAttachment.Status att with
               | left _, Some status =>
                   mret (Some att, state,
                         Some (Errorf [aws.StringValue (PeeringAttachmentStatus.Code status);
                                       ": ";
                                       aws.StringValue (PeeringAttachmentStatus.Message status)]))
               | _, _ => mret (Some att, state, None)
               end
           end
       end.

Definition ec2TransitGatewayVpcAttachmentRefreshFunc (conn : Conn)
    (transitGatewayAttachmentID : string)
  : StateRefreshFunc W TransitGatewayVpcAttachment.t :=
  '(transitGatewayVpcAttachment, err) ←
     ec2DescribeTransitGatewayVpcAttachment conn transitGatewayAttachmentID;
  if isAWSErr err "InvalidTransitGatewayAttachmentID.NotFound" ""
  then mret (None, ec2.TransitGatewayAttachmentStateDeleted, None)
  else match err with
       | Some e =>
           mret (None, "",
                 Some (Errorf ["error reading EC2 Transit Gateway VPC Attachment (";
                               transitGatewayAttachmentID; "): "; errorText e]))
       | None =>
           match transitGatewayVpcAttachment with
           | None => mret (None, ec2.TransitGatewayAttachmentStateDeleted, None)
           | Some att =>
               mret (Some att, aws.StringValue (TransitGatewayVpcAttachment.State att), None)
           end
       end.

Definition ec2TransitGatewayMulticastDomainRefreshFunc (conn : Conn) (domainID : string)
  : StateRefreshFunc W TransitGatewayMulticastDomain.t :=
  '(multicastDomain, err) ← ec2DescribeTransitGatewayMulticastDomain conn domainID;
  if isAWSErr err "InvalidTransitGatewayMulticastDomainId.NotFound" ""
  then mret (None, ec2.TransitGatewayMulticastDomainStateDeleted, None)
  else match err with
       | Some e =>
           mret (None, "",
                 Some (Errorf ["error reading EC2 Transit Gateway Multicast Domain (";
                               domainID; "): "; errorText e]))
       | None =>
           match multicastDomain with
           | None => mret (None, ec2.TransitGatewayMulticastDomainStateDeleted, None)
           | Some domain =>
               mret (Some domain,
                     aws.StringValue (TransitGatewayMulticastDomain.State domain), None)
           end
       end.

Definition ec2TransitGatewayMulticastDomainAssociationRefreshFunc (conn : Conn)
    (domainID : string) (subnetIDs : list (option string))
  : StateRefreshFunc W (list (option TransitGatewayMulticastDomainAssociation.t)) :=
  '(associations, err) ← ec2GetTransitGatewayMulticastDomainAssociations conn domainID;
  match err with
  | Some e =>
      mret (None, "",
            Some (Errorf ["error reading EC2 Transit Gateway Multicast Domain associations: ";
                          errorText e]))
  | None =>
      match polledSubnetStates subnetIDs associations with
      | None => panic
      | Some subnetStates =>
          mret (compoundStateFrom associations "" (rangeOrder range subnetStates).*2)
      end
  end.

(** *** Waits *)

(** [stateConf.WaitForState()]. *)
Definition StateChangeConf_WaitForState {P} (stateConf : StateChangeConf W P)
  : M W (option P * option error) :=
  emit (WaitForStateCalled (Pending stateConf) (Target stateConf)
          (Timeout stateConf) (NotFoundChecks stateConf));;
  WaitForState sdk stateConf.

(** [resource.Retry(timeout, f)]. *)
Definition resource_Retry (timeout : Z) (f : M W (option RetryError))
  : M W (option error) :=
  emit (RetryCalled timeout);;
  Retry sdk timeout f.

Definition waitForEc2TransitGatewayCreation_stateConf (conn : Conn) (transitGatewayID : string) :=
  {|
    Pending := [ec2.TransitGatewayStatePending];
    Target := [ec2.TransitGatewayStateAvailable];
    Refresh := ec2TransitGatewayRefreshFunc conn transitGatewayID;
    Timeout := 10 * time.Minute;
    NotFoundChecks := 0 |}.

Definition waitForEc2TransitGatewayCreation (conn : Conn) (transitGatewayID : string)
  : M W (option error) :=
  let stateConf := waitForEc2TransitGatewayCreation_stateConf conn transitGatewayID in
  '(_, err) ← StateChangeConf_WaitForState stateConf;
  mret err.

Definition waitForEc2TransitGatewayDeletion_stateConf (conn : Conn) (transitGatewayID : string) :=
  {|
    Pending := [ec2.TransitGatewayStateAvailable; ec2.TransitGatewayStateDeleting];
    Target := [ec2.TransitGatewayStateDeleted];
    Refresh := ec2TransitGatewayRefreshFunc conn transitGatewayID;
    Timeout := 10 * time.Minute;
    NotFoundChecks := 1 |}.

Definition waitForEc2TransitGatewayDeletion (conn : Conn) (transitGatewayID : string)
  : M W (option error) :=
  let stateConf := waitForEc2TransitGatewayDeletion_stateConf conn transitGatewayID in
  '(_, err) ← StateChangeConf_WaitForState stateConf;
  if isResourceNotFoundError err then mret None else mret err.

Definition waitForEc2TransitGatewayRouteTableCreation_stateConf (conn : Conn)
    (transitGatewayRouteTableID : string) :=
  {|
    Pending := [ec2.TransitGatewayRouteTableStatePending];
    Target := [ec2.TransitGatewayRouteTableStateAvailable];
    Refresh := ec2TransitGatewayRouteTableRefreshFunc conn transitGatewayRouteTableID;
    Timeout := 10 * time.Minute;
    NotFoundChecks := 0 |}.

Definition waitForEc2TransitGatewayRouteTableCreation (conn : Conn)
    (transitGatewayRouteTableID : string) : M W (option error) :=
  let stateConf :=
    waitForEc2TransitGatewayRouteTableCreation_stateConf
      conn transitGatewayRouteTableID in
  '(_, err) ← StateChangeConf_WaitForState stateConf;
  mret err.

Definition waitForEc2TransitGatewayRouteTableDeletion_stateConf (conn : Conn)
    (transitGatewayRouteTableID : string) :=
  {|
    Pending := [ec2.TransitGatewayRouteTableStateAvailable;
                ec2.TransitGatewayRouteTableStateDeleting];
    Target := [ec2.TransitGatewayRouteTableStateDeleted];
    Refresh := ec2TransitGatewayRouteTableRefreshFunc conn transitGatewayRouteTableID;
    Timeout := 10 * time.Minute;
    NotFoundChecks := 1 |}.

Definition waitForEc2TransitGatewayRouteTableDeletion (conn : Conn)
    (transitGatewayRouteTableID : string) : M W (option error) :=
  let stateConf :=
    waitForEc2TransitGatewayRouteTableDeletion_stateConf
      conn transitGatewayRouteTableID in
  '(_, err) ← StateChangeConf_WaitForState stateConf;
  if isResourceNotFoundError err then mret None else mret err.

Definition waitForEc2TransitGatewayRouteTableAssociationCreation_stateConf (conn : Conn)
    (transitGatewayRouteTableID transitGatewayAttachmentID : string) :=
  {|
    Pending := [ec2.TransitGatewayAssociationStateAssociating];
    Target := [ec2.TransitGatewayAssociationStateAssociated];
    Refresh := ec2TransitGatewayRouteTableAssociationRefreshFunc conn
                 transitGatewayRouteTableID transitGatewayAttachmentID;
    Timeout := 5 * time.Minute;
    NotFoundChecks := 0 |}.

Definition waitForEc2TransitGatewayRouteTableAssociationCreation (conn : Conn)
    (transitGatewayRouteTableID transitGatewayAttachmentID : string)
  : M W (option error) :=
  let stateConf :=
    waitForEc2TransitGatewayRouteTableAssociationCreation_stateConf
      conn transitGatewayRouteTableID transitGatewayAttachmentID in
  '(_, err) ← StateChangeConf_WaitForState stateConf;
  mret err.

Definition waitForEc2TransitGatewayRouteTableAssociationDeletion_stateConf (conn : Conn)
    (transitGatewayRouteTableID transitGatewayAttachmentID : string) :=
  {|
    Pending := [ec2.TransitGatewayAssociationStateAssociated;
                ec2.TransitGatewayAssociationStateDisassociating];
    Target := [""];
    Refresh := ec2TransitGatewayRouteTableAssociationRefreshFunc conn
                 transitGatewayRouteTableID transitGatewayAttachmentID;
    Timeout := 5 * time.Minute;
    NotFoundChecks := 1 |}.

Definition waitForEc2TransitGatewayRouteTableAssociationDeletion (conn : Conn)
    (transitGatewayRouteTableID transitGatewayAttachmentID : string)
  : M W (option error) :=
  let stateConf :=
    waitForEc2TransitGatewayRouteTableAssociationDeletion_stateConf
      conn transitGatewayRouteTableID transitGatewayAttachmentID in
  '(_, err) ← StateChangeConf_WaitForState stateConf;
  if isResourceNotFoundError err then mret None else mret err.

Definition waitForEc2TransitGatewayPeeringAttachmentAcceptance_stateConf (conn : Conn)
    (transitGatewayAttachmentID : string) :=
  {|
    Pending := [ec2.TransitGatewayAttachmentStatePending;
                ec2.TransitGatewayAttachmentStatePendingAcceptance];
    Target := [ec2.TransitGatewayAttachmentStateAvailable];
    Refresh := ec2TransitGatewayPeeringAttachmentRefreshFunc conn
                 transitGatewayAttachmentID;
    Timeout := 10 * time.Minute;
    NotFoundChecks := 0 |}.

Definition waitForEc2TransitGatewayPeeringAttachmentAcceptance (conn : Conn)
    (transitGatewayAttachmentID : string) : M W (option error) :=
  let stateConf :=
    waitForEc2TransitGatewayPeeringAttachmentAcceptance_stateConf
      conn transitGatewayAttachmentID in
  '(_, err) ← StateChangeConf_WaitForState stateConf;
  mret err.

Definition waitForEc2TransitGatewayPeeringAttachmentCreation_stateConf (conn : Conn)
    (transitGatewayAttachmentID : string) :=
  {|
    Pending := [ec2.TransitGatewayAttachmentStateFailing;
                ec2.TransitGatewayAttachmentStatePending;
                "initiatingRequest"];
    Target := [ec2.TransitGatewayAttachmentStateAvailable;
               ec2.TransitGatewayAttachmentStatePendingAcceptance];
    Refresh := ec2TransitGatewayPeeringAttachmentRefreshFunc conn
                 transitGatewayAttachmentID;
    Timeout := 10 * time.Minute;
    NotFoundChecks := 0 |}.

Definition waitForEc2TransitGatewayPeeringAttachmentCreation (conn : Conn)
    (transitGatewayAttachmentID : string) : M W (option error) :=
  let stateConf :=
    waitForEc2TransitGatewayPeeringAttachmentCreation_stateConf
      conn transitGatewayAttachmentID in
  '(_, err) ← StateChangeConf_WaitForState stateConf;
  mret err.

Definition waitForEc2TransitGatewayPeeringAttachmentDeletion_stateConf (conn : Conn)
    (transitGatewayAttachmentID : string) :=
  {|
    Pending := [ec2.TransitGatewayAttachmentStateAvailable;
                ec2.TransitGatewayAttachmentStateDeleting;
                ec2.TransitGatewayAttachmentStatePendingAcceptance;
                ec2.TransitGatewayAttachmentStateRejected];
    Target := [ec2.TransitGatewayAttachmentStateDeleted];
    Refresh := ec2TransitGatewayPeeringAttachmentRefreshFunc conn
                 transitGatewayAttachmentID;
    Timeout := 10 * time.Minute;
    NotFoundChecks := 0 |}.

Definition waitForEc2TransitGatewayPeeringAttachmentDeletion (conn : Conn)
    (transitGatewayAttachmentID : string) : M W (option error) :=
  let stateConf :=
    waitForEc2TransitGatewayPeeringAttachmentDeletion_stateConf
      conn transitGatewayAttachmentID in
  '(_, err) ← StateChangeConf_WaitForState stateConf;
  if isResourceNotFoundError err then mret None else mret err.

Definition waitForEc2TransitGatewayVpcAttachmentAcceptance_stateConf (conn : Conn)
    (transitGatewayAttachmentID : string) :=
  {|
    Pending := [ec2.TransitGatewayAttachmentStatePending;
                ec2.TransitGatewayAttachmentStatePendingAcceptance];
    Target := [ec2.TransitGatewayAttachmentStateAvailable];
    Refresh := ec2TransitGatewayVpcAttachmentRefreshFunc conn transitGatewayAttachmentID;
    Timeout := 10 * time.Minute;
    NotFoundChecks := 0 |}.

Definition waitForEc2TransitGatewayVpcAttachmentAcceptance (conn : Conn)
    (transitGatewayAttachmentID : string) : M W (option error) :=
  let stateConf :=
    waitForEc2TransitGatewayVpcAttachmentAcceptance_stateConf
      conn transitGatewayAttachmentID in
  '(_, err) ← StateChangeConf_WaitForState stateConf;
  mret err.

Definition waitForEc2TransitGatewayVpcAttachmentCreation_stateConf (conn : Conn)
    (transitGatewayAttachmentID : string) :=
  {|
    Pending := [ec2.TransitGatewayAttachmentStatePending];
    Target := [ec2.TransitGatewayAttachmentStatePendingAcceptance;
               ec2.TransitGatewayAttachmentStateAvailable];
    Refresh := ec2TransitGatewayVpcAttachmentRefreshFunc conn transitGatewayAttachmentID;
    Timeout := 10 * time.Minute;
    NotFoundChecks := 0 |}.

Definition waitForEc2TransitGatewayVpcAttachmentCreation (conn : Conn)
    (transitGatewayAttachmentID : string) : M W (option error) :=
  let stateConf :=
    waitForEc2TransitGatewayVpcAttachmentCreation_stateConf
      conn transitGatewayAttachmentID in
  '(_, err) ← StateChangeConf_WaitForState stateConf;
  mret err.

Definition waitForEc2TransitGatewayVpcAttachmentDeletion_stateConf (conn : Conn)
    (transitGatewayAttachmentID : string) :=
  {|
    Pending := [ec2.TransitGatewayAttachmentStateAvailable;
                ec2.TransitGatewayAttachmentStateDeleting];
    Target := [ec2.TransitGatewayAttachmentStateDeleted];
    Refresh := ec2TransitGatewayVpcAttachmentRefreshFunc conn transitGatewayAttachmentID;
    Timeout := 10 * time.Minute;
    NotFoundChecks := 1 |}.

Definition waitForEc2TransitGatewayVpcAttachmentDeletion (conn : Conn)
    (transitGatewayAttachmentID : string) : M W (option error) :=
  let stateConf :=
    waitForEc2TransitGatewayVpcAttachmentDeletion_stateConf
      conn transitGatewayAttachmentID in
  '(_, err) ← StateChangeConf_WaitForState stateConf;
  if isResourceNotFoundError err then mret None else mret err.

Definition waitForEc2TransitGatewayVpcAttachmentUpdate_stateConf (conn : Conn)
    (transitGatewayAttachmentID : string) :=
  {|
    Pending := [ec2.TransitGatewayAttachmentStateModifying];
    Target := [ec2.TransitGatewayAttachmentStateAvailable];
    Refresh := ec2TransitGatewayVpcAttachmentRefreshFunc conn transitGatewayAttachmentID;
    Timeout := 10 * time.Minute;
    NotFoundChecks := 0 |}.

Definition waitForEc2TransitGatewayVpcAttachmentUpdate (conn : Conn)
    (transitGatewayAttachmentID : string) : M W (option error) :=
  let stateConf :=
    waitForEc2TransitGatewayVpcAttachmentUpdate_stateConf
      conn transitGatewayAttachmentID in
  '(_, err) ← StateChangeConf_WaitForState stateConf;
  mret err.

Definition waitForEc2TransitGatewayMulticastDomainCreation_stateConf (conn : Conn)
    (domainID : string) :=
  {|
    Pending := [ec2.TransitGatewayMulticastDomainStatePending];
    Target := [ec2.TransitGatewayMulticastDomainStateAvailable];
    Refresh := ec2TransitGatewayMulticastDomainRefreshFunc conn domainID;
    Timeout := 10 * time.Minute;
    NotFoundChecks := 0 |}.

Definition waitForEc2TransitGatewayMulticastDomainCreation (conn : Conn)
    (domainID : string) : M W (option error) :=
  let stateConf :=
    waitForEc2TransitGatewayMulticastDomainCreation_stateConf
      conn domainID in
  '(_, err) ← StateChangeConf_WaitForState stateConf;
  mret err.

Definition waitForEc2TransitGatewayMulticastDomainDeletion_stateConf (conn : Conn)
    (domainID : string) :=
  {|
    Pending := [ec2.TransitGatewayMulticastDomainStateAvailable;
                ec2.TransitGatewayMulticastDomainStateDeleting];
    Target := [ec2.TransitGatewayMulticastDomainStateDeleted];
    Refresh := ec2TransitGatewayMulticastDomainRefreshFunc conn domainID;
    Timeout := 10 * time.Minute;
    NotFoundChecks := 1 |}.

Definition waitForEc2TransitGatewayMulticastDomainDeletion (conn : Conn)
    (domainID : string) : M W (option error) :=
  let stateConf :=
    waitForEc2TransitGatewayMulticastDomainDeletion_stateConf
      conn domainID in
  '(_, err) ← StateChangeConf_WaitForState stateConf;
  if isResourceNotFoundError err then mret None else mret err.

Definition waitForEc2TransitGatewayMulticastDomainAssociation_stateConf (conn : Conn)
    (domainID : string) (subnetIDs : list (option string)) :=
  {|
    Pending := [ec2.AssociationStatusCodeAssociating];
    Target := [ec2.AssociationStatusCodeAssociated];
    Refresh := ec2TransitGatewayMulticastDomainAssociationRefreshFunc conn domainID
                 subnetIDs;
    Timeout := 10 * time.Minute;
    NotFoundChecks := 0 |}.

Definition waitForEc2TransitGatewayMulticastDomainAssociation (conn : Conn)
    (domainID : string) (subnetIDs : list (option string)) : M W (option error) :=
  let stateConf :=
    waitForEc2TransitGatewayMulticastDomainAssociation_stateConf
      conn domainID subnetIDs in
  '(_, err) ← StateChangeConf_WaitForState stateConf;
  mret err.

Definition waitForEc2TransitGatewayMulticastDomainDisassociation_stateConf (conn : Conn)
    (domainID : string) (subnetIDs : list (option string)) :=
  {|
    Pending := [ec2.AssociationStatusCodeAssociated;
                ec2.AssociationStatusCodeDisassociating];
    Target := [ec2.AssociationStatusCodeDisassociated];
    Refresh := ec2TransitGatewayMulticastDomainAssociationRefreshFunc conn domainID
                 subnetIDs;
    Timeout := 10 * time.Minute;
    NotFoundChecks := 1 |}.

Definition waitForEc2TransitGatewayMulticastDomainDisassociation (conn : Conn)
    (domainID : string) (subnetIDs : list (option string)) : M W (option error) :=
  let stateConf :=
    waitForEc2TransitGatewayMulticastDomainDisassociation_stateConf
      conn domainID subnetIDs in
  '(_, err) ← StateChangeConf_WaitForState stateConf;
  if isResourceNotFoundError err then mret None else mret err.

Definition waitForEc2TransitGatewayMulticastDomainGroupRegister (conn : Conn)
    (domainID : string) (groupData : GroupData) (member : bool) : M W (option error) :=
  let filters :=
    ec2SearchTransitGatewayMulticastDomainGroupIpFilters member
      (group_ip_address groupData) in
  let netIDs := network_interface_ids groupData in
  err ← resource_Retry (2 * time.Minute)
    ('(groups, err) ← ec2SearchTransitGatewayMulticastDomainGroups conn domainID filters;
     match err with
     | Some e => mret (Some (NonRetryableError e))
     | None =>
         match allRegistered groups netIDs
                 (Errorf ["EC2 Transit Gateway Multicast Domain ("; domainID;
                          ") group not available: "; showGroupData groupData]) with
         | None => panic
         | Some verdict => mret verdict
         end
     end);
  if isResourceTimeoutError err
  then mret (Some (Errorf ["error validating that EC2 Transit Gateway Multicast Domain (";
                           domainID; ") group was successfully registered: ";
                           errText err]))
  else mret None.

Definition waitForEc2TransitGatewayMulticastDomainGroupDeregister (conn : Conn)
    (domainID : string) (groupData : GroupData) (member : bool) : M W (option error) :=
  let filters :=
    ec2SearchTransitGatewayMulticastDomainGroupIpFilters member
      (group_ip_address groupData) in
  let netIDs := network_interface_ids groupData in
  err ← resource_Retry (2 * time.Minute)
    ('(groups, err) ← ec2SearchTransitGatewayMulticastDomainGroups conn domainID filters;
     match err with
     | Some e => mret (Some (NonRetryableError e))
     | None =>
         match noneRegistered groups netIDs
                 (Errorf ["EC2 Transit Gateway Multicast Domain ("; domainID;
                          ") still available: "; showGroupData groupData]) with
         | None => panic
         | Some verdict => mret verdict
         end
     end);
  if isResourceTimeoutError err
  then mret (Some (Errorf ["error validating that EC2 Transit Gateway Multicast Domain (";
                           domainID; ") group was successfully deregistered: ";
                           errText err]))
  else mret None.

(** *** Route-table update helpers *)

Definition ec2TransitGatewayRouteTableAssociationUpdate (conn : Conn)
    (transitGatewayRouteTableID transitGatewayAttachmentID : string)
    (associate : bool) : M W (option error) :=
  '(transitGatewayAssociation, err) ←
     ec2DescribeTransitGatewayRouteTableAssociation conn transitGatewayRouteTableID
       transitGatewayAttachmentID;
  match err with
  | Some e =>
      mret (Some (Errorf ["error determining EC2 Transit Gateway Attachment Route Table (";
                          transitGatewayRouteTableID; ") association (";
                          transitGatewayAttachmentID; "): "; errorText e]))
  | None =>
      if associate && isNil transitGatewayAssociation then
        '(_, err) ← call conn
           (AssociateTransitGatewayRouteTable (aws.String transitGatewayAttachmentID)
              (aws.String transitGatewayRouteTableID));
        match err with
        | Some e =>
            mret (Some (Errorf ["error associating EC2 Transit Gateway Route Table (";
                                transitGatewayRouteTableID; ") association (";
                                transitGatewayAttachmentID; "): "; errorText e]))
        | None =>
            err ← waitForEc2TransitGatewayRouteTableAssociationCreation conn
                    transitGatewayRouteTableID transitGatewayAttachmentID;
            match err with
            | Some e =>
                mret (Some (Errorf ["error waiting for EC2 Transit Gateway Route Table (";
                                    transitGatewayRouteTableID; ") association (";
                                    transitGatewayAttachmentID; "): "; errorText e]))
            | None => mret None
            end
        end
      else if negb associate && negb (isNil transitGatewayAssociation) then
        '(_, err) ← call conn
           (DisassociateTransitGatewayRouteTable (aws.String transitGatewayAttachmentID)
              (aws.String transitGatewayRouteTableID));
        match err with
        | Some e =>
            mret (Some (Errorf ["error disassociating EC2 Transit Gateway Route Table (";
                                transitGatewayRouteTableID; ") disassociation (";
                                transitGatewayAttachmentID; "): "; errorText e]))
        | None =>
            err ← waitForEc2TransitGatewayRouteTableAssociationDeletion conn
                    transitGatewayRouteTableID transitGatewayAttachmentID;
            match err with
            | Some e =>
                mret (Some (Errorf ["error waiting for EC2 Transit Gateway Route Table (";
                                    transitGatewayRouteTableID; ") disassociation (";
                                    transitGatewayAttachmentID; "): "; errorText e]))
            | None => mret None
            end
        end
      else mret None
  end.

Definition ec2TransitGatewayRouteTablePropagationUpdate (conn : Conn)
    (transitGatewayRouteTableID transitGatewayAttachmentID : string)
    (enablePropagation : bool) : M W (option error) :=
  '(transitGatewayRouteTablePropagation, err) ←
     ec2DescribeTransitGatewayRouteTablePropagation conn transitGatewayRouteTableID
       transitGatewayAttachmentID;
  match err with
  | Some e =>
      mret (Some (Errorf ["error determining EC2 Transit Gateway Attachment (";
                          transitGatewayAttachmentID; ") propagation to Route Table (";
                          transitGatewayRouteTableID; "): "; errorText e]))
  | None =>
      if enablePropagation && isNil transitGatewayRouteTablePropagation then
        '(_, err) ← call conn
           (EnableTransitGatewayRouteTablePropagation
              (aws.String transitGatewayAttachmentID)
              (aws.String transitGatewayRouteTableID));
        match err with
        | Some e =>
            mret (Some (Errorf ["error enabling EC2 Transit Gateway Attachment (";
                                transitGatewayAttachmentID;
                                ") propagation to Route Table (";
                                transitGatewayRouteTableID; "): "; errorText e]))
        | None => mret None
        end
      else if negb enablePropagation && negb (isNil transitGatewayRouteTablePropagation) then
        '(_, err) ← call conn
           (DisableTransitGatewayRouteTablePropagation
              (aws.String transitGatewayAttachmentID)
              (aws.String transitGatewayRouteTableID));
        match err with
        | Some e =>
            mret (Some (Errorf ["error disabling EC2 Transit Gateway Attachment (";
                                transitGatewayAttachmentID;
                                ") propagation to Route Table (";
                                transitGatewayRouteTableID; "): "; errorText e]))
        | None => mret None
        end
      else mret None
  end.

End Helpers.

(** ** A reference SDK

    Modelled from the spec: the convergence engine of section 4.2 and the
    retry-until-visible helper of section 4.4 belong to the plugin SDK and
    are not in these sources.  Every poll calls the refresh function.  An
    error ends the wait at once with that error; an absent payload counts as
    a missing resource and ends the wait with a not-found error once it was
    seen more often than [NotFoundChecks] allows; a target label ends it
    with the payload; a pending label keeps it polling; any other label is
    an unexpected state.  The first poll is immediate and [polls] more fit
    in the timeout. *)
Fixpoint pollUntilConverged {W P} (polls notFound : nat) (conf : StateChangeConf W P)
  : M W (option P * option error) :=
  '(payload, label, err) ← Refresh conf;
  match err with
  | Some e => mret (None, Some e)
  | None =>
      match payload with
      | None =>
          if decide (NotFoundChecks conf < S notFound)
          then mret (None, Some NotFoundError)
          else match polls with
               | O => mret (None, Some (TimeoutError label))
               | S polls' => pollUntilConverged polls' (S notFound) conf
               end
      | Some p =>
          if bool_decide (label ∈ Target conf) then mret (Some p, None)
          else if bool_decide (label ∈ Pending conf)
          then match polls with
               | O => mret (None, Some (TimeoutError label))
               | S polls' => pollUntilConverged polls' 0 conf
               end
          else mret (None, Some (UnexpectedStateError label))
      end
  end.

(** Modelled from the spec: the retry-until-visible helper of section 4.4,
    which is the SDK's [resource.Retry].  A "not yet visible" verdict is
    retried while polls remain, any other failure is returned at once, and
    running out of polls is a timeout. *)
Fixpoint retryUntilVisible {W} (polls : nat) (f : M W (option RetryError))
  : M W (option error) :=
  verdict ← f;
  match verdict with
  | None => mret None
  | Some (NonRetryableError e) => mret (Some e)
  | Some (RetryableError e) =>
      match polls with
      | O => mret (Some (TimeoutError (errorText e)))
      | S polls' => retryUntilVisible polls' f
      end
  end.

Definition referenceSDK {W} (pollsWithin : Z → nat) : SDK W := {|
  WaitForState := λ P stateConf, pollUntilConverged (pollsWithin (Timeout stateConf)) 0 stateConf;
  Retry := λ timeout f, retryUntilVisible (pollsWithin timeout) f
|}.

(** ** Two iteration orders and some remotes, for the examples *)

Definition keyBefore (p q : string * string) : Prop := String.leb p.1 q.1 = true.

#[export] Instance keyBefore_dec p q : Decision (keyBefore p q).
Proof. unfold keyBefore. apply _. Defined.

(** Visit the keys in alphabetical order, or in the opposite order. *)
Definition keyOrder : MapRange := {|
  rangeOrder := λ m, merge_sort keyBefore (map_to_list m);
  rangeOrder_perm := λ m, merge_sort_Permutation keyBefore (map_to_list m)
|}.

Definition reverseKeyOrder : MapRange := {|
  rangeOrder := λ m, reverse (merge_sort keyBefore (map_to_list m));
  rangeOrder_perm := λ m,
    transitivity (reverse_Permutation _)
                 (merge_sort_Permutation keyBefore (map_to_list m))
|}.

(** A remote on which every operation answers with no output and no
    error. *)
Definition silent : EC2 unit := λ r w, ((None, None), w).

(** A remote on which every operation fails with [e]. *)
Definition failing (e : error) : EC2 unit := λ r w, ((None, Some e), w).

(** A remote whose multicast domains have the associations [items]. *)
Definition associating
    (items : list (option TransitGatewayMulticastDomainAssociation.t)) : EC2 unit :=
  λ r, match r as r0 return unit → (option (Response r0) * option error) * unit with
       | GetTransitGatewayMulticastDomainAssociations _ _ =>
           λ w, ((Some (Listing.mk items None), None), w)
       | _ => λ w, ((None, None), w)
       end.

Definition subnetIn (subnetID state : string)
  : option TransitGatewayMulticastDomainAssociation.t :=
  Some (TransitGatewayMulticastDomainAssociation.mk
          (Some (SubnetAssociation.mk (Some subnetID) (Some state)))).

(** A remote that knows one peering attachment. *)
Definition peering (attachment : TransitGatewayPeeringAttachment.t) : EC2 unit :=
  λ r, match r as r0 return unit → (option (Response r0) * option error) * unit with
       | DescribeTransitGatewayPeeringAttachments _ _ =>
           λ w, ((Some (Listing.mk [Some attachment] None), None), w)
       | _ => λ w, ((None, None), w)
       end.

(** A remote that has one route-table association and one propagation and
    accepts every change. *)
Definition routed : EC2 unit :=
  λ r, match r as r0 return unit → (option (Response r0) * option error) * unit with
       | GetTransitGatewayRouteTableAssociations _ _ =>
           λ w, ((Some (Listing.mk
                          [Some (TransitGatewayRouteTableAssociation.mk
                                   (Some "tgw-attach-1") (Some "associated"))] None),
                  None), w)
       | GetTransitGatewayRouteTablePropagations _ _ =>
           λ w, ((Some (Listing.mk
                          [Some (TransitGatewayRouteTablePropagation.mk
                                   (Some "tgw-attach-1") (Some "enabled"))] None),
                  None), w)
       | _ => λ w, ((None, None), w)
       end.

(** A remote without resources that refuses every change with [e]. *)
Definition readOnly (e : error) : EC2 unit :=
  λ r, match r as r0 return unit → (option (Response r0) * option error) * unit with
       | AssociateTransitGatewayRouteTable _ _
       | DisassociateTransitGatewayRouteTable _ _
       | EnableTransitGatewayRouteTablePropagation _ _
       | DisableTransitGatewayRouteTablePropagation _ _ => λ w, ((None, Some e), w)
       | _ => λ w, ((None, None), w)
       end.

(** A remote that has one route-table association and one propagation and
    refuses every change with [e]. *)
Definition guarded (e : error) : EC2 unit :=
  λ r, match r as r0 return unit → (option (Response r0) * option error) * unit with
       | GetTransitGatewayRouteTableAssociations _ _ =>
           λ w, ((Some (Listing.mk
                          [Some (TransitGatewayRouteTableAssociation.mk
                                   (Some "tgw-attach-1") (Some "associated"))] None),
                  None), w)
       | GetTransitGatewayRouteTablePropagations _ _ =>
           λ w, ((Some (Listing.mk
                          [Some (TransitGatewayRouteTablePropagation.mk
                                   (Some "tgw-attach-1") (Some "enabled"))] None),
                  None), w)
       | AssociateTransitGatewayRouteTable _ _
       | DisassociateTransitGatewayRouteTable _ _
       | EnableTransitGatewayRouteTablePropagation _ _
       | DisableTransitGatewayRouteTablePropagation _ _ => λ w, ((None, Some e), w)
       | _ => λ w, ((None, None), w)
       end.

(** One poll per minute of timeout. *)
Definition pollsPerMinute (timeout : Z) : nat := Z.to_nat (timeout / time.Minute).

(** ** Vocabulary of the statements *)

(** The subnet ids that appear in the associations a poll returned. *)
Fixpoint returnedSubnetIDs
    (associations : list (option TransitGatewayMulticastDomainAssociation.t))
  : list string :=
  match associations with
  | [] => []
  | None :: rest => returnedSubnetIDs rest
  | Some association :: rest =>
      match TransitGatewayMulticastDomainAssociation.Subnet association with
      | Some subnet =>
          aws.StringValue (SubnetAssociation.SubnetId subnet) :: returnedSubnetIDs rest
      | None => returnedSubnetIDs rest
      end
  end.

(** Every association the API returned carries its subnet. *)
Definition subnetsPresent
    (associations : list (option TransitGatewayMulticastDomainAssociation.t)) : Prop :=
  Forall (λ association : option TransitGatewayMulticastDomainAssociation.t,
            match association with
            | Some a => is_Some (TransitGatewayMulticastDomainAssociation.Subnet a)
            | None => True
            end) associations.

(** The labels the reduction has a [case] for. *)
Definition recognizedStates : list string :=
  [ ec2.AssociationStatusCodeAssociated; ec2.AssociationStatusCodeDisassociated;
    ec2.AssociationStatusCodeAssociating; ec2.AssociationStatusCodeDisassociating;
    ec2.AssociationStatusCodeAssociationFailed ].

Definition conflictingStates : error :=
  Errorf ["received conflicting association states"].

Definition unhandledState (state : string) : error :=
  Errorf ["unhandled association state: "; state].

(** The describe helper reported the not-found error [code], or returned
    no resource and no error. *)
Definition notFoundOrAbsent {T} (code : string) (result : option T)
    (err : option error) : Prop :=
  isAWSErr err code "" = true ∨ (result = None ∧ err = None).

(** An SDK that reports the resource as missing without polling. *)
Definition vanishedSDK {W} : SDK W := {|
  WaitForState := λ P stateConf, mret (None, Some NotFoundError);
  Retry := λ timeout f, mret None
|}.

Definition isMutation (e : Event) : bool :=
  match e with
  | Called (AssociateTransitGatewayRouteTable _ _) _
  | Called (DisassociateTransitGatewayRouteTable _ _) _
  | Called (EnableTransitGatewayRouteTablePropagation _ _) _
  | Called (DisableTransitGatewayRouteTablePropagation _ _) _ => true
  | _ => false
  end.

Definition isWait (e : Event) : bool :=
  match e with
  | WaitForStateCalled _ _ _ _ => true
  | _ => false
  end.

(** * Further parts of the file *)

(** ** Package [strings]

    [strings.Split] belongs to Go's standard library, which these sources
    call but do not contain; it is written out here as the library
    documents it: the substrings between the occurrences of the separator,
    one more than there are occurrences. *)

Module strings.
(** The pieces of [s] between successive occurrences of a non-empty [sep],
    found from the left and not overlapping.  [skip] counts the bytes of a
    matched separator that are still to be dropped. *)
Fixpoint pieces (sep : string) (skip : nat) (s : string) : list string :=
  match s with
  | EmptyString => [EmptyString]
  | String c rest =>
      match skip with
      | S skip' => pieces sep skip' rest
      | O =>
          if String.prefix sep s
          then EmptyString :: pieces sep (String.length sep - 1) rest
          else match pieces sep 0 rest with
               | piece :: more => String c piece :: more
               | [] => [String c EmptyString]
               end
      end
  end.

(** [strings.Split(s, sep)].  With an empty separator Go cuts after every
    UTF-8 sequence; here after every byte, which is the same on ASCII. *)
Definition Split (s sep : string) : list string :=
  match sep with
  | EmptyString => (λ c, String c EmptyString) <$> String.list_ascii_of_string s
  | _ => pieces sep 0 s
  end.
End strings.

(** ** Identifier decoding *)

Section Decoding.
(** How the verb [%q] renders a string ([strconv.Quote]). *)
Variable quote : string → string.

Definition decodeEc2TransitGatewayRouteID (id : string)
  : string * string * option error :=
  let parts := strings.Split id "_" in
  match parts with
  | [tableID; destination] => (tableID, destination, None)
  | _ =>
      ("", "", Some (Errorf ["Unexpected format of ID ("; quote id;
                             "), expected tgw-rtb-ID_DESTINATION"]))
  end.

Definition decodeEc2TransitGatewayRouteTableAssociationID (id : string)
  : string * string * option error :=
  let parts := strings.Split id "_" in
  match parts with
  | [tableID; attachmentID] => (tableID, attachmentID, None)
  | _ =>
      ("", "", Some (Errorf ["Unexpected format of ID ("; quote id;
                             "), expected tgw-rtb-ID_tgw-attach-ID"]))
  end.

Definition decodeEc2TransitGatewayRouteTablePropagationID (id : string)
  : string * string * option error :=
  let parts := strings.Split id "_" in
  match parts with
  | [tableID; attachmentID] => (tableID, attachmentID, None)
  | _ =>
      ("", "", Some (Errorf ["Unexpected format of ID ("; quote id;
                             "), expected tgw-rtb-ID_tgw-attach-ID"]))
  end.
End Decoding.

(** How often the byte [c] occurs in [s]. *)
Fixpoint occurrences (c : ascii) (s : string) : nat :=
  match s with
  | EmptyString => 0
  | String c' rest => (if decide (c' = c) then 1 else 0) + occurrences c rest
  end.

(** ** Route search *)

Module TransitGatewayRoute.
Record t := mk { DestinationCidrBlock : option string; State : option string }.
End TransitGatewayRoute.

Module SearchTransitGatewayRoutesOutput.
Record t := mk {
  Routes : list (option TransitGatewayRoute.t);
  AdditionalRoutesAvailable : option bool }.
End SearchTransitGatewayRoutesOutput.

Section RouteSearch.
Context {W : Type}.

(** [conn.SearchTransitGatewayRoutes(input)], by the two fields of the
    input the helper sets: the operation is not among the requests above
    and is taken as it is. *)
Variable SearchTransitGatewayRoutes :
  list Filter.t → option string →
  M W (option SearchTransitGatewayRoutesOutput.t * option error).

Definition ec2DescribeTransitGatewayRoute
    (transitGatewayRouteTableID destination : string)
  : M W (option TransitGatewayRoute.t * option error) :=
  '(output, err) ← SearchTransitGatewayRoutes
     [ Filter.mk (aws.String "type") [aws.String "static"] ]
     (aws.String transitGatewayRouteTableID);
  match err, output with
  | Some e, _ => mret (None, Some e)
  | None, None => mret (None, None)
  | None, Some out =>
      if decide (length (SearchTransitGatewayRoutesOutput.Routes out) = 0)
      then mret (None, None)
      else match firstWithId TransitGatewayRoute.DestinationCidrBlock destination
                   (SearchTransitGatewayRoutesOutput.Routes out) with
           | Some route => mret (Some route, None)
           | None => mret (None, None)
           end
  end.
End RouteSearch.

(** ** Vocabulary of the further statements *)

(** A call of an operation that changes nothing. *)
Definition isRead (e : Event) : bool :=
  match e with
  | Called _ _ => negb (isMutation e)
  | _ => false
  end.

(** A describe helper returned nothing, or an item with the requested
    identifier and no error. *)
Definition nothingOrMatch {T} (idOf : T → option string) (id : string)
    (result : option T) (err : option error) : Prop :=
  match result with
  | None => True
  | Some x => err = None ∧ aws.StringValue (idOf x) = id
  end.

(** The remote answers the requests that follow [token] with the pages
    [pages], one after the other: each page but the last comes with a
    continuation token, the last one without, and none with an error. *)
Fixpoint servesPages {W T}
    (ask : option string → W → (option (Listing.t T) * option error) * W)
    (token : option string) (w : W) (pages : list (list (option T))) (w' : W) : Prop :=
  match pages with
  | [] => False
  | page :: rest =>
      ∃ next w1,
        ask token w = ((Some (Listing.mk page next), None), w1) ∧
        match rest with
        | [] => aws.StringValue next = "" ∧ w' = w1
        | _ :: _ => aws.StringValue next ≠ "" ∧ servesPages ask next w1 rest w'
        end
  end.

(** The remote answers the requests that follow [token] with the outputs
    [before], none of them empty or holding an item with the identifier
    [id] and each with a continuation token, and then with [last]. *)
Fixpoint leadsToPage {W T}
    (ask : option string → W → (option (Listing.t T) * option error) * W)
    (idOf : T → option string) (id : string)
    (token : option string) (w : W) (before : list (Listing.t T)) (last : Listing.t T)
    (w' : W) : Prop :=
  match before with
  | [] => ask token w = ((Some last, None), w')
  | out :: rest =>
      ∃ w1,
        ask token w = ((Some out, None), w1) ∧
        Listing.Items out ≠ [] ∧
        firstWithId idOf id (Listing.Items out) = None ∧
        aws.StringValue (Listing.NextToken out) ≠ "" ∧
        leadsToPage ask idOf id (Listing.NextToken out) w1 rest last w'
  end.

(** The search of a describe helper ends with the output [last]: it is
    empty, or holds an item with the identifier [id], or has no
    continuation token. *)
Definition endsSearch {T} (idOf : T → option string) (id : string)
    (last : Listing.t T) : Prop :=
  Listing.Items last = [] ∨
  is_Some (firstWithId idOf id (Listing.Items last)) ∨
  aws.StringValue (Listing.NextToken last) = "".

(** A remote that answers the successive listing requests of one kind with
    the given outputs, whatever the token; its state counts the requests. *)
Definition listingGateways (outputs : list (Listing.t TransitGateway.t)) : EC2 nat :=
  λ r, match r as r0 return nat → (option (Response r0) * option error) * nat with
       | DescribeTransitGateways _ _ => λ n, ((outputs !! n, None), S n)
       | _ => λ n, ((None, None), n)
       end.

Definition listingAssociations
    (outputs : list (Listing.t TransitGatewayMulticastDomainAssociation.t)) : EC2 nat :=
  λ r, match r as r0 return nat → (option (Response r0) * option error) * nat with
       | GetTransitGatewayMulticastDomainAssociations _ _ =>
           λ n, ((outputs !! n, None), S n)
       | _ => λ n, ((None, None), n)
       end.

Definition listingGroups
    (outputs : list (Listing.t TransitGatewayMulticastGroup.t)) : EC2 nat :=
  λ r, match r as r0 return nat → (option (Response r0) * option error) * nat with
       | SearchTransitGatewayMulticastGroups _ _ _ => λ n, ((outputs !! n, None), S n)
       | _ => λ n, ((None, None), n)
       end.

(** The interfaces of the groups a search returned. *)
Fixpoint visibleInterfaces (groups : list (option TransitGatewayMulticastGroup.t))
  : list string :=
  match groups with
  | [] => []
  | None :: rest => visibleInterfaces rest
  | Some group :: rest =>
      aws.StringValue (TransitGatewayMulticastGroup.NetworkInterfaceId group)
      :: visibleInterfaces rest
  end.

(** A remote that knows one route table. *)
Definition routing (table : TransitGatewayRouteTable.t) : EC2 unit :=
  λ r, match r as r0 return unit → (option (Response r0) * option error) * unit with
       | DescribeTransitGatewayRouteTables _ _ =>
           λ w, ((Some (Listing.mk [Some table] None), None), w)
       | _ => λ w, ((None, None), w)
       end.

(** A remote that answers the first request for the associations of a
    domain with [page] and a continuation token, and fails every later one
    with [e]; its state counts the requests. *)
Definition interrupted (page : list (option TransitGatewayMulticastDomainAssociation.t))
    (e : error) : EC2 nat :=
  λ r, match r as r0 return nat → (option (Response r0) * option error) * nat with
       | GetTransitGatewayMulticastDomainAssociations _ _ =>
           λ n, match n with
                | O => ((Some (Listing.mk page (Some "page-2")), None), S n)
                | S _ => ((None, Some e), S n)
                end
       | _ => λ n, ((None, None), n)
       end.


(** * Properties *)

(** ** Computations *)

Lemma bind_Done {W A B} (m : M W A) (f : A → M W B) w a w1 t1 :
  m w = Done a w1 t1 →
  (m ≫= f) w = match f a w1 with
               | Done b w2 t2 => Done b w2 (t1 ++ t2)
               | Panic => Panic
               | Diverge => Diverge
               end.
Proof. intros Hm. unfold mbind, M_bind. by rewrite Hm. Qed.

Lemma bind_Done_inv {W A B} (m : M W A) (f : A → M W B) w b w2 t :
  (m ≫= f) w = Done b w2 t →
  ∃ a w1 t1 t2, m w = Done a w1 t1 ∧ f a w1 = Done b w2 t2 ∧ t = t1 ++ t2.
Proof.
  unfold mbind, M_bind. destruct (m w) as [a w1 t1| |]; [|done..].
  destruct (f a w1) as [b' w2' t2| |] eqn:Hf; [|done..].
  intros [= -> -> <-]. by exists a, w1, t1, t2.
Qed.

Lemma ret_Done {W A} (a : A) (w : W) : (mret a : M W A) w = Done a w [].
Proof. done. Qed.

(** ** The tracked map *)

Lemma trackSubnets_from_lookup (subnetIDs : list (option string))
    (acc : gmap string string) (id : string) :
  id ∈ aws.StringValue <$> subnetIDs ∨ acc !! id = Some "" →
  foldl (λ subnetStates subnetID, <[aws.StringValue subnetID := ""]> subnetStates)
        acc subnetIDs !! id = Some "".
Proof.
  revert acc. induction subnetIDs as [|subnetID rest IH]; intros acc H; simpl.
  - destruct H as [H|H]; [by apply elem_of_nil in H | done].
  - apply IH. destruct H as [H|H].
    + rewrite fmap_cons in H. apply elem_of_cons in H as [->|H]; [right|by left].
      apply lookup_insert_eq.
    + right. destruct (decide (aws.StringValue subnetID = id)) as [->|Hne].
      * apply lookup_insert_eq.
      * by rewrite lookup_insert_ne.
Qed.

Lemma trackSubnets_lookup (subnetIDs : list (option string)) (id : string) :
  id ∈ aws.StringValue <$> subnetIDs → trackSubnets subnetIDs !! id = Some "".
Proof. intros H. apply trackSubnets_from_lookup. by left. Qed.

Lemma trackSubnets_from_values (subnetIDs : list (option string))
    (acc : gmap string string) :
  map_Forall (λ _ state, state = "") acc →
  map_Forall (λ _ state, state = "")
    (foldl (λ subnetStates subnetID, <[aws.StringValue subnetID := ""]> subnetStates)
           acc subnetIDs).
Proof.
  revert acc. induction subnetIDs as [|subnetID rest IH]; intros acc H; simpl; [done|].
  apply IH. by apply map_Forall_insert_2.
Qed.

Lemma trackSubnets_values (subnetIDs : list (option string)) :
  map_Forall (λ _ state, state = "") (trackSubnets subnetIDs).
Proof. apply trackSubnets_from_values, map_Forall_empty. Qed.

Lemma recordAssociations_untouched
    (associations : list (option TransitGatewayMulticastDomainAssociation.t))
    (subnetStates subnetStates' : gmap string string) (id : string) :
  recordAssociations associations subnetStates = Some subnetStates' →
  id ∉ returnedSubnetIDs associations →
  subnetStates' !! id = subnetStates !! id.
Proof.
  revert subnetStates.
  induction associations as [|[[[subnet|]]|] rest IH]; intros m Hrec Hid; simpl in *.
  - by injection Hrec as <-.
  - apply not_elem_of_cons in Hid as [Hne Hid].
    destruct (m !! aws.StringValue (SubnetAssociation.SubnetId subnet)).
    + rewrite (IH _ Hrec Hid). by rewrite lookup_insert_ne.
    + by apply IH.
  - done.
  - by apply IH.
Qed.

Lemma recordAssociations_total
    (associations : list (option TransitGatewayMulticastDomainAssociation.t))
    (subnetStates : gmap string string) :
  subnetsPresent associations →
  is_Some (recordAssociations associations subnetStates).
Proof.
  revert subnetStates.
  induction associations as [|[[[subnet|]]|] rest IH]; intros m Hwf; simpl.
  - by eexists.
  - apply Forall_cons in Hwf as [_ Hwf].
    destruct (m !! aws.StringValue (SubnetAssociation.SubnetId subnet)); by apply IH.
  - apply Forall_cons in Hwf as [[? [=]] _].
  - apply Forall_cons in Hwf as [_ Hwf]. by apply IH.
Qed.

Lemma markNotFound_lookup (subnetStates : gmap string string) (id : string) :
  subnetStates !! id = Some "" →
  markNotFound subnetStates !! id = Some ec2.AssociationStatusCodeDisassociated.
Proof. intros H. unfold markNotFound. by rewrite lookup_fmap, H. Qed.

(** The refresh function is the reduction over the polled map, in the
    order the range visits it. *)
Lemma associationRefresh_reduces {W} maxPages (range : MapRange) (conn : option (EC2 W))
    domainID subnetIDs w associations w' tr subnetStates :
  ec2GetTransitGatewayMulticastDomainAssociations maxPages conn domainID w
    = Done (associations, None) w' tr →
  polledSubnetStates subnetIDs associations = Some subnetStates →
  ec2TransitGatewayMulticastDomainAssociationRefreshFunc maxPages range conn domainID
    subnetIDs w
  = Done (compoundStateFrom associations "" (rangeOrder range subnetStates).*2) w' tr.
Proof.
  intros Hget Hpolled. unfold ec2TransitGatewayMulticastDomainAssociationRefreshFunc.
  rewrite (bind_Done _ _ _ _ _ _ Hget). rewrite Hpolled. simpl.
  by rewrite app_nil_r.
Qed.

(** C7.  In every poll whose associations carry their subnets, the
    reduction ranges over a map in which each tracked subnet id that is not
    among the returned associations has the label "disassociated". *)
Theorem absent_subnet_is_disassociated {W} maxPages (range : MapRange)
    (conn : option (EC2 W)) domainID subnetIDs w associations w' tr :
  ec2GetTransitGatewayMulticastDomainAssociations maxPages conn domainID w
    = Done (associations, None) w' tr →
  subnetsPresent associations →
  ∃ subnetStates,
    polledSubnetStates subnetIDs associations = Some subnetStates ∧
    ec2TransitGatewayMulticastDomainAssociationRefreshFunc maxPages range conn domainID
      subnetIDs w
    = Done (compoundStateFrom associations "" (rangeOrder range subnetStates).*2) w' tr ∧
    ∀ id, id ∈ aws.StringValue <$> subnetIDs →
          id ∉ returnedSubnetIDs associations →
          subnetStates !! id = Some "disassociated".
Proof.
  intros Hget Hwf.
  destruct (recordAssociations_total associations (trackSubnets subnetIDs) Hwf)
    as [recorded Hrec].
  exists (markNotFound recorded).
  assert (Hpolled : polledSubnetStates subnetIDs associations = Some (markNotFound recorded)).
  { unfold polledSubnetStates. by rewrite Hrec. }
  split; [done|]. split; [by eapply associationRefresh_reduces|].
  intros id Htracked Habsent. apply markNotFound_lookup.
  rewrite (recordAssociations_untouched _ _ _ _ Hrec Habsent).
  by apply trackSubnets_lookup.
Qed.

Lemma absent_subnet_is_disassociated_witness :
  ∃ subnetStates,
    polledSubnetStates [Some "subnet-a"; Some "subnet-b"]
      [subnetIn "subnet-a" "associated"] = Some subnetStates ∧
    ec2TransitGatewayMulticastDomainAssociationRefreshFunc 1 keyOrder
      (Some (associating [subnetIn "subnet-a" "associated"])) "tgw-mcast-domain-1"
      [Some "subnet-a"; Some "subnet-b"] tt
    = Done (compoundStateFrom [subnetIn "subnet-a" "associated"] ""
              (rangeOrder keyOrder subnetStates).*2) tt
        [Called (GetTransitGatewayMulticastDomainAssociations
                   (Some "tgw-mcast-domain-1") None) None] ∧
    ∀ id, id ∈ aws.StringValue <$> [Some "subnet-a"; Some "subnet-b"] →
          id ∉ returnedSubnetIDs [subnetIn "subnet-a" "associated"] →
          subnetStates !! id = Some "disassociated".
Proof.
  apply (absent_subnet_is_disassociated 1 keyOrder
           (Some (associating [subnetIn "subnet-a" "associated"]))
           "tgw-mcast-domain-1" [Some "subnet-a"; Some "subnet-b"] tt
           [subnetIn "subnet-a" "associated"] tt).
  - reflexivity.
  - repeat constructor; simpl; eauto.
Defined.

(** ** The reduction *)

Lemma compoundStateFrom_start {P} (associations : P) (state : string) rest :
  compoundStateFrom associations "" (state :: rest)
  = compoundStateFrom associations state rest.
Proof. done. Qed.

Lemma compoundStateFrom_agreeing {P} (associations : P) (first : string) agreeing rest :
  first = "associated" ∨ first = "disassociated" →
  Forall (λ state, state = first) agreeing →
  compoundStateFrom associations first (agreeing ++ rest)
  = compoundStateFrom associations first rest.
Proof.
  intros Hfirst Hall. induction Hall as [|state agreeing -> _ IH]; [done|].
  destruct Hfirst as [-> | ->]; simpl in *; rewrite IH; repeat case_decide; done.
Qed.

Lemma compoundStateFrom_associating {P} (associations : P) (compoundState : string) rest :
  compoundState ≠ "" →
  compoundStateFrom associations compoundState ("associating" :: rest)
  = (Some associations, "associating", None).
Proof. intros H. simpl. repeat case_decide; done. Qed.

Lemma compoundStateFrom_unhandled {P} (associations : P) (compoundState state : string)
    rest :
  compoundState ≠ "" →
  state ∉ recognizedStates →
  compoundStateFrom associations compoundState (state :: rest)
  = (None, "", Some (unhandledState state)).
Proof.
  intros H Hstate. unfold recognizedStates in Hstate.
  repeat (apply not_elem_of_cons in Hstate as [? Hstate]).
  simpl. repeat case_decide; done.
Qed.

(** What holds of an "associating" label: it is returned when it is met
    after subnets that all carry one terminal label. *)
Lemma associating_after_agreeing_states {P} (associations : P) (first : string)
    agreeing rest :
  first = "associated" ∨ first = "disassociated" →
  Forall (λ state, state = first) agreeing →
  compoundStateFrom associations "" (first :: agreeing ++ "associating" :: rest)
  = (Some associations, "associating", None).
Proof.
  intros Hfirst Hall. rewrite compoundStateFrom_start.
  rewrite compoundStateFrom_agreeing by done.
  apply compoundStateFrom_associating. by destruct Hfirst as [-> | ->].
Qed.

Lemma range_of_two (range : MapRange) (m : gmap string string) k1 v1 k2 v2 :
  map_to_list m = [(k1, v1); (k2, v2)] →
  (rangeOrder range m).*2 = [v1; v2] ∨ (rangeOrder range m).*2 = [v2; v1].
Proof.
  intros Hm. pose proof (rangeOrder_perm range m) as Hperm. rewrite Hm in Hperm.
  symmetry in Hperm. apply Permutation_length_2_inv in Hperm as [-> | ->]; auto.
Qed.

(** C1.  Two tracked subnets, one observed "associated" and one
    "disassociating": whatever the order in which the map is visited, the
    poll returns "associated" with a nil error or the conflicting-states
    error, and so never the in-progress label "disassociating".  And with
    one subnet "associating" and one "associated", the poll that visits
    the "associating" subnet first returns the conflicting-states error. *)
Theorem in_progress_label_is_lost (pages : nat) :
  let poll range associations :=
    ec2TransitGatewayMulticastDomainAssociationRefreshFunc (S pages) range
      (Some (associating associations)) "tgw-mcast-domain-1"
      [Some "subnet-a"; Some "subnet-b"] tt in
  let trace :=
    [Called (GetTransitGatewayMulticastDomainAssociations
               (Some "tgw-mcast-domain-1") None) None] in
  let disassociating :=
    [subnetIn "subnet-a" "associated"; subnetIn "subnet-b" "disassociating"] in
  let associatingFirst :=
    [subnetIn "subnet-a" "associating"; subnetIn "subnet-b" "associated"] in
  (∀ range,
     poll range disassociating = Done (Some disassociating, "associated", None) tt trace ∨
     poll range disassociating = Done (None, "", Some conflictingStates) tt trace) ∧
  poll keyOrder associatingFirst = Done (None, "", Some conflictingStates) tt trace.
Proof.
  intros poll trace disassociating associatingFirst. split; [|reflexivity].
  intros range. subst poll. simpl.
  set (subnetStates :=
         <["subnet-a" := "associated"]>
           (<["subnet-b" := "disassociating"]> (∅ : gmap string string))).
  rewrite (associationRefresh_reduces (S pages) range _ _ _ tt disassociating tt trace
             subnetStates); [|reflexivity|by vm_compute].
  destruct (range_of_two range subnetStates "subnet-a" "associated"
              "subnet-b" "disassociating") as [-> | ->]; [by vm_compute|by left|by right].
Qed.

(** C2.  Two tracked subnets, one observed "associated" and one
    "disassociated", no label in progress: when the "associated" subnet is
    visited first the poll returns "associated" with a nil error; only in
    the other order does it return the conflicting-states error. *)
Theorem mixed_terminal_states_pass (pages : nat) :
  let associations :=
    [subnetIn "subnet-a" "associated"; subnetIn "subnet-b" "disassociated"] in
  let poll range :=
    ec2TransitGatewayMulticastDomainAssociationRefreshFunc (S pages) range
      (Some (associating associations)) "tgw-mcast-domain-1"
      [Some "subnet-a"; Some "subnet-b"] tt in
  let trace :=
    [Called (GetTransitGatewayMulticastDomainAssociations
               (Some "tgw-mcast-domain-1") None) None] in
  poll keyOrder = Done (Some associations, "associated", None) tt trace ∧
  poll reverseKeyOrder = Done (None, "", Some conflictingStates) tt trace.
Proof. split; reflexivity. Qed.

(** C3, as stated, fails: with the labels "associated", "associating" and
    the unrecognized "pending" visited in that order, the poll returns
    "associating" and no error. *)
Lemma unrecognized_label_not_reported :
  let associations :=
    [subnetIn "subnet-a" "associated"; subnetIn "subnet-b" "associating";
     subnetIn "subnet-c" "pending"] in
  let subnetIDs := [Some "subnet-a"; Some "subnet-b"; Some "subnet-c"] in
  (polledSubnetStates subnetIDs associations ≫= lookup "subnet-c") = Some "pending" ∧
  ("pending" ∉ recognizedStates) ∧
  ec2TransitGatewayMulticastDomainAssociationRefreshFunc 1 keyOrder
    (Some (associating associations)) "tgw-mcast-domain-1" subnetIDs tt
  = Done (Some associations, "associating", None) tt
      [Called (GetTransitGatewayMulticastDomainAssociations
                 (Some "tgw-mcast-domain-1") None) None].
Proof.
  split; [reflexivity|]. split; [|reflexivity].
  unfold recognizedStates. intros H.
  repeat (apply elem_of_cons in H as [H|H]; [discriminate H|]).
  by apply elem_of_nil in H.
Qed.

(** C3, amended.  When the subnets visited first are at least one and all
    carry the same terminal label, the next label visited decides the poll:
    an unrecognized label gives the "unhandled association state" error for
    that label, and "associating" gives the associations with the label
    "associating" and a nil error, whatever labels follow. *)
Theorem unrecognized_label_after_agreeing_states {W} maxPages (range : MapRange)
    (conn : option (EC2 W)) domainID subnetIDs w associations w' tr subnetStates
    first agreeing state rest :
  ec2GetTransitGatewayMulticastDomainAssociations maxPages conn domainID w
    = Done (associations, None) w' tr →
  polledSubnetStates subnetIDs associations = Some subnetStates →
  (rangeOrder range subnetStates).*2 = first :: agreeing ++ state :: rest →
  first = "associated" ∨ first = "disassociated" →
  Forall (λ s, s = first) agreeing →
  (state ∉ recognizedStates →
   ec2TransitGatewayMulticastDomainAssociationRefreshFunc maxPages range conn domainID
     subnetIDs w
   = Done (None, "", Some (unhandledState state)) w' tr) ∧
  (state = "associating" →
   ec2TransitGatewayMulticastDomainAssociationRefreshFunc maxPages range conn domainID
     subnetIDs w
   = Done (Some associations, "associating", None) w' tr).
Proof.
  intros Hget Hpolled Horder Hfirst Hall.
  rewrite (associationRefresh_reduces _ _ _ _ _ _ _ _ _ _ Hget Hpolled), Horder.
  split.
  - intros Hstate.
    rewrite compoundStateFrom_start, compoundStateFrom_agreeing by done.
    rewrite compoundStateFrom_unhandled; [done| |done].
    by destruct Hfirst as [-> | ->].
  - intros ->. by rewrite associating_after_agreeing_states.
Qed.

Lemma unrecognized_label_after_agreeing_states_witness :
  let poll associations :=
    ec2TransitGatewayMulticastDomainAssociationRefreshFunc 1 keyOrder
      (Some (associating associations)) "tgw-mcast-domain-1"
      [Some "subnet-a"; Some "subnet-b"; Some "subnet-c"; Some "subnet-d"] tt in
  let trace :=
    [Called (GetTransitGatewayMulticastDomainAssociations
               (Some "tgw-mcast-domain-1") None) None] in
  let unhandled :=
    [subnetIn "subnet-a" "associated"; subnetIn "subnet-b" "associated";
     subnetIn "subnet-c" "pending"; subnetIn "subnet-d" "associating"] in
  let inProgress :=
    [subnetIn "subnet-a" "associated"; subnetIn "subnet-b" "associated";
     subnetIn "subnet-c" "associating"; subnetIn "subnet-d" "pending"] in
  poll unhandled = Done (None, "", Some (unhandledState "pending")) tt trace ∧
  poll inProgress = Done (Some inProgress, "associating", None) tt trace.
Proof.
  intros poll trace unhandled inProgress.
  refine (conj _ _).
  - apply (unrecognized_label_after_agreeing_states 1 keyOrder _ _ _ tt unhandled tt _
             (<["subnet-a" := "associated"]> (<["subnet-b" := "associated"]>
                (<["subnet-c" := "pending"]> (<["subnet-d" := "associating"]> ∅))))
             "associated" ["associated"] "pending" ["associating"]).
    + reflexivity.
    + vm_compute. reflexivity.
    + vm_compute. reflexivity.
    + left. reflexivity.
    + repeat constructor.
    + unfold recognizedStates. intros H.
      repeat (apply elem_of_cons in H as [H|H]; [discriminate H|]).
      by apply elem_of_nil in H.
  - apply (unrecognized_label_after_agreeing_states 1 keyOrder _ _ _ tt inProgress tt _
             (<["subnet-a" := "associated"]> (<["subnet-b" := "associated"]>
                (<["subnet-c" := "associating"]> (<["subnet-d" := "pending"]> ∅))))
             "associated" ["associated"] "associating" ["pending"]).
    + reflexivity.
    + vm_compute. reflexivity.
    + vm_compute. reflexivity.
    + left. reflexivity.
    + repeat constructor.
    + reflexivity.
Defined.

(** ** Refresh functions on an absent resource *)

Lemma contains_empty (s : string) : contains s "" = true.
Proof. by destruct s. Qed.

Ltac refresh_absent Hdescribe Habsent :=
  rewrite (bind_Done _ _ _ _ _ _ Hdescribe);
  destruct Habsent as [Habsent | [-> ->]];
  [rewrite Habsent | ]; simpl; by rewrite app_nil_r.

(** C5.  Each refresh function of the transit-gateway family returns a nil
    payload, the label "deleted" and a nil error when its describe helper
    reports the not-found error code of the resource kind or returns no
    resource. *)
Theorem absent_resource_is_deleted {W} (maxPages : nat) (conn : option (EC2 W)) :
  (∀ id w res err w' tr,
     ec2DescribeTransitGateway maxPages conn id w = Done (res, err) w' tr →
     notFoundOrAbsent "InvalidTransitGatewayID.NotFound" res err →
     ec2TransitGatewayRefreshFunc maxPages conn id w
     = Done (None, ec2.TransitGatewayStateDeleted, None) w' tr) ∧
  (∀ id w res err w' tr,
     ec2DescribeTransitGatewayRouteTable maxPages conn id w = Done (res, err) w' tr →
     notFoundOrAbsent "InvalidRouteTableID.NotFound" res err →
     ec2TransitGatewayRouteTableRefreshFunc maxPages conn id w
     = Done (None, ec2.TransitGatewayRouteTableStateDeleted, None) w' tr) ∧
  (∀ id attachment w res err w' tr,
     ec2DescribeTransitGatewayRouteTableAssociation conn id attachment w
     = Done (res, err) w' tr →
     notFoundOrAbsent "InvalidRouteTableID.NotFound" res err →
     ec2TransitGatewayRouteTableAssociationRefreshFunc conn id attachment w
     = Done (None, ec2.TransitGatewayRouteTableStateDeleted, None) w' tr) ∧
  (∀ id w res err w' tr,
     ec2DescribeTransitGatewayPeeringAttachment maxPages conn id w
     = Done (res, err) w' tr →
     notFoundOrAbsent "InvalidTransitGatewayAttachmentID.NotFound" res err →
     ec2TransitGatewayPeeringAttachmentRefreshFunc maxPages conn id w
     = Done (None, ec2.TransitGatewayAttachmentStateDeleted, None) w' tr) ∧
  (∀ id w res err w' tr,
     ec2DescribeTransitGatewayVpcAttachment maxPages conn id w = Done (res, err) w' tr →
     notFoundOrAbsent "InvalidTransitGatewayAttachmentID.NotFound" res err →
     ec2TransitGatewayVpcAttachmentRefreshFunc maxPages conn id w
     = Done (None, ec2.TransitGatewayAttachmentStateDeleted, None) w' tr) ∧
  (∀ id w res err w' tr,
     ec2DescribeTransitGatewayMulticastDomain conn id w = Done (res, err) w' tr →
     notFoundOrAbsent "InvalidTransitGatewayMulticastDomainId.NotFound" res err →
     ec2TransitGatewayMulticastDomainRefreshFunc conn id w
     = Done (None, ec2.TransitGatewayMulticastDomainStateDeleted, None) w' tr).
Proof.
  repeat split; intros until tr; intros Hdescribe Habsent.
  - unfold ec2TransitGatewayRefreshFunc. refresh_absent Hdescribe Habsent.
  - unfold ec2TransitGatewayRouteTableRefreshFunc. refresh_absent Hdescribe Habsent.
  - unfold ec2TransitGatewayRouteTableAssociationRefreshFunc.
    refresh_absent Hdescribe Habsent.
  - unfold ec2TransitGatewayPeeringAttachmentRefreshFunc.
    refresh_absent Hdescribe Habsent.
  - unfold ec2TransitGatewayVpcAttachmentRefreshFunc. refresh_absent Hdescribe Habsent.
  - unfold ec2TransitGatewayMulticastDomainRefreshFunc. refresh_absent Hdescribe Habsent.
Qed.

Lemma absent_resource_is_deleted_witness :
  let gone code := Some (failing (AWSError code "not found")) in
  ec2TransitGatewayRefreshFunc 1 (gone "InvalidTransitGatewayID.NotFound") "tgw-1" tt
  = Done (None, "deleted", None) tt
      [Called (DescribeTransitGateways [Some "tgw-1"] None)
         (Some (AWSError "InvalidTransitGatewayID.NotFound" "not found"))] ∧
  ec2TransitGatewayRouteTableRefreshFunc 1 (Some silent) "tgw-rtb-1" tt
  = Done (None, "deleted", None) tt
      [Called (DescribeTransitGatewayRouteTables [Some "tgw-rtb-1"] None) None] ∧
  ec2TransitGatewayRouteTableAssociationRefreshFunc
    (gone "InvalidRouteTableID.NotFound") "tgw-rtb-1" "tgw-attach-1" tt
  = Done (None, "deleted", None) tt
      [Called (GetTransitGatewayRouteTableAssociations
                 (attachmentFilter "tgw-attach-1") (Some "tgw-rtb-1"))
         (Some (AWSError "InvalidRouteTableID.NotFound" "not found"))] ∧
  ec2TransitGatewayPeeringAttachmentRefreshFunc 1 (Some silent) "tgw-attach-1" tt
  = Done (None, "deleted", None) tt
      [Called (DescribeTransitGatewayPeeringAttachments [Some "tgw-attach-1"] None) None] ∧
  ec2TransitGatewayVpcAttachmentRefreshFunc 1
    (gone "InvalidTransitGatewayAttachmentID.NotFound") "tgw-attach-1" tt
  = Done (None, "deleted", None) tt
      [Called (DescribeTransitGatewayVpcAttachments [Some "tgw-attach-1"] None)
         (Some (AWSError "InvalidTransitGatewayAttachmentID.NotFound" "not found"))] ∧
  ec2TransitGatewayMulticastDomainRefreshFunc
    (gone "InvalidTransitGatewayMulticastDomainId.NotFound") "tgw-mcast-domain-1" tt
  = Done (None, "deleted", None) tt
      [Called (DescribeTransitGatewayMulticastDomains
                 [Filter.mk (Some "transit-gateway-multicast-domain-id")
                    [Some "tgw-mcast-domain-1"]]
                 [Some "tgw-mcast-domain-1"])
         (Some (AWSError "InvalidTransitGatewayMulticastDomainId.NotFound" "not found"))].
Proof.
  intros gone.
  pose proof (absent_resource_is_deleted 1 (Some silent)) as (_ & Hrtb & _ & Hpeer & _).
  refine (conj _ (conj _ (conj _ (conj _ (conj _ _))))).
  - apply (proj1 (absent_resource_is_deleted 1
                    (gone "InvalidTransitGatewayID.NotFound")) "tgw-1" tt None
             (Some (AWSError "InvalidTransitGatewayID.NotFound" "not found")));
      [reflexivity | left; reflexivity].
  - apply (Hrtb "tgw-rtb-1" tt None None); [reflexivity | right; split; reflexivity].
  - pose proof (absent_resource_is_deleted 1 (gone "InvalidRouteTableID.NotFound"))
      as (_ & _ & Hassoc & _).
    apply (Hassoc "tgw-rtb-1" "tgw-attach-1" tt None
             (Some (AWSError "InvalidRouteTableID.NotFound" "not found")));
      [reflexivity | left; reflexivity].
  - apply (Hpeer "tgw-attach-1" tt None None); [reflexivity | right; split; reflexivity].
  - pose proof (absent_resource_is_deleted 1
                  (gone "InvalidTransitGatewayAttachmentID.NotFound"))
      as (_ & _ & _ & _ & Hvpc & _).
    apply (Hvpc "tgw-attach-1" tt None
             (Some (AWSError "InvalidTransitGatewayAttachmentID.NotFound" "not found")));
      [reflexivity | left; reflexivity].
  - pose proof (absent_resource_is_deleted 1
                  (gone "InvalidTransitGatewayMulticastDomainId.NotFound"))
      as (_ & _ & _ & _ & _ & Hdomain).
    apply (Hdomain "tgw-mcast-domain-1" tt None
             (Some (AWSError "InvalidTransitGatewayMulticastDomainId.NotFound" "not found")));
      [reflexivity | left; reflexivity].
Defined.

(** ** Deletion waits *)

Ltac wait_not_found Hwait Hnotfound :=
  rewrite (bind_Done _ _ _ _ _ _ Hwait); simpl; rewrite Hnotfound; simpl;
  by rewrite app_nil_r.

(** C6.  Each deletion and disassociation wait returns nil when the state
    wait it starts ends with a resource-not-found error. *)
Theorem deletion_wait_tolerates_not_found {W} (maxPages : nat) (range : MapRange)
    (sdk : SDK W) (conn : option (EC2 W)) :
  (∀ id w payload err w' tr,
     StateChangeConf_WaitForState sdk
       (waitForEc2TransitGatewayDeletion_stateConf maxPages conn id) w
     = Done (payload, err) w' tr →
     isResourceNotFoundError err = true →
     waitForEc2TransitGatewayDeletion maxPages sdk conn id w = Done None w' tr) ∧
  (∀ id w payload err w' tr,
     StateChangeConf_WaitForState sdk
       (waitForEc2TransitGatewayRouteTableDeletion_stateConf maxPages conn id) w
     = Done (payload, err) w' tr →
     isResourceNotFoundError err = true →
     waitForEc2TransitGatewayRouteTableDeletion maxPages sdk conn id w
     = Done None w' tr) ∧
  (∀ id attachment w payload err w' tr,
     StateChangeConf_WaitForState sdk
       (waitForEc2TransitGatewayRouteTableAssociationDeletion_stateConf conn id
          attachment) w
     = Done (payload, err) w' tr →
     isResourceNotFoundError err = true →
     waitForEc2TransitGatewayRouteTableAssociationDeletion sdk conn id attachment w
     = Done None w' tr) ∧
  (∀ id w payload err w' tr,
     StateChangeConf_WaitForState sdk
       (waitForEc2TransitGatewayPeeringAttachmentDeletion_stateConf maxPages conn id) w
     = Done (payload, err) w' tr →
     isResourceNotFoundError err = true →
     waitForEc2TransitGatewayPeeringAttachmentDeletion maxPages sdk conn id w
     = Done None w' tr) ∧
  (∀ id w payload err w' tr,
     StateChangeConf_WaitForState sdk
       (waitForEc2TransitGatewayVpcAttachmentDeletion_stateConf maxPages conn id) w
     = Done (payload, err) w' tr →
     isResourceNotFoundError err = true →
     waitForEc2TransitGatewayVpcAttachmentDeletion maxPages sdk conn id w
     = Done None w' tr) ∧
  (∀ id w payload err w' tr,
     StateChangeConf_WaitForState sdk
       (waitForEc2TransitGatewayMulticastDomainDeletion_stateConf conn id) w
     = Done (payload, err) w' tr →
     isResourceNotFoundError err = true →
     waitForEc2TransitGatewayMulticastDomainDeletion sdk conn id w = Done None w' tr) ∧
  (∀ id subnetIDs w payload err w' tr,
     StateChangeConf_WaitForState sdk
       (waitForEc2TransitGatewayMulticastDomainDisassociation_stateConf maxPages range
          conn id subnetIDs) w
     = Done (payload, err) w' tr →
     isResourceNotFoundError err = true →
     waitForEc2TransitGatewayMulticastDomainDisassociation maxPages range sdk conn id
       subnetIDs w
     = Done None w' tr).
Proof.
  repeat split; intros until tr; intros Hwait Hnotfound.
  - unfold waitForEc2TransitGatewayDeletion. wait_not_found Hwait Hnotfound.
  - unfold waitForEc2TransitGatewayRouteTableDeletion. wait_not_found Hwait Hnotfound.
  - unfold waitForEc2TransitGatewayRouteTableAssociationDeletion.
    wait_not_found Hwait Hnotfound.
  - unfold waitForEc2TransitGatewayPeeringAttachmentDeletion.
    wait_not_found Hwait Hnotfound.
  - unfold waitForEc2TransitGatewayVpcAttachmentDeletion. wait_not_found Hwait Hnotfound.
  - unfold waitForEc2TransitGatewayMulticastDomainDeletion.
    wait_not_found Hwait Hnotfound.
  - unfold waitForEc2TransitGatewayMulticastDomainDisassociation.
    wait_not_found Hwait Hnotfound.
Qed.

Lemma deletion_wait_tolerates_not_found_witness :
  let sdk : SDK unit := referenceSDK pollsPerMinute in
  (∃ tr, waitForEc2TransitGatewayDeletion 1 sdk (Some silent) "tgw-1" tt
         = Done None tt tr) ∧
  (∃ tr, waitForEc2TransitGatewayRouteTableDeletion 1 sdk (Some silent) "tgw-rtb-1" tt
         = Done None tt tr) ∧
  (∃ tr, waitForEc2TransitGatewayRouteTableAssociationDeletion sdk (Some silent)
           "tgw-rtb-1" "tgw-attach-1" tt
         = Done None tt tr) ∧
  (∃ tr, waitForEc2TransitGatewayPeeringAttachmentDeletion 1 sdk (Some silent)
           "tgw-attach-1" tt
         = Done None tt tr) ∧
  (∃ tr, waitForEc2TransitGatewayVpcAttachmentDeletion 1 sdk (Some silent)
           "tgw-attach-1" tt
         = Done None tt tr) ∧
  (∃ tr, waitForEc2TransitGatewayMulticastDomainDeletion sdk (Some silent)
           "tgw-mcast-domain-1" tt
         = Done None tt tr) ∧
  (∃ tr, waitForEc2TransitGatewayMulticastDomainDisassociation 1 keyOrder vanishedSDK
           (Some silent) "tgw-mcast-domain-1" [Some "subnet-a"] tt
         = Done None tt tr).
Proof.
  intros sdk.
  pose proof (deletion_wait_tolerates_not_found 1 keyOrder sdk (Some silent))
    as (Htgw & Hrtb & Hassoc & Hpeer & Hvpc & Hdomain & _).
  pose proof (deletion_wait_tolerates_not_found 1 keyOrder vanishedSDK (Some silent))
    as (_ & _ & _ & _ & _ & _ & Hsubnets).
  refine (conj _ (conj _ (conj _ (conj _ (conj _ (conj _ _)))))); eexists.
  - eapply Htgw; reflexivity.
  - eapply Hrtb; reflexivity.
  - eapply Hassoc; reflexivity.
  - eapply Hpeer; reflexivity.
  - eapply Hvpc; reflexivity.
  - eapply Hdomain; reflexivity.
  - eapply Hsubnets; reflexivity.
Defined.

(** ** The failed peering attachment *)

Lemma pollUntilConverged_error {W P} (polls notFound : nat) (conf : StateChangeConf W P)
    w payload label e w' tr :
  Refresh conf w = Done (payload, label, Some e) w' tr →
  pollUntilConverged polls notFound conf w = Done (None, Some e) w' tr.
Proof.
  intros Hpoll.
  destruct polls; simpl; rewrite (bind_Done _ _ _ _ _ _ Hpoll); simpl;
    by rewrite app_nil_r.
Qed.

Lemma referenceSDK_wait_error {W P} pollsWithin (conf : StateChangeConf W P)
    w payload label e w' tr :
  Refresh conf w = Done (payload, label, Some e) w' tr →
  StateChangeConf_WaitForState (referenceSDK pollsWithin) conf w
  = Done (None, Some e) w'
      (WaitForStateCalled (Pending conf) (Target conf) (Timeout conf)
         (NotFoundChecks conf) :: tr).
Proof.
  intros Hpoll. unfold StateChangeConf_WaitForState.
  unfold mbind at 1. unfold M_bind. simpl.
  by rewrite (pollUntilConverged_error _ _ _ _ _ _ _ _ _ Hpoll).
Qed.

Lemma Errorf_status_text (code message : string) :
  errorText (Errorf [code; ": "; message]) = code +:+ ": " +:+ message.
Proof. done. Qed.

(** C8.  When the peering attachment a poll describes is in state "failed"
    and has a status, the refresh function returns the attachment, the
    label "failed" and an error whose text is the status code, ": " and
    the status message; each peering wait run by the reference engine then
    ends on that very poll with that error. *)
Theorem failed_peering_attachment_reports_status {W} (maxPages : nat)
    (conn : option (EC2 W)) id w attachment status w' tr :
  ec2DescribeTransitGatewayPeeringAttachment maxPages conn id w
    = Done (Some attachment, None) w' tr →
  aws.StringValue (TransitGatewayPeeringAttachment.State attachment)
    = ec2.TransitGatewayAttachmentStateFailed →
  TransitGatewayPeeringAttachment.Status attachment = Some status →
  let failure :=
    Errorf [aws.StringValue (PeeringAttachmentStatus.Code status); ": ";
            aws.StringValue (PeeringAttachmentStatus.Message status)] in
  let started {P} (conf : StateChangeConf W P) :=
    WaitForStateCalled (Pending conf) (Target conf) (Timeout conf) (NotFoundChecks conf) in
  ec2TransitGatewayPeeringAttachmentRefreshFunc maxPages conn id w
    = Done (Some attachment, "failed", Some failure) w' tr ∧
  errorText failure
    = aws.StringValue (PeeringAttachmentStatus.Code status) +:+ ": " +:+
      aws.StringValue (PeeringAttachmentStatus.Message status) ∧
  ∀ pollsWithin,
    waitForEc2TransitGatewayPeeringAttachmentAcceptance maxPages
      (referenceSDK pollsWithin) conn id w
    = Done (Some failure) w'
        (started (waitForEc2TransitGatewayPeeringAttachmentAcceptance_stateConf
                    maxPages conn id) :: tr) ∧
    waitForEc2TransitGatewayPeeringAttachmentCreation maxPages
      (referenceSDK pollsWithin) conn id w
    = Done (Some failure) w'
        (started (waitForEc2TransitGatewayPeeringAttachmentCreation_stateConf
                    maxPages conn id) :: tr) ∧
    waitForEc2TransitGatewayPeeringAttachmentDeletion maxPages
      (referenceSDK pollsWithin) conn id w
    = Done (Some failure) w'
        (started (waitForEc2TransitGatewayPeeringAttachmentDeletion_stateConf
                    maxPages conn id) :: tr).
Proof.
  intros Hdescribe Hstate Hstatus failure started.
  assert (Hpoll : ec2TransitGatewayPeeringAttachmentRefreshFunc maxPages conn id w
                  = Done (Some attachment, "failed", Some failure) w' tr).
  { unfold ec2TransitGatewayPeeringAttachmentRefreshFunc.
    rewrite (bind_Done _ _ _ _ _ _ Hdescribe). simpl.
    rewrite Hstatus, Hstate. simpl. by rewrite app_nil_r. }
  split; [done|]. split; [done|]. intros pollsWithin.
  refine (conj _ (conj _ _)).
  - unfold waitForEc2TransitGatewayPeeringAttachmentAcceptance.
    rewrite (bind_Done _ _ _ _ _ _
               (referenceSDK_wait_error pollsWithin
                  (waitForEc2TransitGatewayPeeringAttachmentAcceptance_stateConf
                     maxPages conn id) _ _ _ _ _ _ Hpoll)).
    simpl. by rewrite app_nil_r.
  - unfold waitForEc2TransitGatewayPeeringAttachmentCreation.
    rewrite (bind_Done _ _ _ _ _ _
               (referenceSDK_wait_error pollsWithin
                  (waitForEc2TransitGatewayPeeringAttachmentCreation_stateConf
                     maxPages conn id) _ _ _ _ _ _ Hpoll)).
    simpl. by rewrite app_nil_r.
  - unfold waitForEc2TransitGatewayPeeringAttachmentDeletion.
    rewrite (bind_Done _ _ _ _ _ _
               (referenceSDK_wait_error pollsWithin
                  (waitForEc2TransitGatewayPeeringAttachmentDeletion_stateConf
                     maxPages conn id) _ _ _ _ _ _ Hpoll)).
    simpl. by rewrite app_nil_r.
Qed.

Lemma failed_peering_attachment_reports_status_witness :
  let attachment :=
    TransitGatewayPeeringAttachment.mk (Some "tgw-attach-1") (Some "failed")
      (Some (PeeringAttachmentStatus.mk (Some "invalidPeer") (Some "peer not found"))) in
  let failure := ErrorString "invalidPeer: peer not found" in
  let described :=
    Called (DescribeTransitGatewayPeeringAttachments [Some "tgw-attach-1"] None) None in
  ec2TransitGatewayPeeringAttachmentRefreshFunc 1 (Some (peering attachment))
    "tgw-attach-1" tt
  = Done (Some attachment, "failed", Some failure) tt [described] ∧
  waitForEc2TransitGatewayPeeringAttachmentCreation 1 (referenceSDK pollsPerMinute)
    (Some (peering attachment)) "tgw-attach-1" tt
  = Done (Some failure) tt
      [WaitForStateCalled ["failing"; "pending"; "initiatingRequest"]
         ["available"; "pendingAcceptance"] (10 * time.Minute) 0;
       described].
Proof.
  intros attachment failure described.
  destruct (failed_peering_attachment_reports_status 1 (Some (peering attachment))
              "tgw-attach-1" tt attachment
              (PeeringAttachmentStatus.mk (Some "invalidPeer") (Some "peer not found"))
              tt [described] eq_refl eq_refl eq_refl)
    as (Hpoll & _ & Hwaits).
  split; [exact Hpoll|].
  exact (proj1 (proj2 (Hwaits pollsPerMinute))).
Defined.

(** ** Describe helpers on an empty identifier or a nil connection *)

Lemma compoundStateFrom_all_disassociated {P} (associations : P) (states : list string) :
  states ≠ [] →
  Forall (λ state, state = ec2.AssociationStatusCodeDisassociated) states →
  compoundStateFrom associations "" states
  = (Some associations, ec2.AssociationStatusCodeDisassociated, None).
Proof.
  intros Hne Hall. destruct Hall as [|first rest -> Hrest]; [done|].
  rewrite compoundStateFrom_start.
  rewrite <- (app_nil_r rest). by rewrite compoundStateFrom_agreeing; [|right|].
Qed.

Lemma untouched_subnets_all_disassociated (range : MapRange)
    (subnetIDs : list (option string)) :
  subnetIDs ≠ [] →
  let states := (rangeOrder range (markNotFound (trackSubnets subnetIDs))).*2 in
  states ≠ [] ∧ Forall (λ state, state = ec2.AssociationStatusCodeDisassociated) states.
Proof.
  intros Hne states. subst states.
  set (m := markNotFound (trackSubnets subnetIDs)).
  pose proof (rangeOrder_perm range m) as Hperm. split.
  - destruct subnetIDs as [|subnetID rest]; [done|].
    assert (Hin : m !! aws.StringValue subnetID
                  = Some ec2.AssociationStatusCodeDisassociated).
    { apply markNotFound_lookup, trackSubnets_lookup. rewrite fmap_cons. left. }
    intros Hnil. apply fmap_nil_inv in Hnil. rewrite Hnil in Hperm.
    symmetry in Hperm. apply Permutation_nil_r in Hperm.
    apply map_to_list_empty_iff in Hperm. rewrite Hperm in Hin.
    by rewrite lookup_empty in Hin.
  - assert (Hm : map_Forall (λ _ state, state = ec2.AssociationStatusCodeDisassociated) m).
    { unfold m, markNotFound. apply map_Forall_fmap.
      eapply map_Forall_impl; [apply trackSubnets_values|].
      by intros id state ->. }
    apply map_Forall_to_list in Hm.
    apply Forall_fmap. rewrite Hperm.
    eapply Forall_impl; [exact Hm|]. by intros [id state].
Qed.

(** C10, as stated, fails for the route-table association helper: with a
    nil connection and a non-empty route-table id it calls through the nil
    connection instead of returning nil and nil. *)
Lemma nil_connection_is_dereferenced :
  ec2DescribeTransitGatewayRouteTableAssociation (None : option (EC2 unit))
    "tgw-rtb-1" "tgw-attach-1" tt = Panic ∧
  ec2DescribeTransitGatewayRouteTableAssociation (None : option (EC2 unit))
    "tgw-rtb-1" "tgw-attach-1" tt ≠ Done (None, None) tt [].
Proof. split; [reflexivity | discriminate]. Qed.

(** C10, amended.  Without a remote call, the route-table association
    helper returns nil and nil on an empty route-table id, and the two
    multicast-domain helpers return nil and nil on an empty domain id or a
    nil connection; the refresh functions over them then report "deleted",
    and "disassociated" when at least one subnet is tracked. *)
Theorem unset_identifier_reads_as_absent {W} (maxPages : nat) (range : MapRange)
    (conn : option (EC2 W)) (domainID : string) (w : W) :
  conn = None ∨ domainID = "" →
  (∀ anyConn attachment,
     ec2DescribeTransitGatewayRouteTableAssociation anyConn "" attachment w
     = Done (None, None) w [] ∧
     ec2TransitGatewayRouteTableAssociationRefreshFunc anyConn "" attachment w
     = Done (None, ec2.TransitGatewayRouteTableStateDeleted, None) w []) ∧
  ec2DescribeTransitGatewayMulticastDomain conn domainID w = Done (None, None) w [] ∧
  ec2TransitGatewayMulticastDomainRefreshFunc conn domainID w
  = Done (None, ec2.TransitGatewayMulticastDomainStateDeleted, None) w [] ∧
  ec2GetTransitGatewayMulticastDomainAssociations maxPages conn domainID w
  = Done ([], None) w [] ∧
  ∀ subnetIDs, subnetIDs ≠ [] →
    ec2TransitGatewayMulticastDomainAssociationRefreshFunc maxPages range conn domainID
      subnetIDs w
    = Done (Some [], ec2.AssociationStatusCodeDisassociated, None) w [].
Proof.
  intros Hunset.
  assert (Hguard : isNil conn || bool_decide (domainID = "") = true).
  { destruct Hunset as [-> | ->]; [done|]. by rewrite orb_true_r. }
  assert (Hdomain : ec2DescribeTransitGatewayMulticastDomain conn domainID w
                    = Done (None, None) w []).
  { unfold ec2DescribeTransitGatewayMulticastDomain. by rewrite Hguard. }
  assert (Hget : ec2GetTransitGatewayMulticastDomainAssociations maxPages conn domainID w
                 = Done ([], None) w []).
  { unfold ec2GetTransitGatewayMulticastDomainAssociations. by rewrite Hguard. }
  refine (conj _ (conj Hdomain (conj _ (conj Hget _)))).
  - intros anyConn attachment. split; [done|].
    unfold ec2TransitGatewayRouteTableAssociationRefreshFunc.
    by rewrite (bind_Done _ _ _ (None, None) w []).
  - unfold ec2TransitGatewayMulticastDomainRefreshFunc.
    by rewrite (bind_Done _ _ _ _ _ _ Hdomain).
  - intros subnetIDs Hne.
    rewrite (associationRefresh_reduces maxPages range conn domainID subnetIDs w []
               w [] (markNotFound (trackSubnets subnetIDs)) Hget eq_refl).
    destruct (untouched_subnets_all_disassociated range subnetIDs Hne) as [Hsome Hall].
    by rewrite compoundStateFrom_all_disassociated.
Qed.

Lemma unset_identifier_reads_as_absent_witness :
  ec2DescribeTransitGatewayMulticastDomain (Some silent) "" tt = Done (None, None) tt [] ∧
  ec2GetTransitGatewayMulticastDomainAssociations 1 (None : option (EC2 unit))
    "tgw-mcast-domain-1" tt
  = Done ([], None) tt [] ∧
  ec2TransitGatewayMulticastDomainAssociationRefreshFunc 1 keyOrder (Some silent) ""
    [Some "subnet-a"; Some "subnet-b"] tt
  = Done (Some [], "disassociated", None) tt [].
Proof.
  pose proof (unset_identifier_reads_as_absent 1 keyOrder (Some silent) "" tt
                (or_intror eq_refl)) as (_ & Hdomain & _ & _ & Hpoll).
  pose proof (unset_identifier_reads_as_absent 1 keyOrder (None : option (EC2 unit))
                "tgw-mcast-domain-1" tt (or_introl eq_refl)) as (_ & _ & _ & Hget & _).
  refine (conj Hdomain (conj Hget _)).
  apply Hpoll. discriminate.
Defined.

(** ** Route-table updates *)

Lemma call_trace {W} (conn : option (EC2 W)) (r : Request) w out err w' tm :
  call conn r w = Done (out, err) w' tm → tm = [Called r err].
Proof.
  unfold call. destruct conn as [c|]; [|done].
  destruct (c r w) as [[out' err'] w'']. by intros [= _ <- _ <-].
Qed.

Lemma wait_starts {W P} (sdk : SDK W) (conf : StateChangeConf W P) w r w' t :
  StateChangeConf_WaitForState sdk conf w = Done r w' t →
  ∃ t', t = WaitForStateCalled (Pending conf) (Target conf) (Timeout conf)
                (NotFoundChecks conf) :: t'.
Proof.
  unfold StateChangeConf_WaitForState. intros H.
  apply bind_Done_inv in H as (? & ? & ? & t2 & [= <- <- <-] & _ & ->).
  by exists t2.
Qed.

Ltac call_traced H :=
  match type of H with
  | call ?c ?r ?w = Done (?o, ?e) ?w' ?tm =>
      let Htm := fresh "Htm" in
      pose proof (call_trace c r w o e w' tm H) as Htm;
      first [subst tm | rewrite Htm in *]
  end.

Tactic Notation "bind_inv" hyp(H) "as" ident(Hfirst) :=
  let a := fresh "a" in let w1 := fresh "w" in
  let t1 := fresh "t" in let t2 := fresh "t" in
  apply bind_Done_inv in H as (a & w1 & t1 & t2 & Hfirst & H & ->).

(** After a successful associate call the helper starts the creation
    wait. *)
Lemma association_update_associates {W} (sdk : SDK W) (conn : option (EC2 W))
    (rtb att : string) w w1 t1 out w2 tm r w' tr :
  ec2DescribeTransitGatewayRouteTableAssociation conn rtb att w
    = Done (None, None) w1 t1 →
  call conn (AssociateTransitGatewayRouteTable (aws.String att) (aws.String rtb)) w1
    = Done (out, None) w2 tm →
  ec2TransitGatewayRouteTableAssociationUpdate sdk conn rtb att true w = Done r w' tr →
  ∃ polls,
    tr = t1 ++
         Called (AssociateTransitGatewayRouteTable (aws.String att) (aws.String rtb)) None ::
         WaitForStateCalled ["associating"] ["associated"] (5 * time.Minute) 0 :: polls.
Proof.
  intros Hdescribe Hcall Hrun.
  unfold ec2TransitGatewayRouteTableAssociationUpdate in Hrun.
  bind_inv Hrun as Hd. rewrite Hdescribe in Hd. injection Hd as <- <- <-.
  simpl in Hrun. bind_inv Hrun as Hc. rewrite Hcall in Hc. injection Hc as <- <- <-.
  simpl in Hrun. bind_inv Hrun as Hwait.
  unfold waitForEc2TransitGatewayRouteTableAssociationCreation in Hwait.
  bind_inv Hwait as Hstart. apply wait_starts in Hstart as [polls ->].
  call_traced Hcall. simpl. eexists. reflexivity.
Qed.

(** After a successful disassociate call the helper starts the deletion
    wait. *)
Lemma association_update_disassociates {W} (sdk : SDK W) (conn : option (EC2 W))
    (rtb att : string) w current w1 t1 out w2 tm r w' tr :
  ec2DescribeTransitGatewayRouteTableAssociation conn rtb att w
    = Done (Some current, None) w1 t1 →
  call conn (DisassociateTransitGatewayRouteTable (aws.String att) (aws.String rtb)) w1
    = Done (out, None) w2 tm →
  ec2TransitGatewayRouteTableAssociationUpdate sdk conn rtb att false w = Done r w' tr →
  ∃ polls,
    tr = t1 ++
         Called (DisassociateTransitGatewayRouteTable (aws.String att) (aws.String rtb))
           None ::
         WaitForStateCalled ["associated"; "disassociating"] [""] (5 * time.Minute) 1 ::
         polls.
Proof.
  intros Hdescribe Hcall Hrun.
  unfold ec2TransitGatewayRouteTableAssociationUpdate in Hrun.
  bind_inv Hrun as Hd. rewrite Hdescribe in Hd. injection Hd as <- <- <-.
  simpl in Hrun. bind_inv Hrun as Hc. rewrite Hcall in Hc. injection Hc as <- <- <-.
  simpl in Hrun. bind_inv Hrun as Hwait.
  unfold waitForEc2TransitGatewayRouteTableAssociationDeletion in Hwait.
  bind_inv Hwait as Hstart. apply wait_starts in Hstart as [polls ->].
  call_traced Hcall. simpl. eexists. reflexivity.
Qed.

(** A failed associate or disassociate call ends the helper with that
    error; no wait is started. *)
Lemma association_update_mutation_fails {W} (sdk : SDK W) (conn : option (EC2 W))
    (rtb att : string) (associate : bool) w current w1 t1 e w2 :
  ec2DescribeTransitGatewayRouteTableAssociation conn rtb att w
    = Done (current, None) w1 t1 →
  associate = isNil current →
  (if associate
   then ∃ out tm,
          call conn (AssociateTransitGatewayRouteTable (aws.String att) (aws.String rtb))
            w1 = Done (out, Some e) w2 tm
   else ∃ out tm,
          call conn (DisassociateTransitGatewayRouteTable (aws.String att)
                       (aws.String rtb)) w1 = Done (out, Some e) w2 tm) →
  ∃ r mutation,
    ec2TransitGatewayRouteTableAssociationUpdate sdk conn rtb att associate w
    = Done (Some r) w2 (t1 ++ [mutation]) ∧
    isMutation mutation = true.
Proof.
  intros Hdescribe -> Hcall.
  unfold ec2TransitGatewayRouteTableAssociationUpdate.
  rewrite (bind_Done _ _ _ _ _ _ Hdescribe).
  destruct current as [current|]; simpl in *; destruct Hcall as (out & tm & Hcall);
    rewrite (bind_Done _ _ _ _ _ _ Hcall); simpl;
    call_traced Hcall; rewrite app_nil_r; eauto.
Qed.

(** When the association is already as requested the helper changes
    nothing. *)
Lemma association_update_settled {W} (sdk : SDK W) (conn : option (EC2 W))
    (rtb att : string) (associate : bool) w current w1 t1 :
  ec2DescribeTransitGatewayRouteTableAssociation conn rtb att w
    = Done (current, None) w1 t1 →
  associate = negb (isNil current) →
  ec2TransitGatewayRouteTableAssociationUpdate sdk conn rtb att associate w
  = Done None w1 t1.
Proof.
  intros Hdescribe ->.
  unfold ec2TransitGatewayRouteTableAssociationUpdate.
  rewrite (bind_Done _ _ _ _ _ _ Hdescribe).
  destruct current; simpl; by rewrite app_nil_r.
Qed.

Lemma describe_propagation_trace {W} (conn : option (EC2 W)) (rtb att : string)
    w r w' tr :
  ec2DescribeTransitGatewayRouteTablePropagation conn rtb att w = Done r w' tr →
  Forall (λ e, isWait e = false ∧ isMutation e = false) tr.
Proof.
  unfold ec2DescribeTransitGatewayRouteTablePropagation. intros H.
  case_decide.
  - injection H as <- <- <-. constructor.
  - bind_inv H as Hc. destruct a as [out err]. call_traced Hc.
    assert (t0 = []) as ->.
    { destruct err; [by injection H as _ _ <-|].
      destruct out as [out|]; [|by injection H as _ _ <-].
      destruct (Listing.Items out); by injection H as _ _ <-. }
    repeat constructor.
Qed.

(** The propagation helper never starts a wait and calls at most one
    enable or disable. *)
Lemma propagation_update_never_waits {W} (conn : option (EC2 W)) (rtb att : string)
    (enablePropagation : bool) w r w' tr :
  ec2TransitGatewayRouteTablePropagationUpdate conn rtb att enablePropagation w
    = Done r w' tr →
  Forall (λ e, isWait e = false) tr ∧
  (length (filter (λ e, isMutation e = true) tr) ≤ 1)%nat.
Proof.
  unfold ec2TransitGatewayRouteTablePropagationUpdate. intros H.
  bind_inv H as Hd. destruct a as [current err].
  apply describe_propagation_trace in Hd.
  assert (Hreads : Forall (λ e, isWait e = false) t ∧
                   filter (λ e, isMutation e = true) t = []).
  { split; [eapply Forall_impl; [exact Hd | by intros e [? _]]|].
    clear H. induction Hd as [|e reads [_ He] _ IH]; [done|].
    rewrite filter_cons_False; [done|]. by rewrite He. }
  destruct Hreads as [Hwaits Hmutations].
  assert (Hend : t0 = [] ∨ ∃ e, t0 = [e] ∧ isWait e = false).
  { destruct err; [left; by injection H as _ _ <-|].
    destruct (enablePropagation && isNil current).
    - bind_inv H as Hc. destruct a as [out err]. call_traced Hc. right.
      destruct err; injection H as _ _ <-; eauto.
    - destruct (negb enablePropagation && negb (isNil current)).
      + bind_inv H as Hc. destruct a as [out err]. call_traced Hc. right.
        destruct err; injection H as _ _ <-; eauto.
      + left. by injection H as _ _ <-. }
  destruct Hend as [-> | (e & -> & He)].
  - rewrite app_nil_r, Hmutations. split; [done | simpl; lia].
  - split; [apply Forall_app; split; [done | by repeat constructor]|].
    rewrite filter_app, Hmutations.
    pose proof (length_filter (λ e, isMutation e = true) [e]) as Hle.
    simpl in *. lia.
Qed.

(** A failed associate call ends the helper with the error of the call,
    wrapped; no wait is started. *)
Lemma association_update_associate_fails {W} (sdk : SDK W) (conn : option (EC2 W))
    (rtb att : string) w w1 t1 out e w2 tm :
  ec2DescribeTransitGatewayRouteTableAssociation conn rtb att w
    = Done (None, None) w1 t1 →
  call conn (AssociateTransitGatewayRouteTable (aws.String att) (aws.String rtb)) w1
    = Done (out, Some e) w2 tm →
  ec2TransitGatewayRouteTableAssociationUpdate sdk conn rtb att true w
  = Done (Some (Errorf ["error associating EC2 Transit Gateway Route Table (";
                        rtb; ") association ("; att; "): "; errorText e]))
      w2
      (t1 ++ [Called (AssociateTransitGatewayRouteTable (aws.String att)
                        (aws.String rtb)) (Some e)]).
Proof.
  intros Hdescribe Hcall.
  unfold ec2TransitGatewayRouteTableAssociationUpdate.
  rewrite (bind_Done _ _ _ _ _ _ Hdescribe). simpl.
  rewrite (bind_Done _ _ _ _ _ _ Hcall). simpl.
  call_traced Hcall. by rewrite app_nil_r.
Qed.

(** The same for a failed disassociate call. *)
Lemma association_update_disassociate_fails {W} (sdk : SDK W) (conn : option (EC2 W))
    (rtb att : string) w current w1 t1 out e w2 tm :
  ec2DescribeTransitGatewayRouteTableAssociation conn rtb att w
    = Done (Some current, None) w1 t1 →
  call conn (DisassociateTransitGatewayRouteTable (aws.String att) (aws.String rtb)) w1
    = Done (out, Some e) w2 tm →
  ec2TransitGatewayRouteTableAssociationUpdate sdk conn rtb att false w
  = Done (Some (Errorf ["error disassociating EC2 Transit Gateway Route Table (";
                        rtb; ") disassociation ("; att; "): "; errorText e]))
      w2
      (t1 ++ [Called (DisassociateTransitGatewayRouteTable (aws.String att)
                        (aws.String rtb)) (Some e)]).
Proof.
  intros Hdescribe Hcall.
  unfold ec2TransitGatewayRouteTableAssociationUpdate.
  rewrite (bind_Done _ _ _ _ _ _ Hdescribe). simpl.
  rewrite (bind_Done _ _ _ _ _ _ Hcall). simpl.
  call_traced Hcall. by rewrite app_nil_r.
Qed.

(** When the association cannot be described the helper returns that
    error, wrapped, and calls nothing else. *)
Lemma association_update_describe_fails {W} (sdk : SDK W) (conn : option (EC2 W))
    (rtb att : string) (associate : bool) w current e w1 t1 :
  ec2DescribeTransitGatewayRouteTableAssociation conn rtb att w
    = Done (current, Some e) w1 t1 →
  ec2TransitGatewayRouteTableAssociationUpdate sdk conn rtb att associate w
  = Done (Some (Errorf ["error determining EC2 Transit Gateway Attachment Route Table (";
                        rtb; ") association ("; att; "): "; errorText e]))
      w1 t1.
Proof.
  intros Hdescribe.
  unfold ec2TransitGatewayRouteTableAssociationUpdate.
  rewrite (bind_Done _ _ _ _ _ _ Hdescribe). simpl. by rewrite app_nil_r.
Qed.

(** The propagation helper enables a propagation that is not there: one
    call, whose error it returns wrapped. *)
Lemma propagation_update_enables {W} (conn : option (EC2 W)) (rtb att : string)
    w w1 t1 out err w2 tm :
  ec2DescribeTransitGatewayRouteTablePropagation conn rtb att w
    = Done (None, None) w1 t1 →
  call conn (EnableTransitGatewayRouteTablePropagation (aws.String att) (aws.String rtb))
    w1 = Done (out, err) w2 tm →
  ec2TransitGatewayRouteTablePropagationUpdate conn rtb att true w
  = Done (match err with
          | Some e =>
              Some (Errorf ["error enabling EC2 Transit Gateway Attachment ("; att;
                            ") propagation to Route Table ("; rtb; "): "; errorText e])
          | None => None
          end)
      w2
      (t1 ++ [Called (EnableTransitGatewayRouteTablePropagation (aws.String att)
                        (aws.String rtb)) err]).
Proof.
  intros Hdescribe Hcall.
  unfold ec2TransitGatewayRouteTablePropagationUpdate.
  rewrite (bind_Done _ _ _ _ _ _ Hdescribe). simpl.
  rewrite (bind_Done _ _ _ _ _ _ Hcall). simpl.
  call_traced Hcall. destruct err; simpl; by rewrite ?app_nil_r.
Qed.

(** It disables a propagation that is there, in the same way. *)
Lemma propagation_update_disables {W} (conn : option (EC2 W)) (rtb att : string)
    w current w1 t1 out err w2 tm :
  ec2DescribeTransitGatewayRouteTablePropagation conn rtb att w
    = Done (Some current, None) w1 t1 →
  call conn (DisableTransitGatewayRouteTablePropagation (aws.String att) (aws.String rtb))
    w1 = Done (out, err) w2 tm →
  ec2TransitGatewayRouteTablePropagationUpdate conn rtb att false w
  = Done (match err with
          | Some e =>
              Some (Errorf ["error disabling EC2 Transit Gateway Attachment ("; att;
                            ") propagation to Route Table ("; rtb; "): "; errorText e])
          | None => None
          end)
      w2
      (t1 ++ [Called (DisableTransitGatewayRouteTablePropagation (aws.String att)
                        (aws.String rtb)) err]).
Proof.
  intros Hdescribe Hcall.
  unfold ec2TransitGatewayRouteTablePropagationUpdate.
  rewrite (bind_Done _ _ _ _ _ _ Hdescribe). simpl.
  rewrite (bind_Done _ _ _ _ _ _ Hcall). simpl.
  call_traced Hcall. destruct err; simpl; by rewrite ?app_nil_r.
Qed.

(** When the propagation is already as requested the helper changes
    nothing. *)
Lemma propagation_update_settled {W} (conn : option (EC2 W)) (rtb att : string)
    (enablePropagation : bool) w current w1 t1 :
  ec2DescribeTransitGatewayRouteTablePropagation conn rtb att w
    = Done (current, None) w1 t1 →
  enablePropagation = negb (isNil current) →
  ec2TransitGatewayRouteTablePropagationUpdate conn rtb att enablePropagation w
  = Done None w1 t1.
Proof.
  intros Hdescribe ->.
  unfold ec2TransitGatewayRouteTablePropagationUpdate.
  rewrite (bind_Done _ _ _ _ _ _ Hdescribe).
  destruct current; simpl; by rewrite app_nil_r.
Qed.

(** When the propagation cannot be described the helper returns that
    error, wrapped, and calls nothing else. *)
Lemma propagation_update_describe_fails {W} (conn : option (EC2 W)) (rtb att : string)
    (enablePropagation : bool) w current e w1 t1 :
  ec2DescribeTransitGatewayRouteTablePropagation conn rtb att w
    = Done (current, Some e) w1 t1 →
  ec2TransitGatewayRouteTablePropagationUpdate conn rtb att enablePropagation w
  = Done (Some (Errorf ["error determining EC2 Transit Gateway Attachment ("; att;
                        ") propagation to Route Table ("; rtb; "): "; errorText e]))
      w1 t1.
Proof.
  intros Hdescribe.
  unfold ec2TransitGatewayRouteTablePropagationUpdate.
  rewrite (bind_Done _ _ _ _ _ _ Hdescribe). simpl. by rewrite app_nil_r.
Qed.

(** C9, as stated, fails for the propagation helper: it enables the
    propagation and returns without starting any wait. *)
Lemma propagation_update_does_not_wait :
  let enabled :=
    Called (EnableTransitGatewayRouteTablePropagation (Some "tgw-attach-1")
              (Some "tgw-rtb-1")) None in
  let trace :=
    [Called (GetTransitGatewayRouteTablePropagations (attachmentFilter "tgw-attach-1")
               (Some "tgw-rtb-1")) None;
     enabled] in
  ec2TransitGatewayRouteTablePropagationUpdate (Some silent) "tgw-rtb-1" "tgw-attach-1"
    true tt
  = Done None tt trace ∧
  isMutation enabled = true ∧
  Forall (λ e, isWait e = false) trace.
Proof. split; [reflexivity|]. split; [reflexivity|]. by repeat constructor. Qed.

(** C9, amended.  The association helper describes the association first.
    When that fails it returns the error, wrapped, and calls nothing else;
    when the association is already as requested it changes nothing;
    otherwise it issues the associate or disassociate call once, returns
    the error of that call, wrapped, without waiting when the call fails,
    and when it succeeds starts the creation wait (pending "associating",
    target "associated") or the deletion wait (pending "associated" and
    "disassociating", target "") before it returns.  The propagation helper
    makes the same state check: it describes the propagation, returns a
    describe error wrapped, changes nothing when the propagation is already
    as requested, and otherwise issues one enable or disable call and
    returns at once, with the error of the call wrapped or with nil; it
    never starts a wait. *)
Theorem route_table_update_waits_after_association_only {W} (sdk : SDK W)
    (conn : option (EC2 W)) (rtb att : string) :
  (∀ w w1 t1 out w2 tm r w' tr,
     ec2DescribeTransitGatewayRouteTableAssociation conn rtb att w
       = Done (None, None) w1 t1 →
     call conn (AssociateTransitGatewayRouteTable (aws.String att) (aws.String rtb)) w1
       = Done (out, None) w2 tm →
     ec2TransitGatewayRouteTableAssociationUpdate sdk conn rtb att true w
       = Done r w' tr →
     ∃ polls,
       tr = t1 ++
            Called (AssociateTransitGatewayRouteTable (aws.String att) (aws.String rtb))
              None ::
            WaitForStateCalled ["associating"] ["associated"] (5 * time.Minute) 0 ::
            polls) ∧
  (∀ w current w1 t1 out w2 tm r w' tr,
     ec2DescribeTransitGatewayRouteTableAssociation conn rtb att w
       = Done (Some current, None) w1 t1 →
     call conn (DisassociateTransitGatewayRouteTable (aws.String att) (aws.String rtb))
       w1 = Done (out, None) w2 tm →
     ec2TransitGatewayRouteTableAssociationUpdate sdk conn rtb att false w
       = Done r w' tr →
     ∃ polls,
       tr = t1 ++
            Called (DisassociateTransitGatewayRouteTable (aws.String att)
                      (aws.String rtb)) None ::
            WaitForStateCalled ["associated"; "disassociating"] [""]
              (5 * time.Minute) 1 ::
            polls) ∧
  (∀ w w1 t1 out e w2 tm,
     ec2DescribeTransitGatewayRouteTableAssociation conn rtb att w
       = Done (None, None) w1 t1 →
     call conn (AssociateTransitGatewayRouteTable (aws.String att) (aws.String rtb)) w1
       = Done (out, Some e) w2 tm →
     ec2TransitGatewayRouteTableAssociationUpdate sdk conn rtb att true w
     = Done (Some (Errorf ["error associating EC2 Transit Gateway Route Table (";
                           rtb; ") association ("; att; "): "; errorText e]))
         w2
         (t1 ++ [Called (AssociateTransitGatewayRouteTable (aws.String att)
                           (aws.String rtb)) (Some e)])) ∧
  (∀ w current w1 t1 out e w2 tm,
     ec2DescribeTransitGatewayRouteTableAssociation conn rtb att w
       = Done (Some current, None) w1 t1 →
     call conn (DisassociateTransitGatewayRouteTable (aws.String att) (aws.String rtb))
       w1 = Done (out, Some e) w2 tm →
     ec2TransitGatewayRouteTableAssociationUpdate sdk conn rtb att false w
     = Done (Some (Errorf ["error disassociating EC2 Transit Gateway Route Table (";
                           rtb; ") disassociation ("; att; "): "; errorText e]))
         w2
         (t1 ++ [Called (DisassociateTransitGatewayRouteTable (aws.String att)
                           (aws.String rtb)) (Some e)])) ∧
  (∀ associate w current w1 t1,
     ec2DescribeTransitGatewayRouteTableAssociation conn rtb att w
       = Done (current, None) w1 t1 →
     associate = negb (isNil current) →
     ec2TransitGatewayRouteTableAssociationUpdate sdk conn rtb att associate w
     = Done None w1 t1) ∧
  (∀ associate w current e w1 t1,
     ec2DescribeTransitGatewayRouteTableAssociation conn rtb att w
       = Done (current, Some e) w1 t1 →
     ec2TransitGatewayRouteTableAssociationUpdate sdk conn rtb att associate w
     = Done (Some (Errorf ["error determining EC2 Transit Gateway Attachment Route Table (";
                           rtb; ") association ("; att; "): "; errorText e]))
         w1 t1) ∧
  (∀ w w1 t1 out err w2 tm,
     ec2DescribeTransitGatewayRouteTablePropagation conn rtb att w
       = Done (None, None) w1 t1 →
     call conn (EnableTransitGatewayRouteTablePropagation (aws.String att)
                  (aws.String rtb)) w1 = Done (out, err) w2 tm →
     ec2TransitGatewayRouteTablePropagationUpdate conn rtb att true w
     = Done (match err with
             | Some e =>
                 Some (Errorf ["error enabling EC2 Transit Gateway Attachment ("; att;
                               ") propagation to Route Table ("; rtb; "): ";
                               errorText e])
             | None => None
             end)
         w2
         (t1 ++ [Called (EnableTransitGatewayRouteTablePropagation (aws.String att)
                           (aws.String rtb)) err])) ∧
  (∀ w current w1 t1 out err w2 tm,
     ec2DescribeTransitGatewayRouteTablePropagation conn rtb att w
       = Done (Some current, None) w1 t1 →
     call conn (DisableTransitGatewayRouteTablePropagation (aws.String att)
                  (aws.String rtb)) w1 = Done (out, err) w2 tm →
     ec2TransitGatewayRouteTablePropagationUpdate conn rtb att false w
     = Done (match err with
             | Some e =>
                 Some (Errorf ["error disabling EC2 Transit Gateway Attachment ("; att;
                               ") propagation to Route Table ("; rtb; "): ";
                               errorText e])
             | None => None
             end)
         w2
         (t1 ++ [Called (DisableTransitGatewayRouteTablePropagation (aws.String att)
                           (aws.String rtb)) err])) ∧
  (∀ enablePropagation w current w1 t1,
     ec2DescribeTransitGatewayRouteTablePropagation conn rtb att w
       = Done (current, None) w1 t1 →
     enablePropagation = negb (isNil current) →
     ec2TransitGatewayRouteTablePropagationUpdate conn rtb att enablePropagation w
     = Done None w1 t1) ∧
  (∀ enablePropagation w current e w1 t1,
     ec2DescribeTransitGatewayRouteTablePropagation conn rtb att w
       = Done (current, Some e) w1 t1 →
     ec2TransitGatewayRouteTablePropagationUpdate conn rtb att enablePropagation w
     = Done (Some (Errorf ["error determining EC2 Transit Gateway Attachment ("; att;
                           ") propagation to Route Table ("; rtb; "): "; errorText e]))
         w1 t1) ∧
  (∀ enablePropagation w r w' tr,
     ec2TransitGatewayRouteTablePropagationUpdate conn rtb att enablePropagation w
       = Done r w' tr →
     Forall (λ e, isWait e = false) tr ∧
     (length (filter (λ e, isMutation e = true) tr) ≤ 1)%nat).
Proof.
  refine (conj _ (conj _ (conj _ (conj _ (conj _ (conj _ (conj _ (conj _ (conj _
            (conj _ _)))))))))).
  - intros until tr. apply association_update_associates.
  - intros until tr. apply association_update_disassociates.
  - intros until tm. apply association_update_associate_fails.
  - intros until tm. apply association_update_disassociate_fails.
  - intros until t1. apply association_update_settled.
  - intros until t1. apply association_update_describe_fails.
  - intros until tm. apply propagation_update_enables.
  - intros until tm. apply propagation_update_disables.
  - intros until t1. apply propagation_update_settled.
  - intros until t1. apply propagation_update_describe_fails.
  - intros until tr. apply propagation_update_never_waits.
Qed.

Lemma route_table_update_waits_after_association_only_witness :
  let sdk : SDK unit := referenceSDK pollsPerMinute in
  let denied := AWSError "UnauthorizedOperation" "denied" in
  let update conn associate :=
    ec2TransitGatewayRouteTableAssociationUpdate sdk (Some conn) "tgw-rtb-1"
      "tgw-attach-1" associate tt in
  let propagate conn enablePropagation :=
    ec2TransitGatewayRouteTablePropagationUpdate (Some conn) "tgw-rtb-1" "tgw-attach-1"
      enablePropagation tt in
  let described err :=
    Called (GetTransitGatewayRouteTableAssociations (attachmentFilter "tgw-attach-1")
              (Some "tgw-rtb-1")) err in
  let listed err :=
    Called (GetTransitGatewayRouteTablePropagations (attachmentFilter "tgw-attach-1")
              (Some "tgw-rtb-1")) err in
  let associated :=
    Called (AssociateTransitGatewayRouteTable (Some "tgw-attach-1") (Some "tgw-rtb-1")) in
  let disassociated :=
    Called (DisassociateTransitGatewayRouteTable (Some "tgw-attach-1")
              (Some "tgw-rtb-1")) in
  let enabled :=
    Called (EnableTransitGatewayRouteTablePropagation (Some "tgw-attach-1")
              (Some "tgw-rtb-1")) in
  let disabled :=
    Called (DisableTransitGatewayRouteTablePropagation (Some "tgw-attach-1")
              (Some "tgw-rtb-1")) in
  (∃ r tr,
     update silent true = Done r tt tr ∧
     ∃ polls,
       tr = [described None] ++ associated None ::
            WaitForStateCalled ["associating"] ["associated"] (5 * time.Minute) 0 ::
            polls) ∧
  (∃ r tr,
     update routed false = Done r tt tr ∧
     ∃ polls,
       tr = [described None] ++ disassociated None ::
            WaitForStateCalled ["associated"; "disassociating"] [""]
              (5 * time.Minute) 1 ::
            polls) ∧
  update (readOnly denied) true
  = Done (Some (ErrorString
                  ("error associating EC2 Transit Gateway Route Table (tgw-rtb-1) " +:+
                   "association (tgw-attach-1): UnauthorizedOperation: denied")))
      tt ([described None] ++ [associated (Some denied)]) ∧
  update (guarded denied) false
  = Done (Some (ErrorString
                  ("error disassociating EC2 Transit Gateway Route Table (tgw-rtb-1) " +:+
                   "disassociation (tgw-attach-1): UnauthorizedOperation: denied")))
      tt ([described None] ++ [disassociated (Some denied)]) ∧
  update routed true = Done None tt [described None] ∧
  update (failing denied) true
  = Done (Some (ErrorString
                  ("error determining EC2 Transit Gateway Attachment Route Table " +:+
                   "(tgw-rtb-1) association (tgw-attach-1): " +:+
                   "UnauthorizedOperation: denied")))
      tt [described (Some denied)] ∧
  propagate silent true = Done None tt ([listed None] ++ [enabled None]) ∧
  propagate (guarded denied) false
  = Done (Some (ErrorString
                  ("error disabling EC2 Transit Gateway Attachment (tgw-attach-1) " +:+
                   "propagation to Route Table (tgw-rtb-1): " +:+
                   "UnauthorizedOperation: denied")))
      tt ([listed None] ++ [disabled (Some denied)]) ∧
  propagate routed true = Done None tt [listed None] ∧
  propagate (failing denied) false
  = Done (Some (ErrorString
                  ("error determining EC2 Transit Gateway Attachment (tgw-attach-1) " +:+
                   "propagation to Route Table (tgw-rtb-1): " +:+
                   "UnauthorizedOperation: denied")))
      tt [listed (Some denied)] ∧
  (Forall (λ e, isWait e = false) [listed None; enabled None] ∧
   (length (filter (λ e, isMutation e = true) [listed None; enabled None]) ≤ 1)%nat).
Proof.
  intros sdk denied update propagate described listed associated disassociated
    enabled disabled.
  pose proof (route_table_update_waits_after_association_only sdk (Some silent)
                "tgw-rtb-1" "tgw-attach-1")
    as (Hassociate & _ & _ & _ & _ & _ & Henable & _ & _ & _ & Hpropagate).
  pose proof (route_table_update_waits_after_association_only sdk (Some routed)
                "tgw-rtb-1" "tgw-attach-1")
    as (_ & Hdisassociate & _ & _ & Hsettled & _ & _ & _ & Hkept & _).
  pose proof (route_table_update_waits_after_association_only sdk
                (Some (readOnly denied)) "tgw-rtb-1" "tgw-attach-1")
    as (_ & _ & Hrefused & _).
  pose proof (route_table_update_waits_after_association_only sdk
                (Some (guarded denied)) "tgw-rtb-1" "tgw-attach-1")
    as (_ & _ & _ & Hheld & _ & _ & _ & Hdisable & _).
  pose proof (route_table_update_waits_after_association_only sdk
                (Some (failing denied)) "tgw-rtb-1" "tgw-attach-1")
    as (_ & _ & _ & _ & _ & Hunknown & _ & _ & _ & Hunlisted & _).
  refine (conj _ (conj _ (conj _ (conj _ (conj _ (conj _ (conj _ (conj _ (conj _
            (conj _ _)))))))))).
  - eexists _, _. split; [reflexivity|].
    eapply (Hassociate tt tt [described None] None tt); reflexivity.
  - eexists _, _. split; [reflexivity|].
    eapply (Hdisassociate tt _ tt [described None] None tt); reflexivity.
  - apply (Hrefused tt tt [described None] None denied tt
             [associated (Some denied)]); reflexivity.
  - eapply (Hheld tt _ tt [described None] None denied tt
             [disassociated (Some denied)]); reflexivity.
  - eapply (Hsettled true tt _ tt [described None]); reflexivity.
  - apply (Hunknown true tt None denied tt [described (Some denied)]). reflexivity.
  - apply (Henable tt tt [listed None] None None tt [enabled None]); reflexivity.
  - eapply (Hdisable tt _ tt [listed None] None (Some denied) tt
             [disabled (Some denied)]); reflexivity.
  - eapply (Hkept true tt _ tt [listed None]); reflexivity.
  - apply (Hunlisted false tt None denied tt [listed (Some denied)]). reflexivity.
  - eapply (Hpropagate true tt). reflexivity.
Defined.

(** ** The group register and deregister waits *)

Lemma retryUntilVisible_fatal {W} (polls : nat) (f : M W (option RetryError))
    w e w' tr :
  f w = Done (Some (NonRetryableError e)) w' tr →
  retryUntilVisible polls f w = Done (Some e) w' tr.
Proof.
  intros Hf. destruct polls; simpl; rewrite (bind_Done _ _ _ _ _ _ Hf); simpl;
    by rewrite app_nil_r.
Qed.

Lemma referenceSDK_retry_fatal {W} pollsWithin (timeout : Z)
    (f : M W (option RetryError)) w e w' tr :
  f w = Done (Some (NonRetryableError e)) w' tr →
  resource_Retry (referenceSDK pollsWithin) timeout f w
  = Done (Some e) w' (RetryCalled timeout :: tr).
Proof.
  intros Hf. unfold resource_Retry. unfold mbind at 1. unfold M_bind. simpl.
  by rewrite (retryUntilVisible_fatal _ _ _ _ _ _ Hf).
Qed.

(** Whatever the SDK's retry does, the register wait returns nil or the
    error it builds for a timeout; the same holds of the deregister wait. *)
Lemma group_wait_results {W} maxPages (sdk : SDK W) showGroupData
    (conn : option (EC2 W)) domainID groupData member w r w' tr :
  waitForEc2TransitGatewayMulticastDomainGroupRegister maxPages sdk showGroupData conn
    domainID groupData member w = Done r w' tr ∨
  waitForEc2TransitGatewayMulticastDomainGroupDeregister maxPages sdk showGroupData conn
    domainID groupData member w = Done r w' tr →
  r = None ∨
  ∃ lastError registered,
    r = Some (Errorf ["error validating that EC2 Transit Gateway Multicast Domain (";
                      domainID; ") group was successfully "; registered; ": ";
                      errorText (TimeoutError lastError)]).
Proof.
  intros [H | H];
    [unfold waitForEc2TransitGatewayMulticastDomainGroupRegister in H
    |unfold waitForEc2TransitGatewayMulticastDomainGroupDeregister in H];
    bind_inv H as Hretry; destruct a as [[]|]; simpl in H;
    injection H as <- _ _; eauto.
  - right. exists lastError, "registered". done.
  - right. exists lastError, "deregistered". done.
Qed.

(** C4.  When the group search fails with an error that is not a timeout,
    the register wait and the deregister wait, run by the reference retry,
    make that one search and return nil: the error is dropped. *)
Theorem group_wait_drops_search_error {W} maxPages pollsWithin showGroupData
    (conn : option (EC2 W)) domainID groupData member w groups e w' tr :
  ec2SearchTransitGatewayMulticastDomainGroups maxPages conn domainID
    (ec2SearchTransitGatewayMulticastDomainGroupIpFilters member
       (group_ip_address groupData)) w
    = Done (groups, Some e) w' tr →
  isResourceTimeoutError (Some e) = false →
  waitForEc2TransitGatewayMulticastDomainGroupRegister maxPages
    (referenceSDK pollsWithin) showGroupData conn domainID groupData member w
  = Done None w' (RetryCalled (2 * time.Minute) :: tr) ∧
  waitForEc2TransitGatewayMulticastDomainGroupDeregister maxPages
    (referenceSDK pollsWithin) showGroupData conn domainID groupData member w
  = Done None w' (RetryCalled (2 * time.Minute) :: tr).
Proof.
  intros Hsearch Hhard. split.
  - unfold waitForEc2TransitGatewayMulticastDomainGroupRegister.
    erewrite bind_Done.
    2:{ apply referenceSDK_retry_fatal. rewrite (bind_Done _ _ _ _ _ _ Hsearch).
        simpl. by rewrite app_nil_r. }
    rewrite Hhard. simpl. by rewrite app_nil_r.
  - unfold waitForEc2TransitGatewayMulticastDomainGroupDeregister.
    erewrite bind_Done.
    2:{ apply referenceSDK_retry_fatal. rewrite (bind_Done _ _ _ _ _ _ Hsearch).
        simpl. by rewrite app_nil_r. }
    rewrite Hhard. simpl. by rewrite app_nil_r.
Qed.

Lemma group_wait_drops_search_error_witness :
  let denied := AWSError "UnauthorizedOperation" "not authorized" in
  let groupData :=
    {| group_ip_address := "224.0.0.1"; network_interface_ids := ["eni-1"] |} in
  let searched member :=
    Called (SearchTransitGatewayMulticastGroups
              (ec2SearchTransitGatewayMulticastDomainGroupIpFilters member "224.0.0.1")
              (Some "tgw-mcast-domain-1") None) (Some denied) in
  waitForEc2TransitGatewayMulticastDomainGroupRegister 1 (referenceSDK pollsPerMinute)
    (λ _, "map[]") (Some (failing denied)) "tgw-mcast-domain-1" groupData true tt
  = Done None tt [RetryCalled (2 * time.Minute); searched true] ∧
  waitForEc2TransitGatewayMulticastDomainGroupDeregister 1 (referenceSDK pollsPerMinute)
    (λ _, "map[]") (Some (failing denied)) "tgw-mcast-domain-1" groupData true tt
  = Done None tt [RetryCalled (2 * time.Minute); searched true].
Proof.
  intros denied groupData searched.
  apply (group_wait_drops_search_error 1 pollsPerMinute (λ _, "map[]")
           (Some (failing denied)) "tgw-mcast-domain-1" groupData true tt [] denied tt
           [searched true]); reflexivity.
Defined.

(** * Further properties *)

(** ** Splitting at underscores *)

Lemma Split_underscore_empty : strings.Split "" "_" = [""].
Proof. done. Qed.

Lemma Split_underscore_cons (c : ascii) (rest : string) :
  strings.Split (String c rest) "_"
  = if decide (c = "_"%char) then "" :: strings.Split rest "_"
    else match strings.Split rest "_" with
         | piece :: more => String c piece :: more
         | [] => [String c ""]
         end.
Proof.
  unfold strings.Split. cbn [strings.pieces String.prefix String.length Nat.sub].
  destruct (ascii_dec "_" c) as [<-|Hne].
  - rewrite decide_True by done. by destruct rest.
  - by rewrite decide_False by done.
Qed.

Lemma Split_underscore_length (s : string) :
  length (strings.Split s "_") = S (occurrences "_" s).
Proof.
  induction s as [|c rest IH]; [done|].
  rewrite Split_underscore_cons. cbn [occurrences].
  case_decide; cbn [length]; [by rewrite IH|].
  by destruct (strings.Split rest "_").
Qed.

Lemma Split_underscore_join (s : string) :
  String.concat "_" (strings.Split s "_") = s.
Proof.
  induction s as [|c rest IH]; [done|].
  rewrite Split_underscore_cons. case_decide as Hc.
  - subst c. pose proof (Split_underscore_length rest) as Hlen.
    destruct (strings.Split rest "_") as [|piece more] eqn:Hsplit; [done|].
    change (String.concat "_" ("" :: piece :: more))
      with (String "_" (String.concat "_" (piece :: more))).
    by rewrite IH.
  - destruct (strings.Split rest "_") as [|piece more] eqn:Hsplit.
    + pose proof (Split_underscore_length rest) as Hlen. by rewrite Hsplit in Hlen.
    + rewrite <- IH. by destruct more.
Qed.

Lemma Split_underscore_pieces (s : string) :
  Forall (λ piece, occurrences "_" piece = 0) (strings.Split s "_").
Proof.
  induction s as [|c rest IH]; [by repeat constructor|].
  rewrite Split_underscore_cons. case_decide as Hc.
  - by constructor.
  - destruct (strings.Split rest "_") as [|piece more].
    + repeat constructor. cbn [occurrences]. by rewrite decide_False.
    + apply Forall_cons in IH as [Hpiece Hmore]. constructor; [|done].
      cbn [occurrences]. by rewrite decide_False.
Qed.

Lemma Split_underscore_joined (piece : string) (more : string) :
  occurrences "_" piece = 0 →
  strings.Split (piece +:+ String "_" more) "_" = piece :: strings.Split more "_".
Proof.
  induction piece as [|c piece IH]; intros Hnone.
  - change ("" +:+ String "_" more) with (String "_" more).
    by rewrite Split_underscore_cons, decide_True.
  - change (String c piece +:+ String "_" more)
      with (String c (piece +:+ String "_" more)).
    cbn [occurrences] in Hnone. case_decide as Hc; [done|].
    rewrite Split_underscore_cons, decide_False by done.
    by rewrite IH.
Qed.

Lemma Split_underscore_whole (piece : string) :
  occurrences "_" piece = 0 → strings.Split piece "_" = [piece].
Proof.
  induction piece as [|c piece IH]; intros Hnone; [done|].
  cbn [occurrences] in Hnone. case_decide as Hc; [done|].
  rewrite Split_underscore_cons, decide_False by done. by rewrite IH.
Qed.

(** ** Identifier decoding *)

Lemma Split_two_iff (id tableID second : string) :
  strings.Split id "_" = [tableID; second] ↔
  id = tableID +:+ "_" +:+ second ∧
  occurrences "_" tableID = 0 ∧ occurrences "_" second = 0.
Proof.
  split.
  - intros Hsplit.
    pose proof (Split_underscore_join id) as Hjoin.
    pose proof (Split_underscore_pieces id) as Hpieces.
    rewrite Hsplit in Hjoin, Hpieces.
    apply Forall_cons in Hpieces as [Hfirst Hpieces].
    apply Forall_cons in Hpieces as [Hsecond _].
    by rewrite <- Hjoin.
  - intros (-> & Hfirst & Hsecond).
    change ("_" +:+ second) with (String "_" second).
    by rewrite Split_underscore_joined, Split_underscore_whole.
Qed.

Lemma two_parts_or_error (failure : error) (id : string) :
  let result :=
    match strings.Split id "_" with
    | [tableID; second] => (tableID, second, None)
    | _ => ("", "", Some failure)
    end in
  (result.2 = None ↔ occurrences "_" id = 1) ∧
  (result.2 ≠ None → result.1 = ("", "")).
Proof.
  pose proof (Split_underscore_length id) as Hlen.
  destruct (strings.Split id "_") as [|tableID [|second [|third more]]];
    simpl in *; (split; [split; [try done; intros; lia | try done; intros; lia] | done]).
Qed.

(** X1.  Each of the three decoders succeeds exactly on the identifiers
    that contain one underscore; on every other identifier it returns two
    empty strings and an error. *)
Theorem decode_succeeds_on_one_underscore (quote : string → string) (id : string) :
  let decoders :=
    [decodeEc2TransitGatewayRouteID quote;
     decodeEc2TransitGatewayRouteTableAssociationID quote;
     decodeEc2TransitGatewayRouteTablePropagationID quote] in
  Forall (λ decode : string → string * string * option error,
            ((decode id).2 = None ↔ occurrences "_" id = 1) ∧
            ((decode id).2 ≠ None → (decode id).1 = ("", "")))
         decoders.
Proof.
  intros decoders. subst decoders.
  repeat (constructor; [apply two_parts_or_error|]). constructor.
Qed.

Lemma two_parts_iff (failure : error) (id tableID second : string) :
  match strings.Split id "_" with
  | [first; next] => (first, next, None)
  | _ => ("", "", Some failure)
  end = (tableID, second, None) ↔
  id = tableID +:+ "_" +:+ second ∧
  occurrences "_" tableID = 0 ∧ occurrences "_" second = 0.
Proof.
  rewrite <- Split_two_iff.
  destruct (strings.Split id "_") as [|first [|next [|third more]]];
    split; intros H; try discriminate H; by simplify_eq.
Qed.

(** X2.  Decoding and joining with an underscore are inverse: a decoder
    returns the parts [tableID] and [second] without error exactly when the
    identifier is [tableID], an underscore and [second], and neither part
    contains an underscore. *)
Theorem decode_inverts_join (quote : string → string) (id tableID second : string) :
  let decoders :=
    [decodeEc2TransitGatewayRouteID quote;
     decodeEc2TransitGatewayRouteTableAssociationID quote;
     decodeEc2TransitGatewayRouteTablePropagationID quote] in
  Forall (λ decode : string → string * string * option error,
            decode id = (tableID, second, None) ↔
            id = tableID +:+ "_" +:+ second ∧
            occurrences "_" tableID = 0 ∧ occurrences "_" second = 0)
         decoders.
Proof.
  intros decoders. subst decoders.
  repeat (constructor; [apply two_parts_iff|]). constructor.
Qed.

(** ** Describe helpers *)

Lemma firstWithId_Some {T} (idOf : T → option string) (id : string)
    (items : list (option T)) (x : T) :
  firstWithId idOf id items = Some x →
  aws.StringValue (idOf x) = id ∧ Some x ∈ items.
Proof.
  induction items as [|[y|] rest IH]; simpl; [done| |].
  - case_decide as Hid.
    + intros [= ->]. split; [done | left].
    + intros H. destruct (IH H). split; [done | by right].
  - intros H. destruct (IH H). split; [done | by right].
Qed.

Lemma firstWithId_None {T} (idOf : T → option string) (id : string)
    (items : list (option T)) :
  firstWithId idOf id items = None ↔
  ∀ x, Some x ∈ items → aws.StringValue (idOf x) ≠ id.
Proof.
  induction items as [|[y|] rest IH]; simpl.
  - split; [|done]. intros _ x Hx. by apply elem_of_nil in Hx.
  - case_decide as Hid.
    + split; [done|]. intros H. exfalso. apply (H y); [left | done].
    + rewrite IH. split.
      * intros H x Hx. apply elem_of_cons in Hx as [[= ->]|Hx]; auto.
      * intros H x Hx. apply H. by right.
  - rewrite IH. split.
    + intros H x Hx. apply elem_of_cons in Hx as [Hx|Hx]; [done | auto].
    + intros H x Hx. apply H. by right.
Qed.

Lemma call_is_read {W} (conn : option (EC2 W)) (r : Request) w res w' tr :
  isMutation (Called r None) = false →
  call conn r w = Done res w' tr →
  Forall (λ e, isRead e = true) tr.
Proof.
  intros Hr Hcall. destruct res as [out err]. call_traced Hcall.
  repeat constructor. by destruct r.
Qed.

(** One step of a paginated describe loop, shared by the four helpers. *)
Ltac describe_step IH H :=
  let Hc := fresh "Hc" in
  bind_inv H as Hc;
  match type of Hc with
  | call ?c ?r ?w = Done ?a ?w' ?t =>
      let Hread := fresh "Hread" in
      pose proof (call_is_read c r w a w' t eq_refl Hc) as Hread;
      clear Hc;
      let output := fresh "output" in
      let err := fresh "err" in
      destruct a as [output err];
      destruct err; [|destruct output as [output|]];
      simpl in H;
      [ injection H as <- <- <- <-; rewrite app_nil_r; done
      | | injection H as <- <- <- <-; rewrite app_nil_r; done ];
      case_decide; [injection H as <- <- <- <-; rewrite app_nil_r; done|];
      match type of H with
      | context [firstWithId ?idOf ?id ?items] =>
          let Hfound := fresh "Hfound" in
          destruct (firstWithId idOf id items) eqn:Hfound;
          [ apply firstWithId_Some in Hfound as [Hfound _];
            injection H as <- <- <- <-; rewrite app_nil_r; done
          | case_decide;
            [ injection H as <- <- <- <-; rewrite app_nil_r; done
            | apply IH in H as [? ?]; split; [done | by apply Forall_app] ] ]
      end
  end.

Lemma ec2DescribeTransitGateway_from_sound {W} pages (conn : option (EC2 W)) id token
    w result err w' tr :
  ec2DescribeTransitGateway_from pages conn id token w = Done (result, err) w' tr →
  nothingOrMatch TransitGateway.TransitGatewayId id result err ∧
  Forall (λ e, isRead e = true) tr.
Proof.
  revert token w tr. induction pages as [|pages IH]; intros token w tr H; [done|].
  simpl in H. describe_step IH H.
Qed.

Lemma ec2DescribeTransitGatewayRouteTable_from_sound {W} pages (conn : option (EC2 W))
    id token w result err w' tr :
  ec2DescribeTransitGatewayRouteTable_from pages conn id token w
    = Done (result, err) w' tr →
  nothingOrMatch TransitGatewayRouteTable.TransitGatewayRouteTableId id result err ∧
  Forall (λ e, isRead e = true) tr.
Proof.
  revert token w tr. induction pages as [|pages IH]; intros token w tr H; [done|].
  simpl in H. describe_step IH H.
Qed.

Lemma ec2DescribeTransitGatewayPeeringAttachment_from_sound {W} pages
    (conn : option (EC2 W)) id token w result err w' tr :
  ec2DescribeTransitGatewayPeeringAttachment_from pages conn id token w
    = Done (result, err) w' tr →
  nothingOrMatch TransitGatewayPeeringAttachment.TransitGatewayAttachmentId id
    result err ∧
  Forall (λ e, isRead e = true) tr.
Proof.
  revert token w tr. induction pages as [|pages IH]; intros token w tr H; [done|].
  simpl in H. describe_step IH H.
Qed.

Lemma ec2DescribeTransitGatewayVpcAttachment_from_sound {W} pages
    (conn : option (EC2 W)) id token w result err w' tr :
  ec2DescribeTransitGatewayVpcAttachment_from pages conn id token w
    = Done (result, err) w' tr →
  nothingOrMatch TransitGatewayVpcAttachment.TransitGatewayAttachmentId id result err ∧
  Forall (λ e, isRead e = true) tr.
Proof.
  revert token w tr. induction pages as [|pages IH]; intros token w tr H; [done|].
  simpl in H. describe_step IH H.
Qed.

(** X3.  A paginated describe helper that returns an item returns one
    whose identifier is the requested one, and then no error. *)
Theorem describe_returns_the_requested_item {W} (maxPages : nat)
    (conn : option (EC2 W)) (id : string) (w : W) :
  (∀ result err w' tr,
     ec2DescribeTransitGateway maxPages conn id w = Done (result, err) w' tr →
     nothingOrMatch TransitGateway.TransitGatewayId id result err) ∧
  (∀ result err w' tr,
     ec2DescribeTransitGatewayRouteTable maxPages conn id w = Done (result, err) w' tr →
     nothingOrMatch TransitGatewayRouteTable.TransitGatewayRouteTableId id result err) ∧
  (∀ result err w' tr,
     ec2DescribeTransitGatewayPeeringAttachment maxPages conn id w
       = Done (result, err) w' tr →
     nothingOrMatch TransitGatewayPeeringAttachment.TransitGatewayAttachmentId id
       result err) ∧
  (∀ result err w' tr,
     ec2DescribeTransitGatewayVpcAttachment maxPages conn id w
       = Done (result, err) w' tr →
     nothingOrMatch TransitGatewayVpcAttachment.TransitGatewayAttachmentId id
       result err).
Proof.
  refine (conj _ (conj _ (conj _ _))); intros result err w' tr H.
  - by apply ec2DescribeTransitGateway_from_sound in H as [? _].
  - by apply ec2DescribeTransitGatewayRouteTable_from_sound in H as [? _].
  - by apply ec2DescribeTransitGatewayPeeringAttachment_from_sound in H as [? _].
  - by apply ec2DescribeTransitGatewayVpcAttachment_from_sound in H as [? _].
Qed.

Lemma describe_returns_the_requested_item_witness :
  let other := TransitGateway.mk (Some "tgw-2") (Some "available") in
  let wanted := TransitGateway.mk (Some "tgw-1") (Some "pending") in
  nothingOrMatch TransitGateway.TransitGatewayId "tgw-1" (Some wanted) None.
Proof.
  intros other wanted.
  pose proof (describe_returns_the_requested_item 1
                (Some (listingGateways [Listing.mk [Some other; None; Some wanted] None]))
                "tgw-1" 0%nat) as (Hgateway & _).
  apply (Hgateway (Some wanted) None 1%nat
           [Called (DescribeTransitGateways [Some "tgw-1"] None) None]).
  reflexivity.
Defined.

(** The helpers that make one call. *)
Ltac single_read H :=
  let Hc := fresh "Hc" in
  bind_inv H as Hc;
  match type of Hc with
  | call ?c ?r ?w = Done ?a ?w' ?t =>
      let Hread := fresh "Hread" in
      pose proof (call_is_read c r w a w' t eq_refl Hc) as Hread;
      clear Hc;
      let output := fresh "output" in
      let err := fresh "err" in
      destruct a as [output err];
      destruct err; [|destruct output as [output|]];
      simpl in H;
      [ injection H as <- <- <- <-; by rewrite app_nil_r
      | | injection H as <- <- <- <-; by rewrite app_nil_r ];
      destruct (Listing.Items output);
      injection H as <- <- <- <-; by rewrite app_nil_r
  end.

Lemma association_describe_reads {W} (conn : option (EC2 W)) rtb att w res w' tr :
  ec2DescribeTransitGatewayRouteTableAssociation conn rtb att w = Done res w' tr →
  Forall (λ e, isRead e = true) tr.
Proof.
  unfold ec2DescribeTransitGatewayRouteTableAssociation. intros H. destruct res.
  case_decide; [by injection H as <- <- <- <-|]. single_read H.
Qed.

Lemma propagation_describe_reads {W} (conn : option (EC2 W)) rtb att w res w' tr :
  ec2DescribeTransitGatewayRouteTablePropagation conn rtb att w = Done res w' tr →
  Forall (λ e, isRead e = true) tr.
Proof.
  unfold ec2DescribeTransitGatewayRouteTablePropagation. intros H. destruct res.
  case_decide; [by injection H as <- <- <- <-|]. single_read H.
Qed.

Lemma domain_describe_reads {W} (conn : option (EC2 W)) id w res w' tr :
  ec2DescribeTransitGatewayMulticastDomain conn id w = Done res w' tr →
  Forall (λ e, isRead e = true) tr.
Proof.
  unfold ec2DescribeTransitGatewayMulticastDomain. intros H. destruct res.
  destruct (isNil conn || bool_decide (id = "")); [by injection H as <- <- <- <-|].
  single_read H.
Qed.

(** One step of an accumulating list loop, shared by the two helpers. *)
Ltac list_step IH H :=
  let Hc := fresh "Hc" in
  bind_inv H as Hc;
  match type of Hc with
  | call ?c ?r ?w = Done ?a ?w' ?t =>
      let Hread := fresh "Hread" in
      pose proof (call_is_read c r w a w' t eq_refl Hc) as Hread;
      clear Hc;
      let output := fresh "output" in
      let err := fresh "err" in
      destruct a as [output err];
      destruct err; [|destruct output as [output|]];
      simpl in H;
      [ injection H as <- <- <- <-; rewrite app_nil_r; done
      | | injection H as <- <- <- <-; rewrite app_nil_r; done ];
      case_decide;
      [ injection H as <- <- <- <-; rewrite app_nil_r; done
      | apply IH in H as [? ?]; split; [done | by apply Forall_app] ]
  end.

Lemma associations_from_sound {W} pages (conn : option (EC2 W)) id token acc
    w result err w' tr :
  ec2GetTransitGatewayMulticastDomainAssociations_from pages conn id token acc w
    = Done (result, err) w' tr →
  (err ≠ None → result = []) ∧ Forall (λ e, isRead e = true) tr.
Proof.
  revert token acc w tr.
  induction pages as [|pages IH]; intros token acc w tr H; [done|].
  simpl in H. list_step IH H.
Qed.

Lemma groups_from_sound {W} pages (conn : option (EC2 W)) id filters token acc
    w result err w' tr :
  ec2SearchTransitGatewayMulticastDomainGroups_from pages conn id filters token acc w
    = Done (result, err) w' tr →
  (err ≠ None → result = []) ∧ Forall (λ e, isRead e = true) tr.
Proof.
  revert token acc w tr.
  induction pages as [|pages IH]; intros token acc w tr H; [done|].
  simpl in H. list_step IH H.
Qed.

Lemma associations_sound {W} maxPages (conn : option (EC2 W)) id w result err w' tr :
  ec2GetTransitGatewayMulticastDomainAssociations maxPages conn id w
    = Done (result, err) w' tr →
  (err ≠ None → result = []) ∧ Forall (λ e, isRead e = true) tr.
Proof.
  unfold ec2GetTransitGatewayMulticastDomainAssociations.
  destruct (isNil conn || bool_decide (id = "")).
  - by intros [= <- <- <- <-].
  - apply associations_from_sound.
Qed.

Lemma groups_sound {W} maxPages (conn : option (EC2 W)) id filters w result err w' tr :
  ec2SearchTransitGatewayMulticastDomainGroups maxPages conn id filters w
    = Done (result, err) w' tr →
  (err ≠ None → result = []) ∧ Forall (λ e, isRead e = true) tr.
Proof.
  unfold ec2SearchTransitGatewayMulticastDomainGroups.
  destruct (isNil conn || bool_decide (id = "")).
  - by intros [= <- <- <- <-].
  - apply groups_from_sound.
Qed.

(** ** Polls only read *)

(** The part of a refresh function after its describe helper returns
    adds no call. *)
Ltac refresh_tail H :=
  repeat match type of H with
         | (if ?b then _ else _) _ = Done _ _ _ => destruct b
         | match ?x with _ => _ end _ = Done _ _ _ => destruct x
         | match ?x with _ => _ end = Done _ _ _ => destruct x
         end;
  first [ by injection H as <- <- <- | discriminate H ].

Ltac refresh_reads lemma H :=
  let Hd := fresh "Hd" in
  bind_inv H as Hd;
  match type of Hd with
  | _ = Done ?a _ _ => destruct a
  end;
  apply lemma in Hd;
  apply Forall_app; split; [by first [exact Hd | destruct Hd] |];
  simpl in H;
  match goal with
  | |- Forall _ ?t => assert (t = []) as ->; [refresh_tail H | constructor]
  end.

(** X4.  A poll changes nothing: every event a refresh function produces
    is a call of a describing operation. *)
Theorem refresh_functions_only_read {W} (maxPages : nat) (range : MapRange)
    (conn : option (EC2 W)) (id : string) (w : W) :
  (∀ res w' tr,
     ec2TransitGatewayRefreshFunc maxPages conn id w = Done res w' tr →
     Forall (λ e, isRead e = true) tr) ∧
  (∀ res w' tr,
     ec2TransitGatewayRouteTableRefreshFunc maxPages conn id w = Done res w' tr →
     Forall (λ e, isRead e = true) tr) ∧
  (∀ attachment res w' tr,
     ec2TransitGatewayRouteTableAssociationRefreshFunc conn id attachment w
       = Done res w' tr →
     Forall (λ e, isRead e = true) tr) ∧
  (∀ res w' tr,
     ec2TransitGatewayPeeringAttachmentRefreshFunc maxPages conn id w = Done res w' tr →
     Forall (λ e, isRead e = true) tr) ∧
  (∀ res w' tr,
     ec2TransitGatewayVpcAttachmentRefreshFunc maxPages conn id w = Done res w' tr →
     Forall (λ e, isRead e = true) tr) ∧
  (∀ res w' tr,
     ec2TransitGatewayMulticastDomainRefreshFunc conn id w = Done res w' tr →
     Forall (λ e, isRead e = true) tr) ∧
  (∀ subnetIDs res w' tr,
     ec2TransitGatewayMulticastDomainAssociationRefreshFunc maxPages range conn id
       subnetIDs w = Done res w' tr →
     Forall (λ e, isRead e = true) tr).
Proof.
  refine (conj _ (conj _ (conj _ (conj _ (conj _ (conj _ _)))))).
  - intros res w' tr H. unfold ec2TransitGatewayRefreshFunc in H.
    refresh_reads (@ec2DescribeTransitGateway_from_sound W) H.
  - intros res w' tr H. unfold ec2TransitGatewayRouteTableRefreshFunc in H.
    refresh_reads (@ec2DescribeTransitGatewayRouteTable_from_sound W) H.
  - intros attachment res w' tr H.
    unfold ec2TransitGatewayRouteTableAssociationRefreshFunc in H.
    refresh_reads (@association_describe_reads W) H.
  - intros res w' tr H. unfold ec2TransitGatewayPeeringAttachmentRefreshFunc in H.
    refresh_reads (@ec2DescribeTransitGatewayPeeringAttachment_from_sound W) H.
  - intros res w' tr H. unfold ec2TransitGatewayVpcAttachmentRefreshFunc in H.
    refresh_reads (@ec2DescribeTransitGatewayVpcAttachment_from_sound W) H.
  - intros res w' tr H. unfold ec2TransitGatewayMulticastDomainRefreshFunc in H.
    refresh_reads (@domain_describe_reads W) H.
  - intros subnetIDs res w' tr H.
    unfold ec2TransitGatewayMulticastDomainAssociationRefreshFunc in H.
    refresh_reads (@associations_sound W) H.
Qed.

Lemma refresh_functions_only_read_witness :
  Forall (λ e, isRead e = true)
    [Called (GetTransitGatewayMulticastDomainAssociations
               (Some "tgw-mcast-domain-1") None) None].
Proof.
  pose proof (refresh_functions_only_read 1 keyOrder
                (Some (associating [subnetIn "subnet-a" "associated"]))
                "tgw-mcast-domain-1" tt) as (_ & _ & _ & _ & _ & _ & Hassociations).
  apply (Hassociations [Some "subnet-a"]
           (Some [subnetIn "subnet-a" "associated"], "associated", None) tt).
  reflexivity.
Defined.

(** The last step of a refresh function that returned a payload. *)
Ltac refresh_payload lemma H found :=
  let Hd := fresh "Hd" in
  let err' := fresh "err" in
  bind_inv H as Hd;
  match type of Hd with
  | _ = Done ?a _ _ => destruct a as [found err']
  end;
  apply lemma in Hd as [Hd _];
  simpl in H;
  match type of H with
  | context [isAWSErr err' ?code ?message] =>
      destruct (isAWSErr err' code message); [discriminate H|]
  end;
  destruct err'; [discriminate H|];
  destruct found as [found|]; [|discriminate H];
  destruct Hd as [_ Hd].

(** X5.  The payload a refresh function returns is the resource with the
    requested identifier, and the label is that resource's state; the
    error is then nil, except that the peering refresh function reports a
    failed attachment that has a status. *)
Theorem refresh_payload_is_the_requested_resource {W} (maxPages : nat)
    (conn : option (EC2 W)) (id : string) (w : W) :
  (∀ payload label err w' tr,
     ec2TransitGatewayRefreshFunc maxPages conn id w
       = Done (Some payload, label, err) w' tr →
     aws.StringValue (TransitGateway.TransitGatewayId payload) = id ∧
     label = aws.StringValue (TransitGateway.State payload) ∧ err = None) ∧
  (∀ payload label err w' tr,
     ec2TransitGatewayRouteTableRefreshFunc maxPages conn id w
       = Done (Some payload, label, err) w' tr →
     aws.StringValue (TransitGatewayRouteTable.TransitGatewayRouteTableId payload) = id ∧
     label = aws.StringValue (TransitGatewayRouteTable.State payload) ∧ err = None) ∧
  (∀ payload label err w' tr,
     ec2TransitGatewayPeeringAttachmentRefreshFunc maxPages conn id w
       = Done (Some payload, label, err) w' tr →
     aws.StringValue (TransitGatewayPeeringAttachment.TransitGatewayAttachmentId payload)
       = id ∧
     label = aws.StringValue (TransitGatewayPeeringAttachment.State payload) ∧
     (err = None ∨
      label = ec2.TransitGatewayAttachmentStateFailed ∧
      is_Some (TransitGatewayPeeringAttachment.Status payload))) ∧
  (∀ payload label err w' tr,
     ec2TransitGatewayVpcAttachmentRefreshFunc maxPages conn id w
       = Done (Some payload, label, err) w' tr →
     aws.StringValue (TransitGatewayVpcAttachment.TransitGatewayAttachmentId payload)
       = id ∧
     label = aws.StringValue (TransitGatewayVpcAttachment.State payload) ∧ err = None).
Proof.
  refine (conj _ (conj _ (conj _ _))); intros payload label err w' tr H.
  - unfold ec2TransitGatewayRefreshFunc in H.
    refresh_payload (@ec2DescribeTransitGateway_from_sound W) H found.
    by injection H as <- <- <- _ _.
  - unfold ec2TransitGatewayRouteTableRefreshFunc in H.
    refresh_payload (@ec2DescribeTransitGatewayRouteTable_from_sound W) H found.
    by injection H as <- <- <- _ _.
  - unfold ec2TransitGatewayPeeringAttachmentRefreshFunc in H.
    refresh_payload (@ec2DescribeTransitGatewayPeeringAttachment_from_sound W) H found.
    destruct (decide _) as [Hfailed|?] in H;
      [destruct (TransitGatewayPeeringAttachment.Status found) eqn:Hstatus|];
      injection H as <- <- <- _ _; eauto.
  - unfold ec2TransitGatewayVpcAttachmentRefreshFunc in H.
    refresh_payload (@ec2DescribeTransitGatewayVpcAttachment_from_sound W) H found.
    by injection H as <- <- <- _ _.
Qed.

Lemma refresh_payload_is_the_requested_resource_witness :
  let table := TransitGatewayRouteTable.mk (Some "tgw-rtb-1") (Some "available") in
  aws.StringValue (TransitGatewayRouteTable.TransitGatewayRouteTableId table)
    = "tgw-rtb-1" ∧
  "available" = aws.StringValue (TransitGatewayRouteTable.State table) ∧
  (None : option error) = None.
Proof.
  intros table.
  pose proof (refresh_payload_is_the_requested_resource 1 (Some (routing table))
                "tgw-rtb-1" tt) as (_ & Htable & _).
  apply (Htable table "available" None tt
           [Called (DescribeTransitGatewayRouteTables [Some "tgw-rtb-1"] None) None]).
  reflexivity.
Defined.

(** ** Pagination *)

Lemma call_answer {W} (c : EC2 W) (r : Request) w out err w1 :
  c r w = ((out, err), w1) →
  call (Some c) r w = Done (out, err) w1 [Called r err].
Proof. intros H. unfold call. by rewrite H. Qed.

Lemma associations_from_pages {W} (c : EC2 W) (domainID : string) pages :
  ∀ n token acc w w',
    servesPages
      (λ token, c (GetTransitGatewayMulticastDomainAssociations (aws.String domainID)
                     token)) token w pages w' →
    (length pages ≤ n)%nat →
    ∃ tr,
      ec2GetTransitGatewayMulticastDomainAssociations_from n (Some c) domainID token
        acc w = Done (acc ++ concat pages, None) w' tr ∧
      length tr = length pages.
Proof.
  induction pages as [|page rest IH]; intros n token acc w w' Hserves Hn; [done|].
  destruct n as [|n]; [simpl in Hn; lia|].
  destruct Hserves as (next & w1 & Hask & Hrest).
  cbn [ec2GetTransitGatewayMulticastDomainAssociations_from].
  rewrite (bind_Done _ _ _ _ _ _
             (call_answer c (GetTransitGatewayMulticastDomainAssociations
                               (aws.String domainID) token) w _ _ w1 Hask)).
  simpl.
  destruct rest as [|page' rest'].
  - destruct Hrest as [Hnext ->]. rewrite decide_True by done.
    eexists. by rewrite !app_nil_r.
  - destruct Hrest as [Hnext Hrest]. rewrite decide_False by done.
    destruct (IH n next (acc ++ page) w1 w' Hrest) as (tr & -> & Hlen);
      [simpl in *; lia|].
    eexists. split; [by rewrite <- app_assoc | simpl in *; lia].
Qed.

Lemma groups_from_pages {W} (c : EC2 W) (domainID : string) filters pages :
  ∀ n token acc w w',
    servesPages
      (λ token, c (SearchTransitGatewayMulticastGroups filters (aws.String domainID)
                     token)) token w pages w' →
    (length pages ≤ n)%nat →
    ∃ tr,
      ec2SearchTransitGatewayMulticastDomainGroups_from n (Some c) domainID filters
        token acc w = Done (acc ++ concat pages, None) w' tr ∧
      length tr = length pages.
Proof.
  induction pages as [|page rest IH]; intros n token acc w w' Hserves Hn; [done|].
  destruct n as [|n]; [simpl in Hn; lia|].
  destruct Hserves as (next & w1 & Hask & Hrest).
  cbn [ec2SearchTransitGatewayMulticastDomainGroups_from].
  rewrite (bind_Done _ _ _ _ _ _
             (call_answer c (SearchTransitGatewayMulticastGroups filters
                               (aws.String domainID) token) w _ _ w1 Hask)).
  simpl.
  destruct rest as [|page' rest'].
  - destruct Hrest as [Hnext ->]. rewrite decide_True by done.
    eexists. by rewrite !app_nil_r.
  - destruct Hrest as [Hnext Hrest]. rewrite decide_False by done.
    destruct (IH n next (acc ++ page) w1 w' Hrest) as (tr & -> & Hlen);
      [simpl in *; lia|].
    eexists. split; [by rewrite <- app_assoc | simpl in *; lia].
Qed.

(** X6.  When the remote serves the associations of a domain, or the
    groups of a search, in pages, the helper follows the continuation
    tokens to the last page and returns the items of all pages in order,
    with one call per page. *)
Theorem list_helpers_collect_all_pages {W} (maxPages : nat) (c : EC2 W)
    (domainID : string) (w w' : W) :
  domainID ≠ "" →
  (∀ pages,
     servesPages
       (λ token, c (GetTransitGatewayMulticastDomainAssociations (aws.String domainID)
                      token)) None w pages w' →
     (length pages ≤ maxPages)%nat →
     ∃ tr,
       ec2GetTransitGatewayMulticastDomainAssociations maxPages (Some c) domainID w
       = Done (concat pages, None) w' tr ∧
       length tr = length pages) ∧
  (∀ filters pages,
     servesPages
       (λ token, c (SearchTransitGatewayMulticastGroups filters (aws.String domainID)
                      token)) None w pages w' →
     (length pages ≤ maxPages)%nat →
     ∃ tr,
       ec2SearchTransitGatewayMulticastDomainGroups maxPages (Some c) domainID filters w
       = Done (concat pages, None) w' tr ∧
       length tr = length pages).
Proof.
  intros Hid. split.
  - intros pages Hserves Hn.
    unfold ec2GetTransitGatewayMulticastDomainAssociations.
    rewrite bool_decide_eq_false_2 by done. simpl.
    apply (associations_from_pages c domainID pages maxPages None [] w w' Hserves Hn).
  - intros filters pages Hserves Hn.
    unfold ec2SearchTransitGatewayMulticastDomainGroups.
    rewrite bool_decide_eq_false_2 by done. simpl.
    apply (groups_from_pages c domainID filters pages maxPages None [] w w' Hserves Hn).
Qed.

Lemma list_helpers_collect_all_pages_witness :
  let a := subnetIn "subnet-a" "associated" in
  let b := subnetIn "subnet-b" "associating" in
  let group :=
    Some (TransitGatewayMulticastGroup.mk (Some "224.0.0.1") (Some "eni-1")) in
  (∃ tr,
     ec2GetTransitGatewayMulticastDomainAssociations 2
       (Some (listingAssociations [Listing.mk [a] (Some "next"); Listing.mk [b] None]))
       "tgw-mcast-domain-1" 0
     = Done ([a; b], None) 2 tr ∧ length tr = 2) ∧
  (∃ tr,
     ec2SearchTransitGatewayMulticastDomainGroups 1
       (Some (listingGroups [Listing.mk [group] None])) "tgw-mcast-domain-1" [] 0
     = Done ([group], None) 1 tr ∧ length tr = 1).
Proof.
  intros a b group. split.
  - apply (proj1 (list_helpers_collect_all_pages 2
                    (listingAssociations [Listing.mk [a] (Some "next");
                                          Listing.mk [b] None])
                    "tgw-mcast-domain-1" 0 2 ltac:(discriminate)) [[a]; [b]]).
    + exists (Some "next"), 1. split; [reflexivity|]. split; [discriminate|].
      exists None, 2. split; [reflexivity|]. split; reflexivity.
    + simpl. lia.
  - apply (proj2 (list_helpers_collect_all_pages 1
                    (listingGroups [Listing.mk [group] None])
                    "tgw-mcast-domain-1" 0 1 ltac:(discriminate)) [] [[group]]).
    + exists None, 1. split; [reflexivity|]. split; reflexivity.
    + simpl. lia.
Defined.

Lemma ec2DescribeTransitGateway_from_pages {W} (c : EC2 W) (id : string) last :
  endsSearch TransitGateway.TransitGatewayId id last →
  ∀ before n token w w',
    leadsToPage (λ token, c (DescribeTransitGateways [aws.String id] token))
      TransitGateway.TransitGatewayId id token w before last w' →
    (length before < n)%nat →
    ∃ tr,
      ec2DescribeTransitGateway_from n (Some c) id token w
      = Done (firstWithId TransitGateway.TransitGatewayId id (Listing.Items last), None)
          w' tr ∧
      length tr = S (length before).
Proof.
  intros Hends before.
  induction before as [|out rest IH]; intros n token w w' Hleads Hn;
    (destruct n as [|n]; [simpl in Hn; lia|]);
    cbn [ec2DescribeTransitGateway_from].
  - simpl in Hleads.
    rewrite (bind_Done _ _ _ _ _ _
               (call_answer c (DescribeTransitGateways [aws.String id] token)
                  w _ _ w' Hleads)).
    simpl. exists [Called (DescribeTransitGateways [aws.String id] token) None].
    split; [|done].
    destruct (Listing.Items last) as [|item items] eqn:Hitems; [done|].
    rewrite decide_False by done.
    destruct (firstWithId _ id (item :: items)) eqn:Hfound; [done|].
    destruct Hends as [Hempty | [[x Hx] | Hnext]].
    + by rewrite Hitems in Hempty.
    + by rewrite Hitems, Hfound in Hx.
    + by rewrite decide_True.
  - destruct Hleads as (w1 & Hask & Hitems & Hnone & Hnext & Hleads).
    rewrite (bind_Done _ _ _ _ _ _
               (call_answer c (DescribeTransitGateways [aws.String id] token)
                  w _ _ w1 Hask)).
    simpl. rewrite decide_False by (by destruct (Listing.Items out)).
    rewrite Hnone, decide_False by done.
    destruct (IH n (Listing.NextToken out) w1 w' Hleads) as (tr & -> & Hlen);
      [simpl in *; lia|].
    eexists. split; [done | simpl in *; lia].
Qed.

Lemma ec2DescribeTransitGatewayRouteTable_from_pages {W} (c : EC2 W) (id : string) last :
  endsSearch TransitGatewayRouteTable.TransitGatewayRouteTableId id last →
  ∀ before n token w w',
    leadsToPage (λ token, c (DescribeTransitGatewayRouteTables [aws.String id] token))
      TransitGatewayRouteTable.TransitGatewayRouteTableId id token w before last w' →
    (length before < n)%nat →
    ∃ tr,
      ec2DescribeTransitGatewayRouteTable_from n (Some c) id token w
      = Done (firstWithId TransitGatewayRouteTable.TransitGatewayRouteTableId id (Listing.Items last), None)
          w' tr ∧
      length tr = S (length before).
Proof.
  intros Hends before.
  induction before as [|out rest IH]; intros n token w w' Hleads Hn;
    (destruct n as [|n]; [simpl in Hn; lia|]);
    cbn [ec2DescribeTransitGatewayRouteTable_from].
  - simpl in Hleads.
    rewrite (bind_Done _ _ _ _ _ _
               (call_answer c (DescribeTransitGatewayRouteTables [aws.String id] token)
                  w _ _ w' Hleads)).
    simpl. exists [Called (DescribeTransitGatewayRouteTables [aws.String id] token) None].
    split; [|done].
    destruct (Listing.Items last) as [|item items] eqn:Hitems; [done|].
    rewrite decide_False by done.
    destruct (firstWithId _ id (item :: items)) eqn:Hfound; [done|].
    destruct Hends as [Hempty | [[x Hx] | Hnext]].
    + by rewrite Hitems in Hempty.
    + by rewrite Hitems, Hfound in Hx.
    + by rewrite decide_True.
  - destruct Hleads as (w1 & Hask & Hitems & Hnone & Hnext & Hleads).
    rewrite (bind_Done _ _ _ _ _ _
               (call_answer c (DescribeTransitGatewayRouteTables [aws.String id] token)
                  w _ _ w1 Hask)).
    simpl. rewrite decide_False by (by destruct (Listing.Items out)).
    rewrite Hnone, decide_False by done.
    destruct (IH n (Listing.NextToken out) w1 w' Hleads) as (tr & -> & Hlen);
      [simpl in *; lia|].
    eexists. split; [done | simpl in *; lia].
Qed.

Lemma ec2DescribeTransitGatewayPeeringAttachment_from_pages {W} (c : EC2 W) (id : string) last :
  endsSearch TransitGatewayPeeringAttachment.TransitGatewayAttachmentId id last →
  ∀ before n token w w',
    leadsToPage (λ token, c (DescribeTransitGatewayPeeringAttachments [aws.String id] token))
      TransitGatewayPeeringAttachment.TransitGatewayAttachmentId id token w before last w' →
    (length before < n)%nat →
    ∃ tr,
      ec2DescribeTransitGatewayPeeringAttachment_from n (Some c) id token w
      = Done (firstWithId TransitGatewayPeeringAttachment.TransitGatewayAttachmentId id (Listing.Items last), None)
          w' tr ∧
      length tr = S (length before).
Proof.
  intros Hends before.
  induction before as [|out rest IH]; intros n token w w' Hleads Hn;
    (destruct n as [|n]; [simpl in Hn; lia|]);
    cbn [ec2DescribeTransitGatewayPeeringAttachment_from].
  - simpl in Hleads.
    rewrite (bind_Done _ _ _ _ _ _
               (call_answer c (DescribeTransitGatewayPeeringAttachments [aws.String id] token)
                  w _ _ w' Hleads)).
    simpl. exists [Called (DescribeTransitGatewayPeeringAttachments [aws.String id] token) None].
    split; [|done].
    destruct (Listing.Items last) as [|item items] eqn:Hitems; [done|].
    rewrite decide_False by done.
    destruct (firstWithId _ id (item :: items)) eqn:Hfound; [done|].
    destruct Hends as [Hempty | [[x Hx] | Hnext]].
    + by rewrite Hitems in Hempty.
    + by rewrite Hitems, Hfound in Hx.
    + by rewrite decide_True.
  - destruct Hleads as (w1 & Hask & Hitems & Hnone & Hnext & Hleads).
    rewrite (bind_Done _ _ _ _ _ _
               (call_answer c (DescribeTransitGatewayPeeringAttachments [aws.String id] token)
                  w _ _ w1 Hask)).
    simpl. rewrite decide_False by (by destruct (Listing.Items out)).
    rewrite Hnone, decide_False by done.
    destruct (IH n (Listing.NextToken out) w1 w' Hleads) as (tr & -> & Hlen);
      [simpl in *; lia|].
    eexists. split; [done | simpl in *; lia].
Qed.

Lemma ec2DescribeTransitGatewayVpcAttachment_from_pages {W} (c : EC2 W) (id : string) last :
  endsSearch TransitGatewayVpcAttachment.TransitGatewayAttachmentId id last →
  ∀ before n token w w',
    leadsToPage (λ token, c (DescribeTransitGatewayVpcAttachments [aws.String id] token))
      TransitGatewayVpcAttachment.TransitGatewayAttachmentId id token w before last w' →
    (length before < n)%nat →
    ∃ tr,
      ec2DescribeTransitGatewayVpcAttachment_from n (Some c) id token w
      = Done (firstWithId TransitGatewayVpcAttachment.TransitGatewayAttachmentId id (Listing.Items last), None)
          w' tr ∧
      length tr = S (length before).
Proof.
  intros Hends before.
  induction before as [|out rest IH]; intros n token w w' Hleads Hn;
    (destruct n as [|n]; [simpl in Hn; lia|]);
    cbn [ec2DescribeTransitGatewayVpcAttachment_from].
  - simpl in Hleads.
    rewrite (bind_Done _ _ _ _ _ _
               (call_answer c (DescribeTransitGatewayVpcAttachments [aws.String id] token)
                  w _ _ w' Hleads)).
    simpl. exists [Called (DescribeTransitGatewayVpcAttachments [aws.String id] token) None].
    split; [|done].
    destruct (Listing.Items last) as [|item items] eqn:Hitems; [done|].
    rewrite decide_False by done.
    destruct (firstWithId _ id (item :: items)) eqn:Hfound; [done|].
    destruct Hends as [Hempty | [[x Hx] | Hnext]].
    + by rewrite Hitems in Hempty.
    + by rewrite Hitems, Hfound in Hx.
    + by rewrite decide_True.
  - destruct Hleads as (w1 & Hask & Hitems & Hnone & Hnext & Hleads).
    rewrite (bind_Done _ _ _ _ _ _
               (call_answer c (DescribeTransitGatewayVpcAttachments [aws.String id] token)
                  w _ _ w1 Hask)).
    simpl. rewrite decide_False by (by destruct (Listing.Items out)).
    rewrite Hnone, decide_False by done.
    destruct (IH n (Listing.NextToken out) w1 w' Hleads) as (tr & -> & Hlen);
      [simpl in *; lia|].
    eexists. split; [done | simpl in *; lia].
Qed.

(** X7.  A paginated describe helper follows the continuation tokens over
    outputs that are not empty and do not hold the requested identifier,
    and stops at the first output that is empty, holds the identifier or
    has no token: it returns the first item of that output with the
    identifier, if any, after one call per output.  An empty output ends
    the search even when it comes with a continuation token. *)
Theorem describe_search_stops_at_the_deciding_page {W} (maxPages : nat) (c : EC2 W)
    (id : string) (w w' : W) :
  (∀ before last,
     leadsToPage (λ token, c (DescribeTransitGateways [aws.String id] token))
       TransitGateway.TransitGatewayId id None w before last w' →
     endsSearch TransitGateway.TransitGatewayId id last →
     (length before < maxPages)%nat →
     ∃ tr,
       ec2DescribeTransitGateway maxPages (Some c) id w
       = Done (firstWithId TransitGateway.TransitGatewayId id (Listing.Items last),
               None) w' tr ∧
       length tr = S (length before)) ∧
  (∀ before last,
     leadsToPage (λ token, c (DescribeTransitGatewayRouteTables [aws.String id] token))
       TransitGatewayRouteTable.TransitGatewayRouteTableId id None w before last w' →
     endsSearch TransitGatewayRouteTable.TransitGatewayRouteTableId id last →
     (length before < maxPages)%nat →
     ∃ tr,
       ec2DescribeTransitGatewayRouteTable maxPages (Some c) id w
       = Done (firstWithId TransitGatewayRouteTable.TransitGatewayRouteTableId id
                 (Listing.Items last), None) w' tr ∧
       length tr = S (length before)) ∧
  (∀ before last,
     leadsToPage
       (λ token, c (DescribeTransitGatewayPeeringAttachments [aws.String id] token))
       TransitGatewayPeeringAttachment.TransitGatewayAttachmentId id None w before
       last w' →
     endsSearch TransitGatewayPeeringAttachment.TransitGatewayAttachmentId id last →
     (length before < maxPages)%nat →
     ∃ tr,
       ec2DescribeTransitGatewayPeeringAttachment maxPages (Some c) id w
       = Done (firstWithId TransitGatewayPeeringAttachment.TransitGatewayAttachmentId id
                 (Listing.Items last), None) w' tr ∧
       length tr = S (length before)) ∧
  (∀ before last,
     leadsToPage
       (λ token, c (DescribeTransitGatewayVpcAttachments [aws.String id] token))
       TransitGatewayVpcAttachment.TransitGatewayAttachmentId id None w before last w' →
     endsSearch TransitGatewayVpcAttachment.TransitGatewayAttachmentId id last →
     (length before < maxPages)%nat →
     ∃ tr,
       ec2DescribeTransitGatewayVpcAttachment maxPages (Some c) id w
       = Done (firstWithId TransitGatewayVpcAttachment.TransitGatewayAttachmentId id
                 (Listing.Items last), None) w' tr ∧
       length tr = S (length before)).
Proof.
  refine (conj _ (conj _ (conj _ _))); intros before last Hleads Hends Hn.
  - by apply (ec2DescribeTransitGateway_from_pages c id last Hends before).
  - by apply (ec2DescribeTransitGatewayRouteTable_from_pages c id last Hends before).
  - by apply (ec2DescribeTransitGatewayPeeringAttachment_from_pages c id last Hends
                before).
  - by apply (ec2DescribeTransitGatewayVpcAttachment_from_pages c id last Hends before).
Qed.

Lemma describe_search_stops_at_the_deciding_page_witness :
  let other := Some (TransitGateway.mk (Some "tgw-0") (Some "available")) in
  let wanted := TransitGateway.mk (Some "tgw-1") (Some "pending") in
  let first := Listing.mk [other] (Some "next") in
  (∃ tr,
     ec2DescribeTransitGateway 2
       (Some (listingGateways [first; Listing.mk [None; Some wanted] (Some "more")]))
       "tgw-1" 0
     = Done (Some wanted, None) 2 tr ∧ length tr = 2) ∧
  (∃ tr,
     ec2DescribeTransitGateway 3
       (Some (listingGateways [first; Listing.mk [] (Some "more");
                               Listing.mk [Some wanted] None]))
       "tgw-1" 0
     = Done (None, None) 2 tr ∧ length tr = 2).
Proof.
  intros other wanted first. split.
  - apply (proj1 (describe_search_stops_at_the_deciding_page 2
                    (listingGateways [first; Listing.mk [None; Some wanted] (Some "more")])
                    "tgw-1" 0 2) [first] (Listing.mk [None; Some wanted] (Some "more"))).
    + exists 1. repeat split; try reflexivity; discriminate.
    + right. left. by eexists.
    + simpl. lia.
  - apply (proj1 (describe_search_stops_at_the_deciding_page 3
                    (listingGateways [first; Listing.mk [] (Some "more");
                                      Listing.mk [Some wanted] None])
                    "tgw-1" 0 2) [first] (Listing.mk [] (Some "more"))).
    + exists 1. repeat split; try reflexivity; discriminate.
    + by left.
    + simpl. lia.
Defined.

(** ** The polled map *)

Lemma trackSubnets_from_dom (subnetIDs : list (option string))
    (acc : gmap string string) :
  dom (foldl (λ subnetStates subnetID, <[aws.StringValue subnetID := ""]> subnetStates)
         acc subnetIDs)
  = dom acc ∪ list_to_set (aws.StringValue <$> subnetIDs).
Proof.
  revert acc. induction subnetIDs as [|subnetID rest IH]; intros acc; simpl.
  - set_solver.
  - rewrite IH, dom_insert_L. set_solver.
Qed.

Lemma recordAssociations_dom
    (associations : list (option TransitGatewayMulticastDomainAssociation.t))
    (subnetStates recorded : gmap string string) :
  recordAssociations associations subnetStates = Some recorded →
  dom recorded = dom subnetStates.
Proof.
  revert subnetStates.
  induction associations as [|[[[subnet|]]|] rest IH]; intros m Hrec; simpl in *.
  - by injection Hrec as <-.
  - destruct (m !! aws.StringValue (SubnetAssociation.SubnetId subnet)) eqn:Hm.
    + rewrite (IH _ Hrec), dom_insert_L.
      apply (elem_of_dom_2 (D := gset string)) in Hm. set_solver.
    + by apply IH.
  - done.
  - by apply IH.
Qed.

(** X8.  The map a poll builds has exactly the tracked subnet ids as its
    keys, whatever associations the poll returned, and none of its labels
    is empty. *)
Theorem polled_map_tracks_exactly_the_subnets
    (subnetIDs : list (option string))
    (associations : list (option TransitGatewayMulticastDomainAssociation.t))
    (subnetStates : gmap string string) :
  polledSubnetStates subnetIDs associations = Some subnetStates →
  dom subnetStates = list_to_set (aws.StringValue <$> subnetIDs) ∧
  map_Forall (λ _ state, state ≠ "") subnetStates.
Proof.
  unfold polledSubnetStates. intros H.
  destruct (recordAssociations associations (trackSubnets subnetIDs))
    as [recorded|] eqn:Hrec; [|done].
  injection H as <-. split.
  - unfold markNotFound. rewrite dom_fmap_L, (recordAssociations_dom _ _ _ Hrec).
    unfold trackSubnets. rewrite trackSubnets_from_dom. set_solver.
  - unfold markNotFound. apply map_Forall_fmap. intros id state _. simpl.
    by case_decide.
Qed.

Lemma polled_map_tracks_exactly_the_subnets_witness :
  ∃ subnetStates,
    polledSubnetStates [Some "subnet-a"; Some "subnet-a"; None]
      [subnetIn "subnet-z" "associated"; subnetIn "subnet-a" ""] = Some subnetStates ∧
    dom subnetStates
      = list_to_set (aws.StringValue <$> [Some "subnet-a"; Some "subnet-a"; None]) ∧
    map_Forall (λ _ state, state ≠ "") subnetStates.
Proof.
  eexists. split; [reflexivity|].
  apply (polled_map_tracks_exactly_the_subnets
           [Some "subnet-a"; Some "subnet-a"; None]
           [subnetIn "subnet-z" "associated"; subnetIn "subnet-a" ""]).
  reflexivity.
Defined.

Lemma recordAssociations_Some_iff
    (associations : list (option TransitGatewayMulticastDomainAssociation.t))
    (subnetStates : gmap string string) :
  is_Some (recordAssociations associations subnetStates) ↔ subnetsPresent associations.
Proof.
  split; [|apply recordAssociations_total].
  revert subnetStates.
  induction associations as [|[[[subnet|]]|] rest IH]; intros m Hsome; simpl in *.
  - constructor.
  - constructor; [by eexists|].
    destruct (m !! aws.StringValue (SubnetAssociation.SubnetId subnet)); by eapply IH.
  - by destruct Hsome.
  - constructor; [done|]. by eapply IH.
Qed.

(** X9.  A poll that returns an association without its subnet does not
    return: the refresh function dereferences the nil subnet, whether or
    not that association concerns a tracked subnet. *)
Theorem association_without_subnet_panics {W} (maxPages : nat) (range : MapRange)
    (conn : option (EC2 W)) domainID subnetIDs w associations w' tr :
  ec2GetTransitGatewayMulticastDomainAssociations maxPages conn domainID w
    = Done (associations, None) w' tr →
  ¬ subnetsPresent associations →
  ec2TransitGatewayMulticastDomainAssociationRefreshFunc maxPages range conn domainID
    subnetIDs w = Panic.
Proof.
  intros Hget Hmissing.
  unfold ec2TransitGatewayMulticastDomainAssociationRefreshFunc.
  rewrite (bind_Done _ _ _ _ _ _ Hget). unfold polledSubnetStates.
  destruct (recordAssociations associations (trackSubnets subnetIDs)) eqn:Hrec; [|done].
  exfalso. apply Hmissing. eapply recordAssociations_Some_iff. by eexists.
Qed.

Lemma association_without_subnet_panics_witness :
  ec2TransitGatewayMulticastDomainAssociationRefreshFunc 1 keyOrder
    (Some (associating [subnetIn "subnet-a" "associated";
                        Some (TransitGatewayMulticastDomainAssociation.mk None)]))
    "tgw-mcast-domain-1" [Some "subnet-a"] tt = Panic.
Proof.
  apply (association_without_subnet_panics 1 keyOrder _ _ _ tt
           [subnetIn "subnet-a" "associated";
            Some (TransitGatewayMulticastDomainAssociation.mk None)] tt
           [Called (GetTransitGatewayMulticastDomainAssociations
                      (Some "tgw-mcast-domain-1") None) None]).
  - reflexivity.
  - intros H. apply Forall_cons in H as [_ H]. apply Forall_cons in H as [[? [=]] _].
Defined.

(** ** What the reduction can return *)



Lemma visited_labels (range : MapRange) (subnetStates : gmap string string)
    (label : string) :
  label ∈ (rangeOrder range subnetStates).*2 ↔ ∃ id, subnetStates !! id = Some label.
Proof.
  rewrite (rangeOrder_perm range subnetStates). rewrite list_elem_of_fmap. split.
  - intros ([id state] & -> & Hin). exists id. by apply elem_of_map_to_list.
  - intros (id & Hid). exists (id, label). split; [done|].
    by apply elem_of_map_to_list.
Qed.



(** ** Subnets that agree *)

Lemma polledSubnetStates_tracked
    (subnetIDs : list (option string))
    (associations : list (option TransitGatewayMulticastDomainAssociation.t))
    (subnetStates : gmap string string) :
  polledSubnetStates subnetIDs associations = Some subnetStates →
  ∀ id, id ∈ aws.StringValue <$> subnetIDs → is_Some (subnetStates !! id).
Proof.
  unfold polledSubnetStates. intros H id Hid.
  destruct (recordAssociations associations (trackSubnets subnetIDs))
    as [recorded|] eqn:Hrec; [|done].
  injection H as <-. apply (elem_of_dom (D := gset string)).
  unfold markNotFound. rewrite dom_fmap_L, (recordAssociations_dom _ _ _ Hrec).
  apply (elem_of_dom (D := gset string)). exists "". by apply trackSubnets_lookup.
Qed.

Lemma compoundStateFrom_same {P} (associations : P) (label : string) states :
  label ∈ recognizedStates →
  Forall (λ state, state = label) states →
  compoundStateFrom associations label states = (Some associations, label, None).
Proof.
  intros Hlabel Hall. unfold recognizedStates in Hlabel.
  induction Hall as [|state rest -> _ IH]; [done|].
  repeat (apply elem_of_cons in Hlabel as [-> | Hlabel]; [by simpl; rewrite ?IH|]).
  by apply elem_of_nil in Hlabel.
Qed.

(** X11.  When every tracked subnet has the same label and the reduction
    has a case for it, the poll returns the associations and that label,
    in whatever order the map is visited. *)
Theorem agreeing_subnets_give_their_label {W} (maxPages : nat) (range : MapRange)
    (conn : option (EC2 W)) domainID subnetIDs w associations w' tr subnetStates label :
  ec2GetTransitGatewayMulticastDomainAssociations maxPages conn domainID w
    = Done (associations, None) w' tr →
  polledSubnetStates subnetIDs associations = Some subnetStates →
  subnetIDs ≠ [] →
  map_Forall (λ _ state, state = label) subnetStates →
  label ∈ recognizedStates →
  ec2TransitGatewayMulticastDomainAssociationRefreshFunc maxPages range conn domainID
    subnetIDs w = Done (Some associations, label, None) w' tr.
Proof.
  intros Hget Hpolled Hne Hall Hlabel.
  rewrite (associationRefresh_reduces _ _ _ _ _ _ _ _ _ _ Hget Hpolled).
  assert (Hvisited : Forall (λ state, state = label) (rangeOrder range subnetStates).*2).
  { apply Forall_forall. intros state Hin. apply visited_labels in Hin as [id Hid].
    by apply (Hall id). }
  destruct (rangeOrder range subnetStates).*2 as [|state rest] eqn:Horder.
  - exfalso. destruct subnetIDs as [|subnetID others]; [done|].
    destruct (polledSubnetStates_tracked _ _ _ Hpolled
                (aws.StringValue subnetID)) as [state Hstate].
    { rewrite fmap_cons. left. }
    assert (Hin : state ∈ (rangeOrder range subnetStates).*2)
      by (apply visited_labels; eauto).
    rewrite Horder in Hin. by apply elem_of_nil in Hin.
  - apply Forall_cons in Hvisited as [-> Hrest].
    rewrite compoundStateFrom_start. by rewrite compoundStateFrom_same.
Qed.

Lemma agreeing_subnets_give_their_label_witness :
  let associations :=
    [subnetIn "subnet-b" "associated"; subnetIn "subnet-a" "associated"] in
  ec2TransitGatewayMulticastDomainAssociationRefreshFunc 1 reverseKeyOrder
    (Some (associating associations)) "tgw-mcast-domain-1"
    [Some "subnet-a"; Some "subnet-b"] tt
  = Done (Some associations, "associated", None) tt
      [Called (GetTransitGatewayMulticastDomainAssociations
                 (Some "tgw-mcast-domain-1") None) None].
Proof.
  intros associations.
  apply (agreeing_subnets_give_their_label 1 reverseKeyOrder _ _ _ tt associations tt _
           (<["subnet-a" := "associated"]> (<["subnet-b" := "associated"]> ∅))).
  - reflexivity.
  - by vm_compute.
  - discriminate.
  - intros id state Hid.
    apply lookup_insert_Some in Hid as [[_ <-] | [_ Hid]]; [done|].
    apply lookup_insert_Some in Hid as [[_ <-] | [_ Hid]]; [done|].
    by rewrite lookup_empty in Hid.
  - unfold recognizedStates. left.
Defined.

(** X12.  With no tracked subnet a poll whose associations carry their
    subnets returns the empty label, which neither association wait lists
    as pending or as target. *)
Theorem no_tracked_subnet_gives_the_empty_label {W} (maxPages : nat) (range : MapRange)
    (conn : option (EC2 W)) domainID w associations w' tr :
  ec2GetTransitGatewayMulticastDomainAssociations maxPages conn domainID w
    = Done (associations, None) w' tr →
  subnetsPresent associations →
  ec2TransitGatewayMulticastDomainAssociationRefreshFunc maxPages range conn domainID
    [] w = Done (Some associations, "", None) w' tr ∧
  let associationWait :=
    waitForEc2TransitGatewayMulticastDomainAssociation_stateConf maxPages range conn
      domainID [] in
  let disassociationWait :=
    waitForEc2TransitGatewayMulticastDomainDisassociation_stateConf maxPages range conn
      domainID [] in
  "" ∉ Pending associationWait ++ Target associationWait ++
       Pending disassociationWait ++ Target disassociationWait.
Proof.
  intros Hget Hpresent.
  destruct (recordAssociations_total associations (trackSubnets []) Hpresent)
    as [recorded Hrec].
  assert (Hpolled : polledSubnetStates [] associations = Some (markNotFound recorded))
    by (unfold polledSubnetStates; by rewrite Hrec).
  split.
  - rewrite (associationRefresh_reduces _ _ _ _ _ _ _ _ _ _ Hget Hpolled).
    assert (markNotFound recorded = ∅) as ->.
    { apply (dom_empty_iff_L (D := gset string)).
      unfold markNotFound. rewrite dom_fmap_L, (recordAssociations_dom _ _ _ Hrec).
      unfold trackSubnets. simpl. apply dom_empty_L. }
    pose proof (rangeOrder_perm range ∅) as Hperm.
    rewrite map_to_list_empty in Hperm. apply Permutation_nil_r in Hperm.
    by rewrite Hperm.
  - simpl. intros Hin.
    repeat (apply elem_of_cons in Hin as [Hin | Hin]; [discriminate Hin|]).
    by apply elem_of_nil in Hin.
Qed.

Lemma no_tracked_subnet_gives_the_empty_label_witness :
  ec2TransitGatewayMulticastDomainAssociationRefreshFunc 1 keyOrder
    (Some (associating [subnetIn "subnet-a" "associated"])) "tgw-mcast-domain-1" [] tt
  = Done (Some [subnetIn "subnet-a" "associated"], "", None) tt
      [Called (GetTransitGatewayMulticastDomainAssociations
                 (Some "tgw-mcast-domain-1") None) None].
Proof.
  apply (no_tracked_subnet_gives_the_empty_label 1 keyOrder
           (Some (associating [subnetIn "subnet-a" "associated"]))
           "tgw-mcast-domain-1" tt [subnetIn "subnet-a" "associated"] tt).
  - reflexivity.
  - repeat constructor. simpl. eauto.
Defined.

(** ** The route search *)

(** X13.  The route helper looks at the one output of the search: it adds
    no call of its own, passes the error of the search on, returns a route
    only when that route has the requested destination, and returns none
    exactly when the search failed or no route of the output has it. *)
Theorem route_describe_reads_one_output {W}
    (search : list Filter.t → option string →
              M W (option SearchTransitGatewayRoutesOutput.t * option error))
    (transitGatewayRouteTableID destination : string) w output err w' tr :
  search [Filter.mk (aws.String "type") [aws.String "static"]]
    (aws.String transitGatewayRouteTableID) w = Done (output, err) w' tr →
  ∃ result,
    ec2DescribeTransitGatewayRoute search transitGatewayRouteTableID destination w
      = Done (result, err) w' tr ∧
    nothingOrMatch TransitGatewayRoute.DestinationCidrBlock destination result err ∧
    (result = None ↔
     err ≠ None ∨
     ∀ route,
       Some route ∈ from_option SearchTransitGatewayRoutesOutput.Routes [] output →
       aws.StringValue (TransitGatewayRoute.DestinationCidrBlock route) ≠ destination).
Proof.
  intros Hsearch. unfold ec2DescribeTransitGatewayRoute.
  rewrite (bind_Done _ _ _ _ _ _ Hsearch).
  destruct err as [e|]; simpl.
  { exists None. rewrite app_nil_r. split; [done|]. split; [done|].
    split; [by left | done]. }
  destruct output as [out|]; simpl.
  2:{ exists None. rewrite app_nil_r. split; [done|]. split; [done|].
      split; [|done]. intros _. right. intros route Hin. by apply elem_of_nil in Hin. }
  case_decide as Hempty.
  { exists None. simpl. rewrite app_nil_r. split; [done|]. split; [done|].
    split; [|done]. intros _. right. intros route Hin.
    destruct (SearchTransitGatewayRoutesOutput.Routes out); [|done].
    by apply elem_of_nil in Hin. }
  destruct (firstWithId TransitGatewayRoute.DestinationCidrBlock destination
              (SearchTransitGatewayRoutesOutput.Routes out)) as [route|] eqn:Hfound;
    simpl.
  - exists (Some route). rewrite app_nil_r.
    apply firstWithId_Some in Hfound as [Hid Hin].
    split; [done|]. split; [done|]. split; [done|].
    intros [Herr | Hnone]; [done|]. by destruct (Hnone route Hin).
  - exists None. rewrite app_nil_r. split; [done|]. split; [done|]. split; [|done].
    intros _. right. by apply firstWithId_None.
Qed.

Lemma route_describe_reads_one_output_witness :
  let blackhole := TransitGatewayRoute.mk (Some "10.0.0.0/8") (Some "blackhole") in
  let wanted := TransitGatewayRoute.mk (Some "10.1.0.0/16") (Some "active") in
  let search : list Filter.t → option string →
               M unit (option SearchTransitGatewayRoutesOutput.t * option error) :=
    λ _ _, mret (Some (SearchTransitGatewayRoutesOutput.mk
                         [Some blackhole; None; Some wanted] (Some true)), None) in
  ∃ result,
    ec2DescribeTransitGatewayRoute search "tgw-rtb-1" "10.1.0.0/16" tt
      = Done (result, None) tt [] ∧
    nothingOrMatch TransitGatewayRoute.DestinationCidrBlock "10.1.0.0/16" result None ∧
    (result = None ↔
     (None : option error) ≠ None ∨
     ∀ route,
       Some route ∈ [Some blackhole; None; Some wanted] →
       aws.StringValue (TransitGatewayRoute.DestinationCidrBlock route) ≠ "10.1.0.0/16").
Proof.
  intros blackhole wanted search.
  apply (route_describe_reads_one_output search "tgw-rtb-1" "10.1.0.0/16" tt
           (Some (SearchTransitGatewayRoutesOutput.mk
                    [Some blackhole; None; Some wanted] (Some true))) None tt []).
  reflexivity.
Defined.

(** ** The group checks *)

Lemma groupsHaveInterface_visible (groups : list (option TransitGatewayMulticastGroup.t))
    (netID : string) :
  Forall is_Some groups →
  groupsHaveInterface groups netID
  = Some (bool_decide (netID ∈ visibleInterfaces groups)).
Proof.
  induction 1 as [|group rest [g ->] _ IH]; simpl.
  - done.
  - destruct (decide (aws.StringValue (TransitGatewayMulticastGroup.NetworkInterfaceId g)
                      = netID)) as [Hid | Hid].
    + rewrite bool_decide_eq_true_2; [done|]. rewrite Hid. left.
    + rewrite IH. f_equal. apply bool_decide_ext. rewrite elem_of_cons.
      split; [auto|]. intros [-> | ?]; [done | auto].
Qed.

(** X14.  When the search returned no nil group, the check of the register
    wait passes exactly when every interface of the group data is among
    the interfaces of the returned groups, and the check of the deregister
    wait exactly when none is; otherwise they ask for another try.  The
    order of the interfaces and of the groups does not matter. *)
Theorem group_checks_compare_interfaces
    (groups : list (option TransitGatewayMulticastGroup.t)) (netIDs : list string)
    (e : error) :
  Forall is_Some groups →
  allRegistered groups netIDs e
  = Some (if decide (Forall (λ netID, netID ∈ visibleInterfaces groups) netIDs)
          then None else Some (RetryableError e)) ∧
  noneRegistered groups netIDs e
  = Some (if decide (Forall (λ netID, netID ∉ visibleInterfaces groups) netIDs)
          then None else Some (RetryableError e)).
Proof.
  intros Hgroups. split.
  - induction netIDs as [|netID rest IH]; cbn [allRegistered].
    + by rewrite decide_True by constructor.
    + rewrite (groupsHaveInterface_visible _ _ Hgroups).
      destruct (decide (netID ∈ visibleInterfaces groups)) as [Hin | Hin].
      * rewrite bool_decide_eq_true_2 by done. rewrite IH. f_equal.
        apply decide_ext. rewrite Forall_cons. tauto.
      * rewrite bool_decide_eq_false_2 by done. rewrite decide_False; [done|].
        intros Hall. by apply Forall_cons in Hall as [? _].
  - induction netIDs as [|netID rest IH]; cbn [noneRegistered].
    + by rewrite decide_True by constructor.
    + rewrite (groupsHaveInterface_visible _ _ Hgroups).
      destruct (decide (netID ∈ visibleInterfaces groups)) as [Hin | Hin].
      * rewrite bool_decide_eq_true_2 by done. rewrite decide_False; [done|].
        intros Hall. by apply Forall_cons in Hall as [? _].
      * rewrite bool_decide_eq_false_2 by done. rewrite IH. f_equal.
        apply decide_ext. rewrite Forall_cons. tauto.
Qed.

Lemma group_checks_compare_interfaces_witness :
  let groups :=
    [Some (TransitGatewayMulticastGroup.mk (Some "224.0.0.1") (Some "eni-1"));
     Some (TransitGatewayMulticastGroup.mk (Some "224.0.0.1") (Some "eni-2"))] in
  let again := ErrorString "not yet" in
  allRegistered groups ["eni-2"; "eni-1"] again = Some None ∧
  noneRegistered groups ["eni-3"; "eni-1"] again = Some (Some (RetryableError again)).
Proof.
  intros groups again. refine (conj _ _).
  - apply (group_checks_compare_interfaces groups ["eni-2"; "eni-1"] again).
    repeat constructor; eauto.
  - apply (group_checks_compare_interfaces groups ["eni-3"; "eni-1"] again).
    repeat constructor; eauto.
Defined.

(** ** Updates without a route table *)

(** X15.  With an empty route-table identifier both update helpers take the
    association or propagation as absent without asking: removing it does
    nothing, even through a nil connection, and adding it issues the
    change at once. *)
Theorem empty_route_table_is_not_looked_up {W} (sdk : SDK W) (conn : option (EC2 W))
    (att : string) (w : W) :
  ec2TransitGatewayRouteTableAssociationUpdate sdk conn "" att false w = Done None w [] ∧
  ec2TransitGatewayRouteTablePropagationUpdate conn "" att false w = Done None w [] ∧
  ec2TransitGatewayRouteTableAssociationUpdate sdk None "" att true w = Panic ∧
  ec2TransitGatewayRouteTablePropagationUpdate None "" att true w = Panic ∧
  ∀ c,
    ec2TransitGatewayRouteTablePropagationUpdate (Some c) "" att true w
    = let request :=
        EnableTransitGatewayRouteTablePropagation (aws.String att) (aws.String "") in
      let '((_, err), w1) := c request w in
      Done (match err with
            | Some e =>
                Some (Errorf ["error enabling EC2 Transit Gateway Attachment ("; att;
                              ") propagation to Route Table ("; ""; "): "; errorText e])
            | None => None
            end)
        w1 [Called request err].
Proof.
  refine (conj _ (conj _ (conj _ (conj _ _)))); try reflexivity.
  intros c. unfold ec2TransitGatewayRouteTablePropagationUpdate,
    ec2DescribeTransitGatewayRouteTablePropagation.
  rewrite decide_True by done.
  unfold mbind, M_bind, mret, M_ret, call. simpl.
  destruct (c _ w) as [[out err] w1]. by destruct err.
Qed.

(** ** A failed page *)

(** X16.  When a listing helper returns an error it returns no item, also
    none of the pages it had read before the failing one. *)
Theorem failed_listing_returns_no_item {W} (maxPages : nat) (conn : option (EC2 W))
    (domainID : string) (filters : list Filter.t) (w : W) :
  (∀ associations e w' tr,
     ec2GetTransitGatewayMulticastDomainAssociations maxPages conn domainID w
       = Done (associations, Some e) w' tr →
     associations = []) ∧
  (∀ groups e w' tr,
     ec2SearchTransitGatewayMulticastDomainGroups maxPages conn domainID filters w
       = Done (groups, Some e) w' tr →
     groups = []).
Proof.
  split.
  - intros associations e w' tr H. by apply associations_sound in H as [-> _].
  - intros groups e w' tr H. by apply groups_sound in H as [-> _].
Qed.

Lemma failed_listing_returns_no_item_witness :
  let denied := AWSError "UnauthorizedOperation" "denied" in
  ec2GetTransitGatewayMulticastDomainAssociations 2
    (Some (interrupted [subnetIn "subnet-a" "associated"] denied))
    "tgw-mcast-domain-1" 0%nat
  = Done ([], Some denied) 2%nat
      [Called (GetTransitGatewayMulticastDomainAssociations
                 (Some "tgw-mcast-domain-1") None) None;
       Called (GetTransitGatewayMulticastDomainAssociations
                 (Some "tgw-mcast-domain-1") (Some "page-2")) (Some denied)] ∧
  ([] : list (option TransitGatewayMulticastDomainAssociation.t)) = [].
Proof.
  intros denied. split; [reflexivity|].
  pose proof (failed_listing_returns_no_item 2
                (Some (interrupted [subnetIn "subnet-a" "associated"] denied))
                "tgw-mcast-domain-1" [] 0%nat) as [Hassociations _].
  apply (Hassociations [] denied 2%nat
           [Called (GetTransitGatewayMulticastDomainAssociations
                      (Some "tgw-mcast-domain-1") None) None;
            Called (GetTransitGatewayMulticastDomainAssociations
                      (Some "tgw-mcast-domain-1") (Some "page-2")) (Some denied)]).
  reflexivity.
Defined.
